(** * Brickwatch agent: policy engine, recommendation collector, cost
    analytics helpers, workflow runner and its steps, automation endpoint
    and the tool that calls it.

    A shallow embedding of the Python sources and the properties proved
    about them.

    Conventions of the embedding
    - A Python object that travels as JSON (a recommendation record, a step
      result, an execution context, the policy table) is a [value]; a [dict]
      is an association list in insertion order, as Python keeps it.
    - A Python [float] is an IEEE binary64 number: Rocq's primitive [float],
      with the same round-to-nearest-even operations.
    - A Python [str] is a [string] of bytes, the UTF-8 encoding of its
      characters.
    - A call to a cloud service is a field of an environment record; a call
      that may raise returns a [result].
    - Logging has no effect on any result and is left out. *)

From Stdlib Require Import ZArith String Ascii List Bool Lia Floats.
From Stdlib Require Import DecimalString.
From stdpp Require Import base list.
Import ListNotations.

Set Warnings "-inexact-float,-register-all".
Local Open Scope Z_scope.

(** ** Python values *)

Module Py.

Inductive value : Type :=
| VNone
| VBool (b : bool)
| VInt (z : Z)
| VFloat (x : float)
| VStr (s : string)
| VList (l : list value)
| VDict (d : list (string * value)).

Definition dict : Type := list (string * value).

(** The outcome of a call that may raise: the exception carries its text. *)
Inductive result (A : Type) : Type :=
| Ok (a : A)
| Raise (msg : string).
Arguments Ok {A} a.
Arguments Raise {A} msg.

(** [d.get(k)], [None] of the option for an absent key. *)
Fixpoint dict_get (d : dict) (k : string) : option value :=
  match d with
  | [] => None
  | (k', v) :: d' => if String.eqb k' k then Some v else dict_get d' k
  end.

(** [d.get(k, dflt)] and [d.get(k)]. *)
Definition get_default (d : dict) (k : string) (dflt : value) : value :=
  match dict_get d k with Some v => v | None => dflt end.

Definition get (d : dict) (k : string) : value := get_default d k VNone.

(** [k in d]. *)
Definition has_key (d : dict) (k : string) : bool :=
  match dict_get d k with Some _ => true | None => false end.

(** [d[k] = v]: an existing key keeps its place, a new one goes last. *)
Fixpoint dict_set (d : dict) (k : string) (v : value) : dict :=
  match d with
  | [] => [(k, v)]
  | (k', v') :: d' =>
      if String.eqb k' k then (k, v) :: d' else (k', v') :: dict_set d' k v
  end.

(** [d.update(other)]. *)
Definition dict_update (d other : dict) : dict :=
  fold_left (fun acc kv => dict_set acc (fst kv) (snd kv)) other d.

(** The entries of an object that is a dict. *)
Definition entries (v : value) : dict :=
  match v with VDict d => d | _ => [] end.

(** Truth value of an object, as [if x], [not x], [x or y] and [all] take it. *)
Definition truthy (v : value) : bool :=
  match v with
  | VNone => false
  | VBool b => b
  | VInt z => negb (z =? 0)
  | VFloat x => negb (PrimFloat.eqb x 0)
  | VStr s => negb (String.eqb s "")
  | VList l => match l with [] => false | _ => true end
  | VDict d => match d with [] => false | _ => true end
  end.

(** [a or b]. *)
Definition py_or (a b : value) : value := if truthy a then a else b.

(** [v == s] and [v != s] for a str [s]. *)
Definition eq_str (v : value) (s : string) : bool :=
  match v with VStr s' => String.eqb s' s | _ => false end.

(** ** Strings *)

Definition newline : ascii := ascii_of_nat 10.

(** [s.replace(old, new)] for a one-character [old]. *)
Fixpoint str_replace1 (old : ascii) (new : string) (s : string) : string :=
  match s with
  | EmptyString => EmptyString
  | String c s' =>
      if Ascii.eqb c old then String.append new (str_replace1 old new s')
      else String c (str_replace1 old new s')
  end.

(** [s.startswith(p)]. *)
Fixpoint startswith (p s : string) : bool :=
  match p, s with
  | EmptyString, _ => true
  | String a p', String b s' => Ascii.eqb a b && startswith p' s'
  | String _ _, EmptyString => false
  end.

(** [p in s] for two strs. *)
Fixpoint str_contains (p s : string) : bool :=
  startswith p s ||
  match s with
  | EmptyString => false
  | String _ s' => str_contains p s'
  end.

(** [s.split('/')[-1]]: what follows the last separator. *)
Fixpoint last_segment_from (sep : ascii) (s acc : string) : string :=
  match s with
  | EmptyString => acc
  | String c s' =>
      if Ascii.eqb c sep then last_segment_from sep s' s'
      else last_segment_from sep s' acc
  end.

Definition last_segment (sep : ascii) (s : string) : string :=
  last_segment_from sep s s.

(** [s.lower()] on ASCII letters. *)
Definition lower_ascii (c : ascii) : ascii :=
  let n := nat_of_ascii c in
  if ((65 <=? n) && (n <=? 90))%nat then ascii_of_nat (n + 32) else c.

Fixpoint str_lower (s : string) : string :=
  match s with
  | EmptyString => EmptyString
  | String c s' => String (lower_ascii c) (str_lower s')
  end.

(** [str(n)] for a length. *)
Definition str_of_nat (n : nat) : string := NilZero.string_of_uint (Nat.to_uint n).

Definition str_of_Z (z : Z) : string := NilZero.string_of_int (Z.to_int z).

(** ** Floats *)

(** [float(z)]: the nearest binary64 number. *)
Definition float_of_Z (z : Z) : float :=
  SF2Prim (binary_normalize prec emax z 0 false).

(** Round half to even of the rational [n / d], [d > 0]. *)
Definition round_half_even (n d : Z) : Z :=
  let q := n / d in
  let r := n mod d in
  match 2 * r ?= d with
  | Lt => q
  | Gt => q + 1
  | Eq => if Z.even q then q else q + 1
  end.

(** The magnitude of a finite float times [10 ^ digits], rounded half to even
    on its exact value; [None] for an infinity or a NaN. *)
Definition scaled_magnitude (digits : nat) (x : float) : option Z :=
  match Prim2SF x with
  | S754_zero _ => Some 0
  | S754_finite _ m e =>
      let n := Z.pos m * 10 ^ Z.of_nat digits in
      Some (if 0 <=? e then n * 2 ^ e else round_half_even n (2 ^ (- e)))
  | S754_infinity _ | S754_nan => None
  end.

Definition sign_bit (x : float) : bool :=
  match Prim2SF x with
  | S754_zero s | S754_infinity s | S754_finite s _ _ => s
  | S754_nan => false
  end.

(** [round(x, 2)]: the binary64 number nearest to the two-digit decimal that
    is nearest to [x].  From 2^46 on, the spacing of binary64 numbers exceeds
    the rounding step and [round] returns its argument. *)
Definition round2 (x : float) : float :=
  match scaled_magnitude 2 x with
  | None => x
  | Some c =>
      if PrimFloat.ltb (PrimFloat.abs x) 70368744177664 then
        let y := PrimFloat.div (float_of_Z c) 100 in
        if sign_bit x then PrimFloat.opp y else y
      else x
  end.

(** Pad a decimal numeral with zeros on the left up to [width] characters. *)
Fixpoint zeros_then (k : nat) (s : string) : string :=
  match k with
  | O => s
  | S k' => zeros_then k' (String "0" s)
  end.

Definition zero_pad (width : nat) (s : string) : string :=
  zeros_then (width - String.length s) s.

(** [f"{x:.<digits>f}"]: fixed notation with [digits] decimals. *)
Definition format_fixed (digits : nat) (x : float) : string :=
  match scaled_magnitude digits x with
  | Some c =>
      let p := 10 ^ Z.of_nat digits in
      let body :=
        String.append (str_of_Z (c / p))
          (String.append "." (zero_pad digits (str_of_Z (c mod p)))) in
      if sign_bit x then String "-" body else body
  | None =>
      match Prim2SF x with
      | S754_infinity true => "-inf"
      | S754_infinity false => "inf"
      | _ => "nan"
      end
  end%string.

(** [f"${x:.2f}"]. *)
Definition format_money (x : float) : string := String "$" (format_fixed 2 x).

End Py.

(** ** Company cost policies ([company_policies.py]) *)

Module Policy.
Import Py.

Definition strs (l : list string) : value := VList (map VStr l).

(** The policy registry, entry by entry as the module defines it. *)
Definition COMPANY_COST_POLICIES : dict :=
  [ ("metadata", VDict
      [ ("company_name", VStr "Brickwatch Demo Corp");
        ("policy_version", VStr "2025-Q1");
        ("enforcement_level", VStr "strict");
        ("effective_date", VStr "2025-01-01");
        ("description",
         VStr "Cost optimization policies to ensure efficient AWS resource usage") ]);
    ("ec2", VDict
      [ ("disallowed_instance_types", strs
          [ "r5.*"; "r5a.*"; "r5b.*"; "r5n.*"; "r6i.*"; "r6a.*";
            "m5.*"; "m5a.*"; "m5n.*"; "m6i.*";
            "c5.*"; "c5a.*"; "c5n.*"; "c6i.*";
            "t2.*"; "t3.large"; "t3.xlarge"; "t3.2xlarge" ]);
        ("recommended_types", strs [ "t3.micro"; "t3.small"; "t3.medium" ]);
        ("rationale",
         VStr "Cost optimization - only T3 instance family up to medium size allowed. R5, M5, C5, and T2 families are not approved.");
        ("exceptions", VDict
          [ ("tags", VDict
              [ ("Environment", strs [ "production"; "prod" ]);
                ("CriticalWorkload", strs [ "true" ]) ]) ]) ]);
    ("rds", VDict
      [ ("disallowed_instance_classes", strs
          [ "db.r5.*"; "db.r5b.*"; "db.r6i.*"; "db.m5.*"; "db.m6i.*" ]);
        ("recommended_classes", strs [ "db.t3.micro"; "db.t3.small"; "db.t3.medium" ]);
        ("storage", VDict
          [ ("max_provisioned_iops", VInt 3000);
            ("disallowed_storage_types", strs [ "io1"; "io2" ]);
            ("recommended_storage_type", VStr "gp3");
            ("max_allocated_storage_gb", VInt 100) ]);
        ("rationale",
         VStr "Database cost optimization - T3 instances are sufficient for most workloads. Use gp3 storage instead of provisioned IOPS.");
        ("features", VDict
          [ ("multi_az", VDict
              [ ("allowed", VBool false);
                ("except_for_tags", strs [ "production"; "critical" ]);
                ("rationale", VStr "Multi-AZ doubles cost; reserve for critical workloads") ]);
            ("backup_retention_days", VDict
              [ ("max", VInt 7);
                ("recommended", VInt 3);
                ("rationale", VStr "Keep backup storage in check") ]) ]) ]);
    ("lambda", VDict
      [ ("timeout", VDict
          [ ("max_seconds", VInt 300);
            ("recommended_seconds", VInt 60);
            ("rationale",
             VStr "Most functions should complete within 60s to avoid runaway costs") ]);
        ("reserved_concurrency", VDict
          [ ("max", VInt 100);
            ("rationale", VStr "Prevent runaway costs from unlimited scaling") ]) ]);
    ("ebs", VDict
      [ ("disallowed_volume_types", strs [ "io1"; "io2" ]);
        ("recommended_types", strs [ "gp3" ]);
        ("max_volume_size_gb", VInt 1000);
        ("rationale",
         VStr "gp3 provides good performance at lower cost than provisioned IOPS");
        ("unattached_volume_policy", VDict
          [ ("max_age_days", VInt 7);
            ("action", VStr "snapshot_and_delete");
            ("rationale",
             VStr "Unattached volumes waste budget; clean up after 7 days") ]) ]);
    ("s3", VDict
      [ ("storage_class", VDict
          [ ("disallowed", strs [ "STANDARD" ]);
            ("recommended", strs [ "INTELLIGENT_TIERING"; "GLACIER_IR" ]);
            ("rationale",
             VStr "Use Intelligent-Tiering for automatic cost optimization") ]);
        ("lifecycle_policy_required", VBool true);
        ("versioning", VDict
          [ ("max_versions", VInt 3);
            ("rationale", VStr "Limit versioning bloat; keep only 3 versions") ]) ]);
    ("elasticache", VDict
      [ ("disallowed_node_types", strs
          [ "cache.r5.*"; "cache.r6g.*"; "cache.m5.*"; "cache.m6g.*" ]);
        ("recommended_types", strs
          [ "cache.t3.micro"; "cache.t3.small"; "cache.t3.medium" ]);
        ("rationale",
         VStr "T3 cache nodes are sufficient for most caching workloads") ]);
    ("general", VDict
      [ ("unused_resources", VDict
          [ ("check_interval_days", VInt 30);
            ("action", VStr "flag_for_deletion");
            ("applies_to", strs [ "ebs_volumes"; "elastic_ips"; "snapshots"; "old_amis" ]);
            ("rationale", VStr "Regular cleanup avoids unnecessary spend") ]);
        ("tagging_required", VDict
          [ ("required_tags", strs [ "Environment"; "Owner"; "CostCenter" ]);
            ("rationale", VStr "Tagging supports allocation and accountability") ]);
        ("region_restrictions", VDict
          [ ("allowed_regions", strs [ "us-east-1"; "us-west-2" ]);
            ("rationale", VStr "Standardize regions for pricing and governance") ]) ]) ]%string.

(** [COMPANY_COST_POLICIES.get(service, {})]. *)
Definition get_policy (service : string) : value :=
  get_default COMPANY_COST_POLICIES service (VDict []).

(** The strs of a list entry of a policy.  Every list of the registry is a
    list of strs. *)
Fixpoint str_items (l : list value) : list string :=
  match l with
  | [] => []
  | VStr s :: l' => s :: str_items l'
  | _ :: l' => str_items l'
  end.

Definition str_list (v : value) : list string :=
  match v with VList l => str_items l | _ => [] end.

(** *** The fragment of [re] that the translated globs use

    [pattern.replace(".", r"\.").replace("*", ".*")] turns a glob of letters,
    digits, dots and stars into a regular expression whose source holds
    literal characters, escaped characters [\c], the wildcard [.] and the
    postfix star.  Only that fragment is interpreted. *)

Inductive re_atom : Type :=
| RChar (c : ascii)
| RAny.

Inductive re_item : Type :=
| ROne (a : re_atom)
| RStar (a : re_atom).

(** Does the source go on with a star?  Then the atom before it is repeated. *)
Definition with_star (a : re_atom) (rest : string) (k : string -> list re_item)
  : list re_item :=
  match rest with
  | String c rest' =>
      if Ascii.eqb c "*" then RStar a :: k rest' else ROne a :: k rest
  | EmptyString => ROne a :: k rest
  end.

(** Compile the source of a regular expression of the fragment.  The fuel is
    the length of the source: every step consumes at least a character. *)
Fixpoint re_compile_fuel (fuel : nat) (src : string) : list re_item :=
  match fuel with
  | O => []
  | S fuel' =>
      match src with
      | EmptyString => []
      | String c rest =>
          if Ascii.eqb c "\" then
            match rest with
            | String c' rest' => with_star (RChar c') rest' (re_compile_fuel fuel')
            | EmptyString => [ROne (RChar c)]
            end
          else if Ascii.eqb c "." then with_star RAny rest (re_compile_fuel fuel')
          else with_star (RChar c) rest (re_compile_fuel fuel')
      end
  end.

Definition re_compile (src : string) : list re_item :=
  re_compile_fuel (String.length src) src.

(** [.] matches any character except a newline. *)
Definition atom_matches (a : re_atom) (c : ascii) : bool :=
  match a with
  | RChar c' => Ascii.eqb c' c
  | RAny => negb (Ascii.eqb c newline)
  end.

(** [re.match("^" + src + "$", s)] on the compiled items: the whole of [s] is
    consumed, except that [$] also matches before a newline that ends [s]. *)
Fixpoint items_match (r : list re_item) : string -> bool :=
  match r with
  | [] => fun s =>
      match s with
      | EmptyString => true
      | String c EmptyString => Ascii.eqb c newline
      | _ => false
      end
  | ROne a :: r' => fun s =>
      match s with
      | String c s' => atom_matches a c && items_match r' s'
      | EmptyString => false
      end
  | RStar a :: r' =>
      fix star (s : string) : bool :=
        items_match r' s ||
        match s with
        | String c s' => atom_matches a c && star s'
        | EmptyString => false
        end
  end.

(** [re.match(f"^{regex_pattern}$", s)] as a truth value. *)
Definition re_match_anchored (regex_pattern s : string) : bool :=
  items_match (re_compile regex_pattern) s.

(** [pattern.replace(".", r"\.").replace("*", ".*")]: the regular expression
    a glob stands for. *)
Definition translate (pattern : string) : string :=
  str_replace1 "*" ".*" (str_replace1 "." "\." pattern).

(** The loop of [is_instance_type_allowed] over the disallowed patterns. *)
Fixpoint allowed_by (disallowed : list string) (instance_type : string) : bool :=
  match disallowed with
  | [] => true
  | pattern :: rest =>
      let regex_pattern := translate pattern in
      if re_match_anchored regex_pattern instance_type then false
      else allowed_by rest instance_type
  end.

(** [policy.get("disallowed_instance_types", [])] of a resource kind. *)
Definition disallowed_instance_types (service : string) : list string :=
  str_list
    (get_default (entries (get_policy service)) "disallowed_instance_types" (VList [])).

Definition is_instance_type_allowed (instance_type service : string) : bool :=
  let policy := get_policy service in
  if negb (truthy policy) then true
  else allowed_by (disallowed_instance_types service) instance_type.

Definition get_recommended_type (current_type service : string) : string :=
  let policy := get_policy service in
  if negb (truthy policy) then current_type
  else
    let recommended :=
      str_list (get_default (entries policy) "recommended_types" (VList [])) in
    match recommended with
    | [] => current_type
    | first :: _ =>
        if existsb (String.eqb "t3.medium") recommended then "t3.medium"%string
        else first
    end.

Definition get_policy_rationale (service : string) : value :=
  get_default (entries (get_policy service)) "rationale"
    (VStr "Company cost optimization policy").

(** *** The glob match the specification describes

    Anchored, case-sensitive, [.] literal, [*] any sequence of characters. *)
Fixpoint glob_match (p : string) : string -> bool :=
  match p with
  | EmptyString => fun s => match s with EmptyString => true | _ => false end
  | String c p' =>
      if Ascii.eqb c "*" then
        fix star (s : string) : bool :=
          glob_match p' s ||
          match s with
          | String _ s' => star s'
          | EmptyString => false
          end
      else fun s =>
        match s with
        | String d s' => Ascii.eqb c d && glob_match p' s'
        | EmptyString => false
        end
  end.

(** The disallowed patterns of a resource kind as the data model of the
    specification names them: the list its policy keeps under the first key
    that starts with [disallowed_]. *)
Fixpoint first_disallowed (d : dict) : list string :=
  match d with
  | [] => []
  | (k, v) :: d' =>
      if startswith "disallowed_" k then str_list v else first_disallowed d'
  end.

Definition spec_disallowed_patterns (service : string) : list string :=
  first_disallowed (entries (get_policy service)).

(** *** Vocabulary of the properties *)

(** No newline in a str. *)
Fixpoint no_newline (s : string) : bool :=
  match s with
  | EmptyString => true
  | String c s' => negb (Ascii.eqb c newline) && no_newline s'
  end.

(** No backslash in a glob. *)
Fixpoint no_backslash (p : string) : bool :=
  match p with
  | EmptyString => true
  | String c p' => negb (Ascii.eqb c "\") && no_backslash p'
  end.

(** The items of a glob, read off the glob itself. *)
Fixpoint glob_items (p : string) : list re_item :=
  match p with
  | EmptyString => []
  | String c p' =>
      (if Ascii.eqb c "*" then RStar RAny else ROne (RChar c)) :: glob_items p'
  end.

End Policy.

(** ** Recommendation collector (the agent runtime's [app.py]) *)

Module Collector.
Import Py Policy.

(** *** What the collector reads from the cloud services

    Responses have the shape the service documents; a field that the code
    reads with [.get] may be absent. *)

Record ec2_instance : Type := {
  InstanceId : string;
  InstanceType : string;
  LaunchTime : string;                 (* [instance['LaunchTime'].isoformat()] *)
  Tags : list (string * string)
}.

Record optimizer_option : Type := {
  instanceType : option string;
  estimatedMonthlySavings : option float;   (* savingsOpportunity.estimatedMonthlySavings.value *)
  rank : option Z
}.

Record optimizer_rec : Type := {
  instanceArn : option string;
  currentInstanceType : option string;
  recommendationOptions : list optimizer_option;
  cpuUtilization : option float;       (* utilizationMetrics.cpuUtilization.value *)
  memoryUtilization : option float
}.

Record lambda_function : Type := {
  FunctionName : string;
  MemorySize : Z
}.

(** [get_bucket_lifecycle_configuration]: a configuration, a [ClientError]
    with its code, or another exception. *)
Inductive lifecycle_outcome : Type :=
| HasLifecycle
| LifecycleClientError (code : string)
| LifecycleOtherError (msg : string).

Record aws : Type := {
  get_enrollment_status : result (option string);
  describe_instances : result (list ec2_instance);     (* running instances *)
  get_ec2_instance_recommendations : result (list optimizer_rec);
  list_functions : result (list lambda_function);
  get_function_concurrency : string -> result (option Z);
  list_buckets : result (list string);
  get_bucket_lifecycle_configuration : string -> lifecycle_outcome;
  get_metric_statistics : string -> result (list float)  (* the Average of each datapoint *)
}.

Definition str_or (o : option string) (dflt : string) : value :=
  VStr (match o with Some s => s | None => dflt end).

Definition float_or_zero (o : option float) : float :=
  match o with Some x => x | None => 0%float end.

(** *** [check_lambda_functions] *)

(** The savings of a memory reduction to 1 GB, in dollars. *)
Definition lambda_memory_savings (memory_size : Z) : float :=
  let current_gb := (float_of_Z memory_size / 1024)%float in
  let recommended_gb := 1%float in
  let gb_seconds_saved := ((current_gb - recommended_gb) * 1000000)%float in
  let monthly_savings := round2 (gb_seconds_saved * 0.0000166667)%float in
  if PrimFloat.ltb monthly_savings 5 then 5%float else monthly_savings.

Definition lambda_memory_rec (function_name : string) (memory_size : Z) : value :=
  VDict
    [ ("resource_type", VStr "Lambda");
      ("function_name", VStr function_name);
      ("current_memory_mb", VInt memory_size);
      ("recommended_memory_mb", VInt 1024);
      ("estimated_monthly_savings", VStr (format_money (lambda_memory_savings memory_size)));
      ("reason", VStr "Over-provisioned memory - most functions don't need > 5GB, recommend 1GB");
      ("confidence", VStr "Policy-Based");
      ("recommendation_source", VStr "Company Cost Policy") ]%string.

Definition lambda_concurrency_rec (function_name : string)
    (reserved_concurrency max_concurrency : Z) : value :=
  VDict
    [ ("resource_type", VStr "Lambda");
      ("function_name", VStr function_name);
      ("current_concurrency", VInt reserved_concurrency);
      ("recommended_concurrency", VInt max_concurrency);
      ("estimated_monthly_savings", VStr "$10.00");
      ("reason", VStr (String.append "Reserved concurrency exceeds policy maximum of "
                         (str_of_Z max_concurrency)));
      ("confidence", VStr "Policy-Based");
      ("recommendation_source", VStr "Company Cost Policy") ]%string.

(** The recommendations one function adds, in the order the loop body appends
    them.  A failing concurrency lookup is passed over. *)
Definition lambda_function_recs (env : aws) (max_concurrency : value)
    (func : lambda_function) : list value :=
  let function_name := FunctionName func in
  let memory_size := MemorySize func in
  (if 5120 <? memory_size then [lambda_memory_rec function_name memory_size] else [])
  ++
  match get_function_concurrency env function_name, max_concurrency with
  | Ok (Some reserved_concurrency), VInt mx =>
      if negb (reserved_concurrency =? 0) && (mx <? reserved_concurrency)
      then [lambda_concurrency_rec function_name reserved_concurrency mx]
      else []
  | _, _ => []
  end.

Fixpoint lambda_loop (env : aws) (max_concurrency : value)
    (functions : list lambda_function) (recommendations : list value) : list value :=
  match functions with
  | [] => recommendations
  | func :: rest =>
      lambda_loop env max_concurrency rest
        (recommendations ++ lambda_function_recs env max_concurrency func)
  end.

(** Returns [(recommendations, total_functions)]. *)
Definition check_lambda_functions (env : aws) : list value * nat :=
  match list_functions env with
  | Raise _ => ([], O)
  | Ok functions =>
      let total_functions := length functions in
      let lambda_policy := get_policy "lambda" in
      if negb (truthy lambda_policy) then ([], total_functions)
      else
        let max_concurrency :=
          get_default
            (entries (get_default (entries lambda_policy) "reserved_concurrency" (VDict [])))
            "max" (VInt 100) in
        (lambda_loop env max_concurrency functions [], total_functions)
  end.

(** *** [check_s3_buckets] *)

(** The savings estimate of a bucket from its size datapoints. *)
Definition s3_estimated_savings (metrics : result (list float)) : float :=
  match metrics with
  | Ok (size_bytes :: _) =>
      let size_gb := (size_bytes / 1073741824)%float in
      let estimated_savings := round2 (size_gb * 0.007)%float in
      if PrimFloat.ltb 100 estimated_savings then 100%float
      else if PrimFloat.ltb estimated_savings 5 then 5%float
      else estimated_savings
  | Ok [] => 5%float
  | Raise _ => 5%float
  end.

Definition s3_lifecycle_rec (bucket_name : string) (estimated_savings : float) : value :=
  VDict
    [ ("resource_type", VStr "S3");
      ("bucket_name", VStr bucket_name);
      ("issue", VStr "No lifecycle policy configured");
      ("recommended_action", VStr "Add Intelligent-Tiering or transition to Glacier");
      ("estimated_monthly_savings", VStr (format_money estimated_savings));
      ("reason", VStr "Policy requires lifecycle management for all buckets");
      ("confidence", VStr "Policy-Based");
      ("recommendation_source", VStr "Company Cost Policy") ]%string.

Definition s3_bucket_recs (env : aws) (bucket_name : string) : list value :=
  match get_bucket_lifecycle_configuration env bucket_name with
  | HasLifecycle => []
  | LifecycleClientError code =>
      if String.eqb code "NoSuchLifecycleConfiguration" then
        [s3_lifecycle_rec bucket_name
           (s3_estimated_savings (get_metric_statistics env bucket_name))]
      else []
  | LifecycleOtherError _ => []
  end.

Fixpoint s3_loop (env : aws) (buckets : list string) (recommendations : list value)
  : list value :=
  match buckets with
  | [] => recommendations
  | bucket_name :: rest =>
      s3_loop env rest (recommendations ++ s3_bucket_recs env bucket_name)
  end.

(** Returns [(recommendations, total_buckets)]. *)
Definition check_s3_buckets (env : aws) : list value * nat :=
  match list_buckets env with
  | Raise _ => ([], O)
  | Ok buckets =>
      let total_buckets := length buckets in
      let s3_policy := get_policy "s3" in
      if negb (truthy s3_policy)
         || negb (truthy (get (entries s3_policy) "lifecycle_policy_required"))
      then ([], total_buckets)
      else (s3_loop env buckets [], total_buckets)
  end.

(** *** [get_rightsizing_recommendations] *)

(** [{tag['Key']: tag['Value'] for tag in instance.get('Tags', [])}]. *)
Definition tags_dict (tags : list (string * string)) : dict :=
  fold_left (fun d kv => dict_set d (fst kv) (VStr (snd kv))) tags [].

(** The savings heuristic by instance family. *)
Definition ec2_estimated_savings (instance_type : string) : float :=
  if startswith "r5" instance_type || startswith "m5" instance_type then 50%float
  else if startswith "c5" instance_type then 40%float
  else if str_contains "t3.large" instance_type then 20%float
  else if str_contains "t3.xlarge" instance_type then 40%float
  else 0%float.

Definition policy_violation_rec (instance : ec2_instance) : value :=
  let instance_type := InstanceType instance in
  VDict
    [ ("resource_type", VStr "EC2");
      ("instance_id", VStr (InstanceId instance));
      ("current_instance_type", VStr instance_type);
      ("recommended_instance_type", VStr (get_recommended_type instance_type "ec2"));
      ("violation_type", VStr "disallowed_instance_type");
      ("reason", get_policy_rationale "ec2");
      ("estimated_monthly_savings", VStr (format_money (ec2_estimated_savings instance_type)));
      ("confidence", VStr "Policy-Based");
      ("recommendation_source", VStr "Company Cost Policy");
      ("tags", VDict (tags_dict (Tags instance))) ]%string.

(** Step 2: one record for each running instance of a disallowed type. *)
Fixpoint policy_loop (running_instances : list ec2_instance)
    (policy_violations : list value) : list value :=
  match running_instances with
  | [] => policy_violations
  | instance :: rest =>
      if negb (is_instance_type_allowed (InstanceType instance) "ec2")
      then policy_loop rest (policy_violations ++ [policy_violation_rec instance])
      else policy_loop rest policy_violations
  end.

Definition optimizer_instance_id (rec : optimizer_rec) : string :=
  match instanceArn rec with
  | Some instance_arn =>
      if String.eqb instance_arn "" then "N/A"%string else last_segment "/" instance_arn
  | None => "N/A"%string
  end.

(** [any(pv['instance_id'] == instance_id for pv in policy_violations)]. *)
Definition already_flagged (policy_violations : list value) (instance_id : string) : bool :=
  existsb (fun pv => eq_str (get (entries pv) "instance_id") instance_id) policy_violations.

Definition optimizer_recommended_type (best_option : optimizer_option) : string :=
  let recommended_type :=
    match instanceType best_option with Some t => t | None => "N/A"%string end in
  if negb (is_instance_type_allowed recommended_type "ec2")
  then get_recommended_type recommended_type "ec2"
  else recommended_type.

Definition percent (x : float) : value :=
  VStr (String.append (format_fixed 1 x) "%").

Definition optimizer_recommendation (rec : optimizer_rec) (best_option : optimizer_option)
  : value :=
  VDict
    [ ("resource_type", VStr "EC2");
      ("instance_id", VStr (optimizer_instance_id rec));
      ("current_instance_type", str_or (currentInstanceType rec) "N/A");
      ("recommended_instance_type", VStr (optimizer_recommended_type best_option));
      ("estimated_monthly_savings",
       VStr (format_money (float_or_zero (estimatedMonthlySavings best_option))));
      ("confidence",
       match rank best_option with Some r => VInt r | None => VStr "N/A" end);
      ("recommendation_source", VStr "Compute Optimizer");
      ("utilization_metrics", VDict
         [ ("cpu", percent (float_or_zero (cpuUtilization rec)));
           ("memory", percent (float_or_zero (memoryUtilization rec))) ]) ]%string.

(** Step 3: the optimizer's suggestions, those already flagged by policy and
    those without an option skipped. *)
Fixpoint optimizer_loop (policy_violations : list value) (recs : list optimizer_rec)
    (recommendations : list value) : list value :=
  match recs with
  | [] => recommendations
  | rec :: rest =>
      if already_flagged policy_violations (optimizer_instance_id rec)
      then optimizer_loop policy_violations rest recommendations
      else
        match recommendationOptions rec with
        | best_option :: _ =>
            optimizer_loop policy_violations rest
              (recommendations ++ [optimizer_recommendation rec best_option])
        | [] => optimizer_loop policy_violations rest recommendations
        end
  end.

(** [all_recommendations[:limit]] under [if limit and len(...) > limit]. *)
Definition slice_to {A : Type} (limit : Z) (l : list A) : list A :=
  if 0 <=? limit then take (Z.to_nat limit) l
  else take (length l - Z.to_nat (- limit)) l.

Definition cap_results {A : Type} (limit : Z) (l : list A) : list A :=
  if negb (limit =? 0) && (limit <? Z.of_nat (length l)) then slice_to limit l else l.

(** The part of the JSON result the properties below read. *)
Record report : Type := {
  enrollment_status : string;
  policy_violations : nat;             (* [len(policy_violations)] *)
  optimizer_recommendations : nat;     (* [len(recommendations)] *)
  total_recommendations : nat;
  services_analyzed : list (string * nat);   (* [service_summary] *)
  recommendations : list value
}.

(** The tool returns the JSON text of a report, or an error text. *)
Inductive tool_output : Type :=
| Report (r : report)
| ErrorText (msg : string).

(** The optimizer's list: empty when the call raises. *)
Definition ec2_optimizer_recommendations (env : aws) (violations : list value)
  : list value :=
  match get_ec2_instance_recommendations env with
  | Ok recs => optimizer_loop violations recs []
  | Raise _ => []
  end.

(** The lists of the other services, empty for a service that is not asked for. *)
Definition lambda_recs (env : aws) (resource_types : string) : list value :=
  if str_contains "Lambda" resource_types then fst (check_lambda_functions env) else [].

Definition s3_recs (env : aws) (resource_types : string) : list value :=
  if str_contains "S3" resource_types then fst (check_s3_buckets env) else [].

Definition get_rightsizing_recommendations (env : aws) (resource_types : string)
    (limit : Z) : tool_output :=
  let ec2_enabled := str_contains "EC2" resource_types in
  let enrollment :=
    if ec2_enabled then
      match get_enrollment_status env with
      | Ok (Some status) => status
      | Ok None => "Unknown"%string
      | Raise _ => "Unknown"%string
      end
    else "N/A"%string in
  match (if ec2_enabled then describe_instances env else Ok []) with
  | Raise e => ErrorText (String.append "Error analyzing EC2 instances: " e)
  | Ok running_instances =>
      let violations := policy_loop running_instances [] in
      let metrics_recommendations : list value := [] in
      let optimizer :=
        if ec2_enabled then ec2_optimizer_recommendations env violations else [] in
      let all_recommendations := violations ++ metrics_recommendations ++ optimizer in
      let summary := [("EC2"%string, length all_recommendations)] in
      let all_recommendations := all_recommendations ++ lambda_recs env resource_types in
      let summary :=
        if str_contains "Lambda" resource_types
        then summary ++ [("Lambda"%string, length (lambda_recs env resource_types))]
        else summary in
      let all_recommendations := all_recommendations ++ s3_recs env resource_types in
      let summary :=
        if str_contains "S3" resource_types
        then summary ++ [("S3"%string, length (s3_recs env resource_types))]
        else summary in
      let all_recommendations := cap_results limit all_recommendations in
      Report
        {| enrollment_status := enrollment;
           policy_violations := length violations;
           optimizer_recommendations := length optimizer;
           total_recommendations := length all_recommendations;
           services_analyzed := summary;
           recommendations := all_recommendations |}
  end.

(** *** Vocabulary of the properties *)

(** The provenance and the identity of a record. *)
Definition source (r : value) : value := get (entries r) "recommendation_source".

Definition policy_sourced (r : value) : bool := eq_str (source r) "Company Cost Policy".

Definition advisory_sourced (r : value) : bool := eq_str (source r) "Compute Optimizer".

Definition resource_type (r : value) : value := get (entries r) "resource_type".

Definition instance_id (r : value) : value := get (entries r) "instance_id".

(** What the optimizer loop adds for one suggestion. *)
Definition optimizer_step (violations : list value) (rec : optimizer_rec) : list value :=
  if already_flagged violations (optimizer_instance_id rec) then []
  else
    match recommendationOptions rec with
    | best_option :: _ => [optimizer_recommendation rec best_option]
    | [] => []
    end.

(** The shapes of the records of each source. *)
Definition ec2_policy_shape (x : value) : Prop :=
  exists i : ec2_instance, x = policy_violation_rec i.

Definition ec2_advisory_shape (violations : list value) (x : value) : Prop :=
  exists (rec : optimizer_rec) (best_option : optimizer_option),
    x = optimizer_recommendation rec best_option
    /\ already_flagged violations (optimizer_instance_id rec) = false.

Definition lambda_shape (x : value) : Prop :=
  (exists n m, x = lambda_memory_rec n m)
  \/ (exists n c mx, x = lambda_concurrency_rec n c mx).

Definition s3_shape (x : value) : Prop :=
  exists b s, x = s3_lifecycle_rec b s.

(** [x] clamped to the interval from [lo] to [hi], as the specification words
    the estimate of a bucket. *)
Definition clamp (lo hi x : float) : float :=
  if PrimFloat.ltb x lo then lo else if PrimFloat.ltb hi x then hi else x.

(** The estimate as the specification words it, in cents of exact decimal
    arithmetic: [(current_GB - 1) * 1,000,000 * 0.0000166667] dollars. *)
Definition exact_lambda_cents (memory_size : Z) : Z :=
  round_half_even ((memory_size - 1024) * 1000000 * 166667 * 100)
    (1024 * 10000000000).

(** An amount of cents as a currency text. *)
Definition money_of_cents (c : Z) : string :=
  String "$"
    (String.append (str_of_Z (c / 100))
       (String.append "." (zero_pad 2 (str_of_Z (c mod 100))))).

Definition lambda_savings_agree (memory_size : Z) : bool :=
  String.eqb (format_money (lambda_memory_savings memory_size))
    (money_of_cents (Z.max 500 (exact_lambda_cents memory_size))).

(** Every memory size the service allows above the threshold, up to its
    maximum of 10240 MB. *)
Definition lambda_memory_range : list Z :=
  map (fun k => 5121 + Z.of_nat k) (seq 0 (Z.to_nat 5120)).

(** *** Accounts used as instances of the properties *)

(** An account with one over-provisioned function. *)
Definition lambda_demo : aws :=
  {| get_enrollment_status := Ok (Some "Active"%string);
     describe_instances := Ok [];
     get_ec2_instance_recommendations := Ok [];
     list_functions := Ok [ {| FunctionName := "resize-images"; MemorySize := 8192 |} ];
     get_function_concurrency := fun _ => Ok (Some 250);
     list_buckets := Ok [ "logs"%string; "assets"%string ];
     get_bucket_lifecycle_configuration := fun b =>
       if String.eqb b "logs" then LifecycleClientError "NoSuchLifecycleConfiguration"
       else HasLifecycle;
     get_metric_statistics := fun _ => Ok [ 2147483648000%float ] |}.

(** An account with a suggestion of the optimizer for one instance and one
    over-provisioned function. *)
Definition mixed_demo : aws :=
  {| get_enrollment_status := Ok (Some "Active"%string);
     describe_instances := Ok [];
     get_ec2_instance_recommendations :=
       Ok [ {| instanceArn := Some "arn:aws:ec2:eu-central-1:1:instance/i-0a1"%string;
               currentInstanceType := Some "t3.medium"%string;
               recommendationOptions :=
                 [ {| instanceType := Some "t3.small"%string;
                      estimatedMonthlySavings := Some 7.5%float;
                      rank := Some 1 |} ];
               cpuUtilization := Some 3.5%float;
               memoryUtilization := None |} ];
     list_functions := Ok [ {| FunctionName := "resize-images"; MemorySize := 8192 |} ];
     get_function_concurrency := fun _ => Raise "ResourceNotFoundException";
     list_buckets := Ok [];
     get_bucket_lifecycle_configuration := fun _ => HasLifecycle;
     get_metric_statistics := fun _ => Ok [] |}.

(** An account with an instance of a disallowed type and a suggestion of the
    optimizer for a disallowed type. *)
Definition ec2_demo : aws :=
  {| get_enrollment_status := Ok (Some "Active"%string);
     describe_instances :=
       Ok [ {| InstanceId := "i-0b2"; InstanceType := "r5.large";
               LaunchTime := "2025-01-01T00:00:00+00:00";
               Tags := [ ("Environment", "dev") ] |} ]%string;
     get_ec2_instance_recommendations :=
       Ok [ {| instanceArn := Some "arn:aws:ec2:eu-central-1:1:instance/i-0c3"%string;
               currentInstanceType := Some "m5.xlarge"%string;
               recommendationOptions :=
                 [ {| instanceType := Some "m5.large"%string;
                      estimatedMonthlySavings := Some 30%float;
                      rank := Some 1 |} ];
               cpuUtilization := None;
               memoryUtilization := None |} ];
     list_functions := Ok [];
     get_function_concurrency := fun _ => Ok None;
     list_buckets := Ok [];
     get_bucket_lifecycle_configuration := fun _ => HasLifecycle;
     get_metric_statistics := fun _ => Ok [] |}.

(** The batch as the specification states it, for one call of the tool: at
    most [limit] records, every policy-sourced record before every
    advisory-sourced one, and no identifier in both groups. *)
Definition batch_as_specified (env : aws) (resource_types : string) (limit : Z) : Prop :=
  forall r : report,
    get_rightsizing_recommendations env resource_types limit = Report r ->
    Z.of_nat (length (recommendations r)) <= limit
    /\ (forall (i j : nat) (x y : value),
        recommendations r !! i = Some x -> recommendations r !! j = Some y ->
        policy_sourced x = true -> advisory_sourced y = true -> (i < j)%nat)
    /\ (forall x y : value,
        In x (recommendations r) -> In y (recommendations r) ->
        policy_sourced x = true -> advisory_sourced y = true ->
        instance_id x <> instance_id y).

End Collector.

(** ** Cost analytics ([services/analytics.py]) *)

Module Analytics.

Definition _percentage_delta (previous current : float) : option float :=
  if PrimFloat.eqb previous 0 then
    if PrimFloat.eqb current 0 then None else Some 100%float
  else Some (((current - previous) / previous) * 100)%float.

End Analytics.

(** ** Workflow steps and runner ([strands_workflows.py], [strands_runner.py]) *)

Module Workflow.
Import Py.

(** [ec2_client.describe_instances(InstanceIds=[instance_id])]: the state and
    type of the first instance of the first reservation, no reservation, a
    [ClientError] with its code, or any other exception (a response that lacks
    a field the step indexes raises one too). *)
Inductive describe_outcome : Type :=
| Found (state instance_type : string)
| NoReservations
| DescribeClientError (code msg : string)
| DescribeOtherError (msg : string).

(** What one record of the loop of [validate_recommendations] does. *)
Inductive record_outcome (world : Type) : Type :=
| Skipped (w : world)                              (* [continue] *)
| Validated (validated_rec rec : value) (w : world) (* appended; [rec] as the step left it *)
| Aborted (msg : string) (w : world).              (* an exception reaches the step's handler *)
Arguments Skipped {world} w.
Arguments Validated {world} validated_rec rec w.
Arguments Aborted {world} msg w.

Record step_def : Type := {
  name : string;
  handler : string;
  inputs : option dict
}.

Definition step (nm hd : string) : step_def :=
  {| name := nm; handler := hd; inputs := None |}.

Definition step_with (nm hd : string) (inp : dict) : step_def :=
  {| name := nm; handler := hd; inputs := Some inp |}.

Definition WORKFLOW_LIBRARY : list (string * list step_def) :=
  [ ("optimize_existing_instances",
     [ step "validate_recommendations" "rita.validators.recommendations";
       step "apply_rightsizing" "rita.executors.rightsize_instance";
       step "verify_optimization" "rita.verifiers.optimization_verification" ]);
    ("rightsizing",
     [ step "collect_cost_evidence" "rita.collectors.cost_explorer";
       step "collect_optimizer_signals" "rita.collectors.compute_optimizer";
       step "draft_action_plan" "rita.planners.optimization_plan";
       step_with "approve_plan" "rita.approvals.manual" [("requiresApproval", VBool true)];
       step "apply_fix" "rita.executors.rightsize";
       step "verify_outcome" "rita.verifiers.cost_explorer" ]);
    ("rightsizing_rds",
     [ step "collect_cost_evidence" "rita.collectors.cost_explorer";
       step "collect_rds_metrics" "rita.collectors.rds_utilization";
       step "draft_action_plan" "rita.planners.optimization_plan";
       step_with "approve_plan" "rita.approvals.manual" [("resourceType", VStr "rds")];
       step "apply_fix" "rita.executors.rightsize";
       step "verify_outcome" "rita.verifiers.rds" ]);
    ("rightsizing_lambda",
     [ step "collect_cost_evidence" "rita.collectors.cost_explorer";
       step "collect_lambda_metrics" "rita.collectors.lambda_utilization";
       step "draft_action_plan" "rita.planners.optimization_plan";
       step_with "approve_plan" "rita.approvals.manual" [("resourceType", VStr "lambda")];
       step "apply_fix" "rita.executors.rightsize";
       step "verify_outcome" "rita.verifiers.lambda" ]);
    ("schedule_resize",
     [ step "collect_targets" "rita.collectors.cost_explorer";
       step "draft_schedule" "rita.planners.scheduling";
       step_with "approve_plan" "rita.approvals.manual" [("requiresApproval", VBool true)];
       step "publish_schedule" "rita.executors.scheduler";
       step "verify_outcome" "rita.verifiers.cost_explorer" ]);
    ("shutdown_idle",
     [ step "identify_idle_resources" "rita.collectors.idle_detector";
       step "draft_shutdown_plan" "rita.planners.optimization_plan";
       step "approve_plan" "rita.approvals.manual";
       step "apply_fix" "rita.executors.shutdown";
       step "verify_outcome" "rita.verifiers.cost_explorer" ]) ]%string.

Fixpoint library_get (lib : list (string * list step_def)) (key : string)
  : option (list step_def) :=
  match lib with
  | [] => None
  | (k, bp) :: lib' => if String.eqb k key then Some bp else library_get lib' key
  end.

(** [action.replace("-", "_").lower()]. *)
Definition action_key (action : string) : string :=
  str_lower (str_replace1 "-" "_" action).

(** An unknown action, and one whose blueprint is empty, falls back to the
    generic rightsizing flow. *)
Definition _workflow_blueprint (action : string) : list step_def :=
  match library_get WORKFLOW_LIBRARY (action_key action) with
  | Some (s :: base) => s :: base
  | _ =>
      match library_get WORKFLOW_LIBRARY "rightsizing" with
      | Some base => base
      | None => []
      end
  end.

Definition is_record (v : value) : bool :=
  match v with VDict _ => true | _ => false end.

(** The record a validated entry was made from. *)
Definition original (v : value) : value := get (entries v) "original_recommendation".

Section Steps.

(** The state of the cloud account, threaded through every call. *)
Variable world : Type.
Variable describe_instances : value -> world -> describe_outcome * world.

(** A step takes the context and returns its result; it may change records
    the context holds, so the context comes back too. *)
Definition step_fn : Type := dict -> world -> dict * dict * world.

(** The two steps the properties below do not look into. *)
Variable ApplyRightsizingStep_execute : step_fn.
Variable VerifyOptimizationStep_execute : step_fn.

(** *** [ValidateRecommendationsStep.execute] *)

(** The three fields a record must carry, each under either of its names. *)
Definition rec_instance_id (r : dict) : value :=
  py_or (get r "instance_id") (get r "instanceId").

Definition rec_current_type (r : dict) : value :=
  py_or (get r "current_instance_type") (get r "currentType").

Definition rec_recommended_type (r : dict) : value :=
  py_or (get r "recommended_instance_type") (get r "recommendedType").

(** [all([instance_id, current_type, recommended_type])]. *)
Definition all_present (r : dict) : bool :=
  truthy (rec_instance_id r) && truthy (rec_current_type r)
  && truthy (rec_recommended_type r).

(** [rec['current_instance_type'] = actual_type; rec['currentType'] = actual_type]. *)
Definition overwrite_type (r : dict) (actual_type : string) : dict :=
  dict_set (dict_set r "current_instance_type" (VStr actual_type))
    "currentType" (VStr actual_type).

Definition validated_rec (r' : dict) (instance_id recommended_type : value)
    (actual_type : string) : value :=
  VDict
    [ ("instance_id", instance_id);
      ("current_instance_type", VStr actual_type);
      ("recommended_instance_type", recommended_type);
      ("estimated_savings",
       py_or (get r' "estimated_monthly_savings")
         (get_default r' "estimatedSavings" (VStr "N/A")));
      ("reason",
       py_or (get r' "reason")
         (get_default r' "recommendation_source" (VStr "Agent Analysis")));
      ("original_recommendation", VDict r') ]%string.

(** The body of the loop for one record. *)
Definition validate_record (rec : value) (w : world) : record_outcome world :=
  match rec with
  | VDict r =>
      let instance_id := rec_instance_id r in
      let current_type := rec_current_type r in
      let recommended_type := rec_recommended_type r in
      if negb (all_present r) then Skipped w
      else
        match describe_instances instance_id w with
        | (NoReservations, w') => Skipped w'
        | (Found current_state actual_type, w') =>
            if negb (String.eqb current_state "running") then Skipped w'
            else
              let r' :=
                if negb (eq_str current_type actual_type)
                then overwrite_type r actual_type
                else r in
              Validated (validated_rec r' instance_id recommended_type actual_type)
                (VDict r') w'
        | (DescribeClientError _ _, w') => Skipped w'
        | (DescribeOtherError msg, w') => Aborted msg w'
        end
  | _ => Aborted "object has no attribute 'get'" w
  end%string.

(** The loop: the validated records so far, the records already visited as
    the step leaves them, and the records still to visit. *)
Fixpoint validate_loop (todo : list value) (validated visited : list value) (w : world)
  : result (list value) * list value * world :=
  match todo with
  | [] => (Ok validated, visited, w)
  | rec :: rest =>
      match validate_record rec w with
      | Skipped w' => validate_loop rest validated (visited ++ [rec]) w'
      | Validated validated_rec rec' w' =>
          validate_loop rest (validated ++ [validated_rec]) (visited ++ [rec']) w'
      | Aborted msg w' => (Raise msg, visited ++ rec :: rest, w')
      end
  end.

Definition validate_failed (msg : string) : dict :=
  [ ("status", VStr "failed");
    ("error", VStr msg);
    ("message", VStr "Failed to validate recommendations") ]%string.

(** Returns the result and the recommendations of the context as the step
    leaves them.  A truthy value that is not a list raises at the head of the
    loop or at the first [rec.get], and the handler of the step answers
    "failed"; the text of that exception is not modelled. *)
Definition validate_recommendations (recommendations : value) (w : world)
  : dict * value * world :=
  if negb (truthy recommendations) then
    ([ ("status", VStr "success");
       ("validated_recommendations", VList []);
       ("message", VStr "No recommendations to execute");
       ("next_step", VStr "apply_rightsizing") ]%string,
     recommendations, w)
  else
    match recommendations with
    | VList recs =>
        match validate_loop recs [] [] w with
        | (Ok validated_recommendations, recs', w') =>
            ([ ("status", VStr "success");
               ("validated_recommendations", VList validated_recommendations);
               ("total_recommendations", VInt (Z.of_nat (length recs)));
               ("valid_recommendations",
                VInt (Z.of_nat (length validated_recommendations)));
               ("skipped_recommendations",
                VInt (Z.of_nat (length recs)
                      - Z.of_nat (length validated_recommendations)));
               ("message",
                VStr (String.append "Validated "
                        (String.append (str_of_nat (length validated_recommendations))
                           " recommendations for execution")));
               ("next_step", VStr "apply_rightsizing") ]%string,
             VList recs', w')
        | (Raise msg, recs', w') => (validate_failed msg, VList recs', w')
        end
    | _ => (validate_failed "recommendations is not a list of records", recommendations, w)
    end.

Definition ValidateRecommendationsStep_execute : step_fn :=
  fun context w =>
    let recommendations := get_default context "recommendations" (VList []) in
    let '(res, recommendations', w') := validate_recommendations recommendations w in
    (res,
     if has_key context "recommendations"
     then dict_set context "recommendations" recommendations' else context,
     w').

(** *** Vocabulary of the properties of the validation step *)

(** No lookup raises anything but a [ClientError]. *)
Definition lookups_handled : Prop :=
  forall (id : value) (w : world) (msg : string),
    fst (describe_instances id w) <> DescribeOtherError msg.

(** A record comes out of the step as it went in, or with its current type
    overwritten when it was validated. *)
Definition left_or_validated (rec rec' : value) : Prop :=
  rec' = rec
  \/ exists (v : value) (w0 w1 : world), validate_record rec w0 = Validated v rec' w1.

Definition validated_from (recs : list value) (v : value) : Prop :=
  exists (rec rec' : value) (w0 w1 : world),
    In rec recs /\ validate_record rec w0 = Validated v rec' w1.

(** *** The registry and [execute_workflow_step] *)

Definition WORKFLOW_STEPS : list (string * step_fn) :=
  [ ("validate_recommendations", ValidateRecommendationsStep_execute);
    ("apply_rightsizing", ApplyRightsizingStep_execute);
    ("verify_optimization", VerifyOptimizationStep_execute) ]%string.

Fixpoint registry_get (reg : list (string * step_fn)) (step_name : string)
  : option step_fn :=
  match reg with
  | [] => None
  | (k, f) :: reg' => if String.eqb k step_name then Some f else registry_get reg' step_name
  end.

Definition execute_workflow_step (step_name : string) : step_fn :=
  fun context w =>
    match registry_get WORKFLOW_STEPS step_name with
    | None =>
        ([ ("status", VStr "failed");
           ("error", VStr (String.append "Unknown workflow step: " step_name));
           ("message",
            VStr (String.append "Workflow step '" (String.append step_name "' not found"))) ]%string,
         context, w)
    | Some step_execute => step_execute context w
    end.

End Steps.

(** *** [BrickwatchStrandRunner._run_via_strands] *)

(** Does a step result declare [status == "failed"]? *)
Definition failed (res : dict) : bool := eq_str (get res "status") "failed".

Section Runner.

Variable world : Type.

(** The step executor, [execute_workflow_step] of the steps module. *)
Variable exec : string -> step_fn world.

(** What a run leaves behind: the results by step name, the context after the
    last step, the steps for which "Executing step" was logged, in order and
    each with the result it returned, and the world. *)
Record run : Type := {
  workflow_results : dict;
  step_context : dict;
  executed : list (string * dict);
  final_world : world
}.

Fixpoint run_steps (blueprint : list step_def) (results context : dict)
    (trace : list (string * dict)) (w : world) : run :=
  match blueprint with
  | [] =>
      {| workflow_results :=
           dict_set (dict_set results "status" (VStr "completed"))
             "message" (VStr "Workflow completed successfully");
         step_context := context;
         executed := trace;
         final_world := w |}
  | step_def :: rest =>
      let step_name := name step_def in
      let '(step_result, context1, w1) := exec step_name context w in
      let results1 := dict_set results step_name (VDict step_result) in
      let context2 := dict_update context1 step_result in
      if eq_str (get step_result "status") "failed" then
        {| workflow_results :=
             dict_set (dict_set results1 "status" (VStr "failed"))
               "message" (VStr (String.append "Workflow failed at step: " step_name));
           step_context := context2;
           executed := trace ++ [(step_name, step_result)];
           final_world := w1 |}
      else run_steps rest results1 context2 (trace ++ [(step_name, step_result)]) w1
  end%string.

(** *** Vocabulary of the properties of a run *)

Definition status_of (r : run) : option value :=
  dict_get (workflow_results r) "status".

Definition message_of (r : run) : option value :=
  dict_get (workflow_results r) "message".

(** How a run ends: at a failed step, which is the last one executed, or
    after the last step of the blueprint with no failed step. *)
Definition ends_failed (r : run) (new : list (string * dict)) : Prop :=
  exists (pre : list (string * dict)) (n : string) (res : dict),
    new = pre ++ [(n, res)]
    /\ Forall (fun p => failed (snd p) = false) pre
    /\ failed res = true
    /\ status_of r = Some (VStr "failed")
    /\ message_of r = Some (VStr (String.append "Workflow failed at step: " n)).

Definition ends_completed (r : run) (blueprint : list step_def)
    (new : list (string * dict)) : Prop :=
  Forall (fun p => failed (snd p) = false) new
  /\ map fst new = map name blueprint
  /\ status_of r = Some (VStr "completed")
  /\ message_of r = Some (VStr "Workflow completed successfully").

(** [execution_id] is "strands-" and eight random hexadecimal digits: the
    digits are an argument. *)
Definition _run_via_strands (hex8 : string) (action : string) (context : dict)
    (w : world) : option (string * run) :=
  let blueprint := _workflow_blueprint action in
  let execution_id := String.append "strands-" hex8 in
  Some (execution_id, run_steps blueprint [] context [] w).

End Runner.

Arguments workflow_results {world} r.
Arguments step_context {world} r.
Arguments executed {world} r.
Arguments final_world {world} r.
Arguments status_of {world} r.
Arguments message_of {world} r.
Arguments ends_failed {world} r new.
Arguments ends_completed {world} r blueprint new.

(** *** Steps and accounts used as instances of the properties *)

(** A step executor over a world without state: the step "b" fails. *)
Definition demo_exec (step_name : string) : step_fn unit :=
  fun context w =>
    (if String.eqb step_name "b"
     then [ ("status", VStr "failed"); ("error", VStr "boom") ]
     else [ ("status", VStr "success") ], context, w)%string.

Definition demo_blueprint : list step_def :=
  [ step "a" "h.a"; step "b" "h.b"; step "c" "h.c" ]%string.

(** An account with one running instance, one stopped instance and nothing
    else. *)
Definition demo_describe (id : value) (w : unit) : describe_outcome * unit :=
  (if eq_str id "i-1" then Found "running" "t3.large"
   else if eq_str id "i-2" then Found "stopped" "m5.large"
   else DescribeClientError "InvalidInstanceID.NotFound" "not found", w)%string.

Definition demo_recommendations : list value :=
  [ VDict [ ("instance_id", VStr "i-1"); ("current_instance_type", VStr "m5.large");
            ("recommended_instance_type", VStr "t3.medium") ];
    VDict [ ("instance_id", VStr "i-2"); ("current_instance_type", VStr "m5.large");
            ("recommended_instance_type", VStr "t3.medium") ];
    VDict [ ("instance_id", VStr "i-3"); ("current_instance_type", VStr "m5.large") ];
    VDict [ ("instanceId", VStr "i-4"); ("currentType", VStr "c5.large");
            ("recommendedType", VStr "t3.small") ] ]%string.

End Workflow.

(** ** The automation endpoint ([api/src/app.py]) *)

Module Api.
Import Py.
Local Open Scope string_scope.

Record request : Type := {
  json_body : result value;         (* [await request.json()] *)
  authorization : option string     (* the Authorization header, when sent *)
}.

(** What the handler takes from its host: two built-ins of the language that
    the embedding does not define, and the services it calls. *)
Record host : Type := {
  repr_other : value -> string;               (* [str(x)] of a float, a list or a dict *)
  float_of_str : string -> result float;      (* [float(s)] *)
  ssm_workflow_endpoint : result string;      (* the parameter /rita/workflow-agent/invoke-arn *)
  AGENTCORE_AVAILABLE : bool;
  time_ms : Z;                                (* [int(time.time() * 1000)] *)
  lambda_invoke : value -> result unit        (* the asynchronous self-invocation *)
}.

Record response : Type := {
  status_code : Z;
  body : dict
}.

Definition nl : string := String newline EmptyString.

(** String concatenation of the parts of an f-string. *)
Definition cat (parts : list string) : string :=
  fold_right String.append EmptyString parts.

(** [str(x)] as an f-string inserts it. *)
Definition fstr (h : host) (v : value) : string :=
  match v with
  | VStr s => s
  | VInt z => str_of_Z z
  | VNone => "None"
  | VBool true => "True"
  | VBool false => "False"
  | _ => repr_other h v
  end%string.

Definition _error_response (message : string) (status : Z) (code : option string)
  : response :=
  {| status_code := status;
     body := [ ("error", VStr (match code with Some c => c | None => "error" end));
               ("message", VStr message) ]%string |}.

(** [len(x)]: a list, a str and a dict have one. *)
Definition py_len (v : value) : result nat :=
  match v with
  | VList l => Ok (length l)
  | VStr s => Ok (String.length s)
  | VDict d => Ok (length d)
  | _ => Raise "object has no len()"
  end%string.

Fixpoint chars (s : string) : list value :=
  match s with
  | EmptyString => []
  | String c s' => VStr (String c EmptyString) :: chars s'
  end.

(** The items a [for] loop visits. *)
Definition iter_items (v : value) : list value :=
  match v with
  | VList l => l
  | VStr s => chars s
  | VDict d => map (fun kv => VStr (fst kv)) d
  | _ => []
  end.

(** A key of a dict must be hashable. *)
Definition hashable (v : value) : bool :=
  match v with
  | VList _ | VDict _ => false
  | _ => true
  end.

(** The first loop: every record must have [.get] and a hashable
    [resource_type]; the records then come back as dicts. *)
Fixpoint grouped (recs : list value) : result (list dict) :=
  match recs with
  | [] => Ok []
  | VDict r :: rest =>
      if hashable (get_default r "resource_type" (VStr "EC2")) then
        match grouped rest with
        | Ok rs => Ok (r :: rs)
        | Raise e => Raise e
        end
      else Raise "unhashable type"
  | _ :: _ => Raise "object has no attribute 'get'"
  end%string.

(** [resource_summary[rtype]]: the records of one resource type, in order. *)
Definition resource_group (rtype : string) (recs : list dict) : list dict :=
  filter (fun r => eq_str (get_default r "resource_type" (VStr "EC2")) rtype) recs.

(** [a] occurs in [b]. *)
Definition substring_of (a b : string) : Prop :=
  exists pre post : string, b = pre ++ a ++ post.

Section Plan.

Variable h : host.

Definition field (r : dict) (k : string) : string :=
  fstr h (get_default r k (VStr "N/A")).

Definition ec2_line (r : dict) : string :=
  cat [ "- Stop instance `"; field r "instance_id";
        "`, modify from `"; field r "current_instance_type";
        "` to `"; field r "recommended_instance_type";
        "`, restart and verify"; nl ]%string.

Definition s3_line (r : dict) : string :=
  cat [ "- Apply Intelligent-Tiering lifecycle policy to bucket `";
        field r "bucket_name"; "`"; nl ]%string.

(** [', '.join(changes)]. *)
Fixpoint join (sep : string) (l : list string) : string :=
  match l with
  | [] => EmptyString
  | [x] => x
  | x :: l' => String.append x (String.append sep (join sep l'))
  end.

Definition lambda_changes (r : dict) : list string :=
  app
    (if has_key r "recommended_memory_mb"
     then [ cat [ "memory: "; field r "current_memory_mb"; "MB → ";
                  fstr h (get r "recommended_memory_mb"); "MB" ] ]
     else [])
    (if has_key r "recommended_concurrency"
     then [ cat [ "concurrency: "; field r "current_concurrency"; " → ";
                  fstr h (get r "recommended_concurrency") ] ]
     else []).

Definition lambda_line (r : dict) : string :=
  cat [ "- Update function `"; field r "function_name"; "` (";
        join ", " (lambda_changes r); ")"; nl ]%string.

(** One section of the plan: the heading with the size of the group, a line
    for each of its first three records, the count of the others, and an empty
    line; nothing for an empty group. *)
Definition plan_section (title unit : string) (line : dict -> string)
    (group : list dict) : string :=
  match group with
  | [] => EmptyString
  | _ :: _ =>
      cat [ cat [ "**"; title; " ("; str_of_nat (length group); "):**"; nl ];
            cat (map line (take 3 group));
            (if (3 <? length group)%nat
             then cat [ "- ... and "; str_of_nat (length group - 3); " more "; unit; nl ]
             else EmptyString);
            nl ]
  end%string.

(** [float(rec.get('estimated_monthly_savings', '$0').replace('$', '').replace(',', ''))]. *)
Definition savings_of (r : dict) : result float :=
  match get_default r "estimated_monthly_savings" (VStr "$0") with
  | VStr s => float_of_str h (str_replace1 "," "" (str_replace1 "$" "" s))
  | _ => Raise "object has no attribute 'replace'"
  end%string.

Fixpoint total_savings (recs : list dict) (acc : float) : result float :=
  match recs with
  | [] => Ok acc
  | r :: rest =>
      match savings_of r with
      | Ok x => total_savings rest (acc + x)%float
      | Raise e => Raise e
      end
  end.

Definition execution_plan (recs : list dict) (total : float) : string :=
  cat [ "**Execution Plan:**"; nl; nl;
        plan_section "EC2 Instances" "instance(s)" ec2_line (resource_group "EC2" recs);
        plan_section "S3 Buckets" "bucket(s)" s3_line (resource_group "S3" recs);
        plan_section "Lambda Functions" "function(s)" lambda_line
          (resource_group "Lambda" recs);
        "**Estimated Total Monthly Savings:** "; format_money total ]%string.

(** The plan, or the text of the exception that building it raises. *)
Definition build_plan (recommendations : value) : result string :=
  match grouped (iter_items recommendations) with
  | Raise e => Raise e
  | Ok recs =>
      match total_savings recs 0%float with
      | Raise e => Raise e
      | Ok total => Ok (execution_plan recs total)
      end
  end.

(** The bearer token of the Authorization header, if it has one. *)
Definition bearer_of (authorization : option string) : option string :=
  let auth_header := match authorization with Some a => a | None => EmptyString end in
  if startswith "Bearer " auth_header
  then Some (String.substring 7 (String.length auth_header - 7) auth_header)
  else None.

Definition accepted (execution_id plan : string) (processed : nat) : response :=
  let final_message :=
    cat [ plan; nl; nl; "---"; nl; nl;
          "**Status:** Workflow execution in progress  "; nl;
          "**Estimated Time:** 3-5 minutes"; nl; nl;
          "The Workflow Agent is processing your optimizations in the background." ] in
  {| status_code := 202;
     body :=
       [ ("brand", VStr "BrickwatchWorkflow");
         ("status", VStr "accepted");
         ("execution_id", VStr execution_id);
         ("result", VDict
            [ ("message", VStr final_message);
              ("recommendations_processed", VInt (Z.of_nat processed));
              ("execution_details", VStr plan);
              ("status", VStr "in_progress") ]) ] |}%string.

(** The part of the handler that runs once a target is configured. *)
Definition dispatch (req : request) (recommendations : value) (processed : nat)
  : response :=
  match bearer_of (authorization req) with
  | None => _error_response "Bearer token required for workflow execution" 401 None
  | Some bearer_token =>
      if String.eqb bearer_token "" then
        _error_response "Bearer token required for workflow execution" 401 None
      else
        let execution_id := String.append "workflow-" (str_of_Z (time_ms h)) in
        match build_plan recommendations with
        | Raise e => _error_response (String.append "Workflow agent failed: " e) 500 None
        | Ok plan =>
            let async_payload :=
              VDict [ ("_async_workflow", VBool true);
                      ("recommendations", recommendations);
                      ("bearer_token", VStr bearer_token);
                      ("execution_id", VStr execution_id) ] in
            match lambda_invoke h async_payload with
            | Raise e =>
                _error_response (String.append "Workflow agent failed: " e) 500 None
            | Ok _ => accepted execution_id plan processed
            end
        end
  end%string.

Definition automation (req : request) : response :=
  let failed e := _error_response e 500 (Some "automation_failed"%string) in
  match json_body req with
  | Raise e => failed e
  | Ok (VDict b) =>
      match get_default b "context" (VDict []) with
      | VDict c =>
          let recommendations := get_default c "recommendations" (VList []) in
          match py_len recommendations with
          | Raise e => failed e
          | Ok processed =>
              let workflow_endpoint :=
                match ssm_workflow_endpoint h with
                | Ok v => v
                | Raise _ => EmptyString
                end in
              if negb (String.eqb workflow_endpoint "") && AGENTCORE_AVAILABLE h
              then dispatch req recommendations processed
              else _error_response "Workflow agent not configured" 503 None
          end
      | _ => failed "object has no attribute 'get'"
      end
  | Ok _ => failed "object has no attribute 'get'"
  end%string.

End Plan.

(** *** Vocabulary of the properties *)

Section Responses.

Variable h : host.

(** Is a downstream execution target configured? *)
Definition target_configured : bool :=
  negb (String.eqb
          match ssm_workflow_endpoint h with Ok v => v | Raise _ => "" end "")
  && AGENTCORE_AVAILABLE h.

(** Does the request carry a bearer token? *)
Definition has_token (req : request) : bool :=
  match bearer_of (authorization req) with
  | Some t => negb (String.eqb t "")
  | None => false
  end.

(** The body holds [context.recommendations], a list. *)
Definition carries (req : request) (recs : list value) : Prop :=
  exists b c : dict,
    json_body req = Ok (VDict b)
    /\ dict_get b "context" = Some (VDict c)
    /\ dict_get c "recommendations" = Some (VList recs).

(** The heading of a section of the plan and the line that counts the records
    it does not list. *)
Definition heading (title : string) (n : nat) : string :=
  cat [ "**"; title; " ("; str_of_nat n; "):**"; nl ].

Definition remainder (unit : string) (n : nat) : string :=
  cat [ "- ... and "; str_of_nat (n - 3); " more "; unit; nl ].

(** The three sections of the plan: title, unit of the remainder line, line
    of a record, and resource type. *)
Definition plan_sections : list (string * string * (dict -> string) * string) :=
  [ ("EC2 Instances", "instance(s)", ec2_line h, "EC2");
    ("S3 Buckets", "bucket(s)", s3_line h, "S3");
    ("Lambda Functions", "function(s)", lambda_line h, "Lambda") ].

(** Each section whose group is not empty shows, in the plan, the size of the
    group, the first three records, and the count of the others. *)
Definition plan_summarises (recs : list dict) (plan : string) : Prop :=
  forall (title unit : string) (line : dict -> string) (rtype : string),
    In (title, unit, line, rtype) plan_sections ->
    let group := resource_group rtype recs in
    group <> [] ->
    substring_of (heading title (length group)) plan
    /\ (forall r, In r (take 3 group) -> substring_of (line r) plan)
    /\ ((3 < length group)%nat -> substring_of (remainder unit (length group)) plan).

(** The answers as the specification states them, for one request: 401
    without a bearer token, 503 without a configured target. *)
Definition automation_as_specified (req : request) : Prop :=
  (has_token req = false -> status_code (automation h req) = 401)
  /\ (target_configured = false -> status_code (automation h req) = 503).

End Responses.

(** *** A host and a request used as instances of the properties *)

(** A host whose [float] reads the amounts of the demo, with or without the
    parameter of the workflow agent. *)
Definition demo_host (endpoint : result string) : host :=
  {| repr_other := fun _ => "?";
     float_of_str := fun s =>
       if String.eqb s "50.00" then Ok 50%float
       else if String.eqb s "5.00" then Ok 5%float
       else Raise "could not convert string to float";
     ssm_workflow_endpoint := endpoint;
     AGENTCORE_AVAILABLE := true;
     time_ms := 1730000000000;
     lambda_invoke := fun _ => Ok tt |}.

Definition demo_ec2 (id : string) : value :=
  VDict [ ("resource_type", VStr "EC2"); ("instance_id", VStr id);
          ("current_instance_type", VStr "r5.large");
          ("recommended_instance_type", VStr "t3.medium");
          ("estimated_monthly_savings", VStr "$50.00") ].

Definition demo_s3 (bucket : string) : value :=
  VDict [ ("resource_type", VStr "S3"); ("bucket_name", VStr bucket);
          ("estimated_monthly_savings", VStr "$5.00") ].

Definition demo_batch : list value :=
  [ demo_ec2 "i-1"; demo_ec2 "i-2"; demo_ec2 "i-3"; demo_s3 "logs"; demo_s3 "assets" ].

Definition demo_request (authorization : option string) : request :=
  {| json_body :=
       Ok (VDict [ ("action", VStr "optimize_resources");
                   ("context", VDict [ ("requestedBy", VStr "agentcore_runtime");
                                       ("recommendations", VList demo_batch) ]) ]);
     authorization := authorization |}.

End Api.

(** ** More of Python's strs, lists and numbers *)

Module Text.
Import Py.

(** *** [str.strip]

    [strip] removes the characters for which [str.isspace] holds.  A str is a
    string of bytes, the UTF-8 encoding of its characters: the white space
    of one byte is U+0009 to U+000D, U+001C to U+001F and the space; of two
    bytes U+0085 and U+00A0; of three bytes U+1680, U+2000 to U+200A, U+2028,
    U+2029, U+202F, U+205F and U+3000. *)

Definition byte_in (lo hi : nat) (c : ascii) : bool :=
  ((lo <=? nat_of_ascii c) && (nat_of_ascii c <=? hi))%nat.

Definition byte_is (n : nat) (c : ascii) : bool := (nat_of_ascii c =? n)%nat.

Definition space1 (c : ascii) : bool := byte_in 9 13 c || byte_in 28 32 c.

Definition space2 (c1 c2 : ascii) : bool :=
  byte_is 194 c1 && (byte_is 133 c2 || byte_is 160 c2).

Definition space3 (c1 c2 c3 : ascii) : bool :=
  (byte_is 225 c1 && byte_is 154 c2 && byte_is 128 c3)
  || (byte_is 226 c1 && byte_is 128 c2
      && (byte_in 128 138 c3 || byte_is 168 c3 || byte_is 169 c3 || byte_is 175 c3))
  || (byte_is 226 c1 && byte_is 129 c2 && byte_is 159 c3)
  || (byte_is 227 c1 && byte_is 128 c2 && byte_is 128 c3).

(** Does the text start with a white space character?  [two] and [three]
    recognise the encodings of two and three bytes in the order the bytes
    are met. *)
Definition leading_space (two : ascii -> ascii -> bool)
    (three : ascii -> ascii -> ascii -> bool) (l : list ascii) : bool :=
  match l with
  | c1 :: r1 =>
      space1 c1 ||
      match r1 with
      | c2 :: r2 =>
          two c1 c2 ||
          match r2 with
          | c3 :: _ => three c1 c2 c3
          | [] => false
          end
      | [] => false
      end
  | [] => false
  end.

(** Drop the white space a text starts with. *)
Fixpoint drop_space (two : ascii -> ascii -> bool)
    (three : ascii -> ascii -> ascii -> bool) (l : list ascii) : list ascii :=
  match l with
  | c1 :: r1 =>
      if space1 c1 then drop_space two three r1
      else
        match r1 with
        | c2 :: r2 =>
            if two c1 c2 then drop_space two three r2
            else
              match r2 with
              | c3 :: r3 =>
                  if three c1 c2 c3 then drop_space two three r3 else l
              | [] => l
              end
        | [] => l
        end
  | [] => l
  end.

(** From the end of the text the bytes of a character are met last first. *)
Definition space2_back (c2 c1 : ascii) : bool := space2 c1 c2.

Definition space3_back (c3 c2 c1 : ascii) : bool := space3 c1 c2 c3.

Definition lstrip_bytes (l : list ascii) : list ascii := drop_space space2 space3 l.

Definition rstrip_bytes (l : list ascii) : list ascii :=
  rev (drop_space space2_back space3_back (rev l)).

(** [s.strip()]. *)
Definition strip (s : string) : string :=
  string_of_list_ascii (rstrip_bytes (lstrip_bytes (list_ascii_of_string s))).

(** [not s.strip()]: nothing but white space. *)
Definition blank (s : string) : bool := String.eqb (strip s) "".

(** *** [str.split], [str.upper], [str.replace] *)

(** [s.split(sep)] for a separator of one character. *)
Fixpoint split_on (sep : ascii) (s : string) : list string :=
  match s with
  | EmptyString => [EmptyString]
  | String c s' =>
      if Ascii.eqb c sep then EmptyString :: split_on sep s'
      else
        match split_on sep s' with
        | piece :: pieces => String c piece :: pieces
        | [] => [String c EmptyString]
        end
  end.

(** [s.split(sep, 1)[1]]: what follows the first separator; the subscript
    raises when there is none. *)
Fixpoint after_first (sep : ascii) (s : string) : option string :=
  match s with
  | EmptyString => None
  | String c s' => if Ascii.eqb c sep then Some s' else after_first sep s'
  end.

(** [s.upper()] on ASCII letters. *)
Definition upper_ascii (c : ascii) : ascii :=
  let n := nat_of_ascii c in
  if ((97 <=? n) && (n <=? 122))%nat then ascii_of_nat (n - 32) else c.

Fixpoint str_upper (s : string) : string :=
  match s with
  | EmptyString => EmptyString
  | String c s' => String (upper_ascii c) (str_upper s')
  end.

(** A str of ASCII characters: on these [str_lower] and [str_upper] are
    [str.lower] and [str.upper]. *)
Fixpoint is_ascii (s : string) : bool :=
  match s with
  | EmptyString => true
  | String c s' => (nat_of_ascii c <? 128)%nat && is_ascii s'
  end.

(** [s.replace(old, "")] for a str [old] that is not empty: the occurrences
    of [old] are found from the left and do not overlap.  [skip] counts the
    characters of an occurrence still to pass over. *)
Fixpoint remove_from (old : string) (skip : nat) (s : string) : string :=
  match s with
  | EmptyString => EmptyString
  | String c s' =>
      match skip with
      | S k => remove_from old k s'
      | O =>
          if startswith old s then remove_from old (String.length old - 1) s'
          else String c (remove_from old O s')
      end
  end.

Definition str_remove (old s : string) : string := remove_from old O s.

(** *** Slices *)

(** The position a bound of a slice stands for in a list of [n] items. *)
Definition slice_bound (n i : Z) : Z :=
  if i <? 0 then Z.max 0 (i + n) else Z.min i n.

(** [l[start:stop]], a bound left out being [None]. *)
Definition py_slice {A : Type} (start stop : option Z) (l : list A) : list A :=
  let n := Z.of_nat (length l) in
  let a := match start with Some i => slice_bound n i | None => 0 end in
  let b := match stop with Some j => slice_bound n j | None => n end in
  take (Z.to_nat (b - a)) (drop (Z.to_nat a) l).

(** *** [math.ceil] and true division *)

(** [math.ceil(x)]: the least integer not below [x]; an infinity and a NaN
    raise. *)
Definition py_ceil (x : float) : result Z :=
  match Prim2SF x with
  | S754_zero _ => Ok 0
  | S754_finite s m e =>
      let magnitude_up :=
        if 0 <=? e then Z.pos m * 2 ^ e else - ((- Z.pos m) / 2 ^ (- e)) in
      let magnitude_down :=
        if 0 <=? e then Z.pos m * 2 ^ e else Z.pos m / 2 ^ (- e) in
      Ok (if s then - magnitude_down else magnitude_up)
  | S754_infinity _ => Raise "cannot convert float infinity to integer"
  | S754_nan => Raise "cannot convert float NaN to integer"
  end.

(** [a / b] for two ints: the binary64 number nearest to the quotient.  For
    ints up to 2^53 in magnitude, which convert exactly, that is the
    quotient of the converted operands. *)
Definition true_divide (a b : Z) : float := (float_of_Z a / float_of_Z b)%float.

(** *** Checking a range of ints *)

(** Does [P] hold for each of the [count] ints from [first] on? *)
Fixpoint holds_from (count : positive) (first : Z) (P : Z -> bool) : bool :=
  match count with
  | xH => P first
  | xO half => holds_from half first P && holds_from half (first + Z.pos half) P
  | xI half =>
      P first && holds_from half (first + 1) P
      && holds_from half (first + 1 + Z.pos half) P
  end.

End Text.

(** ** The rest of the policy module and of the collector's report *)

Module Inventory.
Import Py Policy Collector.

(** [get_all_policies]. *)
Definition get_all_policies : dict := COMPANY_COST_POLICIES.

(** [resource_inventory["instances_by_type"]]: one more instance of a type,
    a type met for the first time starting at zero. *)
Definition tally (instances_by_type : dict) (itype : string) : dict :=
  let counted :=
    if has_key instances_by_type itype then instances_by_type
    else dict_set instances_by_type itype (VInt 0) in
  match get counted itype with
  | VInt n => dict_set counted itype (VInt (n + 1))
  | _ => counted
  end.

(** The part of [resource_inventory] that the tally of the running instances
    fills. *)
Record resource_inventory : Type := {
  total_running_instances : nat;
  instances_by_type : dict;
  policy_compliant_count : nat;
  policy_violating_count : nat
}.

Fixpoint inventory_loop (running_instances : list ec2_instance)
    (inventory : resource_inventory) : resource_inventory :=
  match running_instances with
  | [] => inventory
  | instance :: rest =>
      let itype := InstanceType instance in
      let by_type := tally (instances_by_type inventory) itype in
      inventory_loop rest
        (if is_instance_type_allowed itype "ec2" then
           {| total_running_instances := total_running_instances inventory;
              instances_by_type := by_type;
              policy_compliant_count := S (policy_compliant_count inventory);
              policy_violating_count := policy_violating_count inventory |}
         else
           {| total_running_instances := total_running_instances inventory;
              instances_by_type := by_type;
              policy_compliant_count := policy_compliant_count inventory;
              policy_violating_count := S (policy_violating_count inventory) |})
  end.

Definition tally_instances (running_instances : list ec2_instance) : resource_inventory :=
  inventory_loop running_instances
    {| total_running_instances := length running_instances;
       instances_by_type := [];
       policy_compliant_count := O;
       policy_violating_count := O |}.

(** The inventory of a call of the tool: over the running instances when EC2
    is asked for, over none otherwise.  When the listing of the instances
    raises, the tool returns its error text and no inventory. *)
Definition inventory_of (env : aws) (resource_types : string) : option resource_inventory :=
  if str_contains "EC2" resource_types then
    match describe_instances env with
    | Ok running_instances => Some (tally_instances running_instances)
    | Raise _ => None
    end
  else Some (tally_instances []).

(** [result["compliance_status"]], from the capped list and the number of
    policy violations. *)
Definition compliance_status (r : report) : string :=
  match recommendations r with
  | [] => "compliant"
  | _ :: _ =>
      if (0 <? policy_violations r)%nat then "violations_detected"
      else "compliant_with_optimizations"
  end.

(** The count of a type in the tally, zero for a type that is not in it. *)
Definition count_of (instances_by_type : dict) (itype : string) : Z :=
  match dict_get instances_by_type itype with
  | Some (VInt n) => n
  | _ => 0
  end.

(** The sum of the counts of a tally. *)
Fixpoint tally_total (instances_by_type : dict) : Z :=
  match instances_by_type with
  | [] => 0
  | (_, VInt n) :: rest => n + tally_total rest
  | _ :: rest => tally_total rest
  end.

(** A tally holds nothing but counts. *)
Definition counts_only (instances_by_type : dict) : Prop :=
  Forall (fun kv => exists n : Z, snd kv = VInt n) instances_by_type.

(** Is the type of a running instance disallowed, and how many of the
    instances have a given type? *)
Definition violating (instance : ec2_instance) : bool :=
  negb (is_instance_type_allowed (InstanceType instance) "ec2").

Definition instances_of (itype : string) (running_instances : list ec2_instance) : nat :=
  length (List.filter (fun instance => String.eqb (InstanceType instance) itype)
            running_instances).

(** The name a record of a bucket or of a function is about. *)
Definition bucket_name (r : value) : value := get (entries r) "bucket_name".

Definition function_name (r : value) : value := get (entries r) "function_name".

(** Is the memory of a function above the 5 GB ceiling, is its reserved
    concurrency above the maximum of the policy, and how many records are
    due to it? *)
Definition over_provisioned (func : lambda_function) : bool := 5120 <? MemorySize func.

Definition over_concurrency (env : aws) (func : lambda_function) : bool :=
  match get_function_concurrency env (FunctionName func) with
  | Ok (Some reserved_concurrency) =>
      negb (reserved_concurrency =? 0) && (100 <? reserved_concurrency)
  | _ => false
  end.

Definition records_due (env : aws) (func : lambda_function) : nat :=
  ((if over_provisioned func then 1 else 0)
   + (if over_concurrency env func then 1 else 0))%nat.

(** Does the lookup of the lifecycle of a bucket say that it has none? *)
Definition lacks_lifecycle (env : aws) (bucket : string) : bool :=
  match get_bucket_lifecycle_configuration env bucket with
  | LifecycleClientError code => String.eqb code "NoSuchLifecycleConfiguration"
  | _ => false
  end.

End Inventory.

(** ** Helpers of the cost analysis ([services/analytics.py]) *)

Module CostAnalytics.
Import Py Text.

Definition _DEFAULT_GROUP : list string := ["SERVICE"%string].

Definition _determine_period_count (days : Z) (granularity : string)
    (available_points : Z) : result Z :=
  if available_points =? 0 then Ok 0
  else if String.eqb granularity "DAILY" then Ok (Z.min days available_points)
  else
    match py_ceil (true_divide days 30) with
    | Ok months =>
        let months_requested := Z.max 1 months in
        Ok (Z.min months_requested available_points)
    | Raise e => Raise e
    end.

(** The months a number of days asks for, in exact arithmetic: the days
    over 30, rounded up. *)
Definition months_of (days : Z) : Z := (days + 29) / 30.

Definition months_agree (days : Z) : bool :=
  match py_ceil (true_divide days 30) with
  | Ok months => months =? months_of days
  | Raise _ => false
  end.

(** The two windows [analyze_cost] cuts out of the results:
    [usage_results[-period_count:] if usage_results else []] and
    [usage_results[-(period_count * 2):-period_count]] when there are twice
    [period_count] results, [usage_results[:len(usage_results) - period_count]]
    otherwise. *)
Definition current_period {A : Type} (usage_results : list A) (period_count : Z)
  : list A :=
  match usage_results with
  | [] => []
  | _ :: _ => py_slice (Some (- period_count)) None usage_results
  end.

Definition previous_period {A : Type} (usage_results : list A) (period_count : Z)
  : list A :=
  let n := Z.of_nat (length usage_results) in
  if period_count * 2 <=? n
  then py_slice (Some (- (period_count * 2))) (Some (- period_count)) usage_results
  else py_slice None (Some (n - period_count)) usage_results.

(** The key of a tag: [label.split(":", 1)[1]]. *)
Definition tag_key (label : string) : result string :=
  match after_first ":" label with
  | Some key => Ok key
  | None => Raise "list index out of range"
  end.

Definition _build_filter (dimension filter_value : option string)
  : result (option value) :=
  match dimension, filter_value with
  | Some dimension, Some filter_value =>
      if String.eqb dimension "" || String.eqb filter_value "" then Ok None
      else
        let dim := strip dimension in
        let val := strip filter_value in
        if String.eqb dim "" || String.eqb val "" then Ok None
        else if startswith "tag:" (str_lower dim) then
          match tag_key dim with
          | Ok key =>
              Ok (Some (VDict [ ("Tags", VDict [ ("Key", VStr key);
                                                ("Values", VList [VStr val]) ]) ]))
          | Raise e => Raise e
          end
        else
          Ok (Some (VDict [ ("Dimensions", VDict [ ("Key", VStr (str_upper dim));
                                                  ("Values", VList [VStr val]) ]) ]))
  | _, _ => Ok None
  end%string.

Definition _format_filter_metadata (dimension filter_value : option string)
  : option value :=
  match dimension, filter_value with
  | Some dimension, Some filter_value =>
      if String.eqb dimension "" || String.eqb filter_value "" then None
      else Some (VDict [ ("dimension", VStr dimension); ("value", VStr filter_value) ])
  | _, _ => None
  end%string.

(** The values a filter selects, under [Tags] or under [Dimensions]. *)
Definition filter_values (applied : value) : value :=
  py_or (get (entries (get (entries applied) "Tags")) "Values")
    (get (entries (get (entries applied) "Dimensions")) "Values").

(** What [_normalise_group_keys] is given: nothing, one text of names held
    apart by commas, or the names one by one. *)
Inductive group_by_arg : Type :=
| NoGroupBy
| GroupByText (s : string)
| GroupByItems (items : list string).

(** The entry of one label. *)
Definition group_definition (label : string) : result value :=
  (if startswith "tag:" (str_lower label) then
     match tag_key label with
     | Ok key => Ok (VDict [ ("Type", VStr "TAG"); ("Key", VStr key) ])
     | Raise e => Raise e
     end
   else Ok (VDict [ ("Type", VStr "DIMENSION"); ("Key", VStr (str_upper label)) ]))%string.

(** The loop over the keys: it stops at the second entry. *)
Fixpoint group_loop (keys : list string) (parsed : list value) : result (list value) :=
  match keys with
  | [] => Ok parsed
  | raw :: rest =>
      if String.eqb raw "" then group_loop rest parsed
      else
        let label := strip raw in
        if String.eqb label "" then group_loop rest parsed
        else
          match group_definition label with
          | Raise e => Raise e
          | Ok entry =>
              let parsed := parsed ++ [entry] in
              if (length parsed =? 2)%nat then Ok parsed else group_loop rest parsed
          end
  end.

Definition stripped_items (items : list string) : list string :=
  map strip (List.filter (fun item => negb (blank item)) items).

Definition _normalise_group_keys (group_by : group_by_arg) : result (list value) :=
  let keys :=
    match group_by with
    | NoGroupBy => _DEFAULT_GROUP
    | GroupByText s => stripped_items (split_on "," s)
    | GroupByItems items =>
        match stripped_items (List.filter (fun item => negb (String.eqb item "")) items) with
        | [] => _DEFAULT_GROUP
        | keys => keys
        end
    end in
  group_loop keys [].

(** [_split_csv] of the endpoint module, whose result [analyze] passes on as
    [group_by]. *)
Definition _split_csv (raw : option string) : option (list string) :=
  match raw with
  | None => None
  | Some raw =>
      if String.eqb raw "" then None
      else
        match stripped_items (split_on "," raw) with
        | [] => None
        | values => Some values
        end
  end.

(** [group_by=_split_csv(params.get("groupBy"))]. *)
Definition group_by_of (raw : option string) : group_by_arg :=
  match _split_csv raw with
  | None => NoGroupBy
  | Some values => GroupByItems values
  end.

(** The names of a text that are not blank, and the names the grouping
    starts from: those of the text, or the default when it has none. *)
Definition named (raw : option string) : list string :=
  match raw with
  | Some raw => List.filter (fun item => negb (blank item)) (split_on "," raw)
  | None => []
  end.

Definition grouping_names (raw : option string) : list string :=
  match named raw with
  | [] => _DEFAULT_GROUP
  | names => names
  end.

(** The [Type] of an entry of the grouping. *)
Definition group_type (entry : value) : value := get (entries entry) "Type".

End CostAnalytics.

(** ** The steps that change and verify instances ([strands_workflows.py]) *)

Module Executor.
Import Py Text Workflow.

(** [obj[key]] for a str [key]: the entry of a dict, a [KeyError] with the
    key as its text when the dict lacks it.  An object that is not a dict
    raises a [TypeError], whose text is not modelled. *)
Definition subscript (obj : value) (key : string) : result value :=
  match obj with
  | VDict d =>
      match dict_get d key with
      | Some v => Ok v
      | None => Raise (String "'" (String.append key "'"))
      end
  | _ => Raise "object is not subscriptable by a str"
  end.

(** The items a [for] loop over an object visits, when it can be iterated. *)
Definition iterate (obj : value) : result (list value) :=
  match obj with
  | VList l => Ok l
  | VStr s => Ok (Api.chars s)
  | VDict d => Ok (map (fun kv => VStr (fst kv)) d)
  | _ => Raise "object is not iterable"
  end.

(** *** Vocabulary of the properties *)

(** The status of a change and of a verification. *)
Definition change_status (change : value) : value := get (entries change) "status".

Definition verification_status (v : value) : value :=
  get (entries v) "verification_status".

Definition instance_of (r : value) : value := get (entries r) "instance_id".

(** A validated record as the apply step reads it: the five fields are
    there. *)
Definition well_formed (rec : value) : Prop :=
  exists instance_id current_type recommended_type estimated_savings reason : value,
    subscript rec "instance_id" = Ok instance_id
    /\ subscript rec "current_instance_type" = Ok current_type
    /\ subscript rec "recommended_instance_type" = Ok recommended_type
    /\ subscript rec "estimated_savings" = Ok estimated_savings
    /\ subscript rec "reason" = Ok reason.

(** A change as the verify step reads it: the instance and the status are
    there. *)
Definition applied (change : value) : Prop :=
  exists instance_id status : value,
    subscript change "instance_id" = Ok instance_id
    /\ subscript change "status" = Ok status.

(** The type a record asks for. *)
Definition recommended_of (rec : value) : value :=
  get (entries rec) "recommended_instance_type".

(** The change made from a record: it is about the instance of the record,
    leads to the type the record asks for, and has succeeded or failed. *)
Definition change_of (rec change : value) : Prop :=
  instance_of change = instance_of rec
  /\ get (entries change) "to" = recommended_of rec
  /\ (change_status change = VStr "success" \/ change_status change = VStr "failed").

Section Steps.

(** The state of the cloud account, and the calls of [ec2_client] on it.  A
    waiter that raises, and a waiter that cannot be made, are a failed wait. *)
Variable world : Type.
Variable describe_instances : value -> world -> describe_outcome * world.
Variable stop_instances : value -> world -> result unit * world.
Variable wait_instance_stopped : value -> world -> result unit * world.
Variable modify_instance_attribute : value -> value -> world -> result unit * world.
Variable start_instances : value -> world -> result unit * world.
Variable wait_instance_running : value -> world -> result unit * world.

(** [datetime.now().isoformat()] and [float(s)] of a str, which raises a
    [ValueError] or returns. *)
Variable now_isoformat : world -> string.
Variable float_of_str : string -> result float.

(** Calls in a row: the first that raises ends the row. *)
Definition cloud (A : Type) : Type := world -> result A * world.

Definition and_then {A B : Type} (call : cloud A) (next : cloud B) : cloud B :=
  fun w =>
    match call w with
    | (Ok _, w') => next w'
    | (Raise e, w') => (Raise e, w')
    end.

Local Infix ">>" := and_then (at level 60, right associativity).

(** *** [ApplyRightsizingStep.execute] *)

(** The five calls of the [try] block, in their order. *)
Definition rightsize (instance_id recommended_type : value) : cloud unit :=
  stop_instances instance_id
  >> wait_instance_stopped instance_id
  >> modify_instance_attribute instance_id recommended_type
  >> start_instances instance_id
  >> wait_instance_running instance_id.

(** The amount of a savings text such as "$50.00/month"; zero for a text
    without a dollar sign, for a text that does not parse and for an object
    that is not a str. *)
Definition savings_value (estimated_savings : value) : float :=
  match estimated_savings with
  | VStr s =>
      if str_contains "$" s then
        match float_of_str (str_remove "/month" (str_replace1 "$" "" s)) with
        | Ok x => x
        | Raise _ => 0%float
        end
      else 0%float
  | _ => 0%float
  end.

Definition applied_change (instance_id current_type recommended_type
    estimated_savings reason : value) (outcome : result unit) (timestamp : string)
  : value :=
  VDict
    (app [ ("instance_id", instance_id);
           ("action", VStr "rightsizing");
           ("from", current_type);
           ("to", recommended_type);
           ("estimated_savings", estimated_savings) ]
       (app match outcome with
            | Ok _ => [ ("status", VStr "success") ]
            | Raise e => [ ("status", VStr "failed"); ("error", VStr e) ]
            end
          [ ("reason", reason); ("timestamp", VStr timestamp) ]))%string.

(** The body of the loop for one validated record: the change it appends and
    the savings so far, or the exception that leaves the loop. *)
Definition apply_record (rec : value) (total_savings : float) (w : world)
  : result (value * float) * world :=
  match subscript rec "instance_id", subscript rec "current_instance_type",
        subscript rec "recommended_instance_type", subscript rec "estimated_savings",
        subscript rec "reason" with
  | Ok instance_id, Ok current_type, Ok recommended_type, Ok estimated_savings,
    Ok reason =>
      match rightsize instance_id recommended_type w with
      | (Ok _, w') =>
          (Ok (applied_change instance_id current_type recommended_type
                 estimated_savings reason (Ok tt) (now_isoformat w'),
               (total_savings + savings_value estimated_savings)%float), w')
      | (Raise e, w') =>
          (Ok (applied_change instance_id current_type recommended_type
                 estimated_savings reason (Raise e) (now_isoformat w'),
               total_savings), w')
      end
  | Raise e, _, _, _, _ => (Raise e, w)
  | _, Raise e, _, _, _ => (Raise e, w)
  | _, _, Raise e, _, _ => (Raise e, w)
  | _, _, _, Raise e, _ => (Raise e, w)
  | _, _, _, _, Raise e => (Raise e, w)
  end%string.

Fixpoint apply_loop (recs : list value) (applied_changes : list value)
    (total_savings : float) (w : world) : result (list value * float) * world :=
  match recs with
  | [] => (Ok (applied_changes, total_savings), w)
  | rec :: rest =>
      match apply_record rec total_savings w with
      | (Ok (change, total_savings'), w') =>
          apply_loop rest (applied_changes ++ [change]) total_savings' w'
      | (Raise e, w') => (Raise e, w')
      end
  end.

(** [[c for c in applied_changes if c['status'] == status]]. *)
Definition with_status (status : string) (changes : list value) : list value :=
  List.filter (fun c => eq_str (get (entries c) "status") status) changes.

Definition nothing_to_apply : dict :=
  [ ("status", VStr "success");
    ("applied_changes", VList []);
    ("summary", VDict [ ("instances_modified", VInt 0);
                        ("instances_skipped", VInt 0);
                        ("total_savings", VStr "$0/month") ]);
    ("message", VStr "No recommendations to apply");
    ("next_step", VStr "verify_optimization") ]%string.

Definition apply_result (applied_changes : list value) (total_savings : float) : dict :=
  let successful_changes := with_status "success" applied_changes in
  let failed_changes := with_status "failed" applied_changes in
  [ ("status", VStr (match successful_changes with [] => "failed" | _ => "success" end));
    ("applied_changes", VList applied_changes);
    ("summary", VDict
       [ ("instances_modified", VInt (Z.of_nat (length successful_changes)));
         ("instances_failed", VInt (Z.of_nat (length failed_changes)));
         ("total_savings", VStr (String.append (format_money total_savings) "/month")) ]);
    ("message",
     VStr (String.append "Successfully applied "
             (String.append (str_of_nat (length successful_changes))
                " rightsizing changes")));
    ("next_step", VStr "verify_optimization") ]%string.

Definition apply_failed (e : string) : dict :=
  [ ("status", VStr "failed");
    ("error", VStr e);
    ("message", VStr "Failed to apply rightsizing changes") ]%string.

Definition ApplyRightsizingStep_execute : step_fn world :=
  fun context w =>
    let validated_recommendations :=
      get_default context "validated_recommendations" (VList []) in
    if negb (truthy validated_recommendations) then (nothing_to_apply, context, w)
    else
      match iterate validated_recommendations with
      | Raise e => (apply_failed e, context, w)
      | Ok recs =>
          match apply_loop recs [] 0%float w with
          | (Ok (applied_changes, total_savings), w') =>
              (apply_result applied_changes total_savings, context, w')
          | (Raise e, w') => (apply_failed e, context, w')
          end
      end.

(** *** [VerifyOptimizationStep.execute] *)

Definition verification_skipped (instance_id error : value) : value :=
  VDict [ ("instance_id", instance_id);
          ("verification_status", VStr "skipped");
          ("reason", VStr "Change failed during application");
          ("error", error) ]%string.

Definition verification_error (instance_id : value) (e : string) : value :=
  VDict [ ("instance_id", instance_id);
          ("verification_status", VStr "error");
          ("error", VStr e);
          ("reason", VStr "Failed to verify instance state") ]%string.

Definition verification_success (instance_id : value) (current_type : string)
    (expected_type : value) (current_state verified_at : string) : value :=
  VDict [ ("instance_id", instance_id);
          ("verification_status", VStr "success");
          ("current_type", VStr current_type);
          ("expected_type", expected_type);
          ("instance_state", VStr current_state);
          ("verified_at", VStr verified_at) ]%string.

Definition verification_failed (instance_id : value) (current_type : string)
    (expected_type : value) (current_state : string) : value :=
  VDict [ ("instance_id", instance_id);
          ("verification_status", VStr "failed");
          ("current_type", VStr current_type);
          ("expected_type", expected_type);
          ("instance_state", VStr current_state);
          ("reason",
           VStr (String.append "Instance type mismatch or not running (state: "
                   (String.append current_state ")"))) ]%string.

(** The [try] block of the loop for a change that was applied: the lookup
    comes first, then the expected type is read. *)
Definition verify_applied (change instance_id : value) (w : world) : value * world :=
  match describe_instances instance_id w with
  | (Found current_state current_type, w') =>
      match subscript change "to" with
      | Ok expected_type =>
          if String.eqb current_state "running" && eq_str expected_type current_type
          then (verification_success instance_id current_type expected_type
                  current_state (now_isoformat w'), w')
          else (verification_failed instance_id current_type expected_type
                  current_state, w')
      | Raise e => (verification_error instance_id e, w')
      end
  | (NoReservations, w') => (verification_error instance_id "list index out of range", w')
  | (DescribeClientError _ msg, w') => (verification_error instance_id msg, w')
  | (DescribeOtherError msg, w') => (verification_error instance_id msg, w')
  end%string.

(** The body of the loop for one change: the result it appends, or the
    exception that leaves the loop. *)
Definition verify_change (change : value) (w : world) : result value * world :=
  match subscript change "instance_id", subscript change "status" with
  | Ok instance_id, Ok status =>
      if eq_str status "failed" then
        (Ok (verification_skipped instance_id
               (get_default (entries change) "error" (VStr "Unknown error"))), w)
      else
        let '(verification, w') := verify_applied change instance_id w in
        (Ok verification, w')
  | Raise e, _ => (Raise e, w)
  | _, Raise e => (Raise e, w)
  end%string.

Fixpoint verify_loop (changes : list value) (verification_results : list value)
    (w : world) : result (list value) * world :=
  match changes with
  | [] => (Ok verification_results, w)
  | change :: rest =>
      match verify_change change w with
      | (Ok verification, w') =>
          verify_loop rest (verification_results ++ [verification]) w'
      | (Raise e, w') => (Raise e, w')
      end
  end.

Definition verified_as (status : string) (results : list value) : list value :=
  List.filter (fun v => eq_str (get (entries v) "verification_status") status) results.

Definition nothing_to_verify : dict :=
  [ ("status", VStr "success");
    ("verification_results", VList []);
    ("summary", VDict [ ("successful_verifications", VInt 0);
                        ("failed_verifications", VInt 0) ]);
    ("message", VStr "No changes to verify");
    ("workflow_complete", VBool true) ]%string.

Definition verify_result (verification_results : list value) : dict :=
  let successful_verifications := verified_as "success" verification_results in
  let failed_verifications :=
    List.filter (fun v => eq_str (get (entries v) "verification_status") "failed"
                          || eq_str (get (entries v) "verification_status") "error")
      verification_results in
  [ ("status",
     VStr (match successful_verifications with [] => "failed" | _ => "success" end));
    ("verification_results", VList verification_results);
    ("summary", VDict
       [ ("successful_verifications", VInt (Z.of_nat (length successful_verifications)));
         ("failed_verifications", VInt (Z.of_nat (length failed_verifications))) ]);
    ("message",
     VStr (String.append "Verified "
             (String.append (str_of_nat (length successful_verifications))
                " successful optimizations")));
    ("workflow_complete", VBool true) ]%string.

Definition verify_failed (e : string) : dict :=
  [ ("status", VStr "failed");
    ("error", VStr e);
    ("message", VStr "Failed to verify optimization changes") ]%string.

Definition VerifyOptimizationStep_execute : step_fn world :=
  fun context w =>
    let applied_changes := get_default context "applied_changes" (VList []) in
    if negb (truthy applied_changes) then (nothing_to_verify, context, w)
    else
      match iterate applied_changes with
      | Raise e => (verify_failed e, context, w)
      | Ok changes =>
          match verify_loop changes [] w with
          | (Ok verification_results, w') =>
              (verify_result verification_results, context, w')
          | (Raise e, w') => (verify_failed e, context, w')
          end
      end.

(** The verification of a change, made from the world [w] and leaving the
    world [w']: it is about the same instance; when the change failed it is
    skipped without a lookup; otherwise the instance is looked up and the
    verification is a "success" exactly when the lookup finds the instance
    running with the type the change leads to. *)
Definition verification_of (change v : value) (w w' : world) : Prop :=
  instance_of v = instance_of change
  /\ (change_status change = VStr "failed" ->
      verification_status v = VStr "skipped" /\ w' = w)
  /\ (change_status change <> VStr "failed" ->
      w' = snd (describe_instances (instance_of change) w)
      /\ (verification_status v = VStr "success"
          \/ verification_status v = VStr "failed"
          \/ verification_status v = VStr "error")
      /\ (verification_status v = VStr "success" <->
          exists ty : string,
            fst (describe_instances (instance_of change) w) = Found "running" ty
            /\ subscript change "to" = Ok (VStr ty))).

(** The verifications of a list of changes, one after the other. *)
Inductive verified : list value -> list value -> world -> world -> Prop :=
| verified_none (w : world) : verified [] [] w w
| verified_next (change v : value) (changes vs : list value) (w w1 w2 : world) :
    verification_of change v w w1 -> verified changes vs w1 w2 ->
    verified (change :: changes) (v :: vs) w w2.

(** *** The three steps together *)

(** [execute_workflow_step] over the registry of the three steps. *)
Definition execute_step : string -> step_fn world :=
  execute_workflow_step world describe_instances
    ApplyRightsizingStep_execute VerifyOptimizationStep_execute.

(** [runner.run(action=..., context=...)] as far as the workflow goes. *)
Definition run_workflow (hex8 action : string) (context : dict) (w : world)
  : option (string * run world) :=
  _run_via_strands world execute_step hex8 action context w.

End Steps.

(** *** An account that keeps a record of its calls

    The calls that change an instance, and the events of a run: a lookup with
    its answer, a call with its outcome.  The account answers each call from
    what happened so far. *)

Inductive call : Type :=
| Stop (instance_id : value)
| WaitStopped (instance_id : value)
| Modify (instance_id instance_type : value)
| Start (instance_id : value)
| WaitRunning (instance_id : value).

Inductive event : Type :=
| Looked (instance_id : value) (answer : describe_outcome)
| Called (c : call) (outcome : result unit).

Definition history : Type := list event.

(** The instance a call is about. *)
Definition target (c : call) : value :=
  match c with
  | Stop i | WaitStopped i | Modify i _ | Start i | WaitRunning i => i
  end.

Section Recording.

Variable describe_answer : history -> value -> describe_outcome.
Variable call_answer : history -> call -> result unit.
Variable clock : history -> string.
Variable float_of_str : string -> result float.

Definition recorded_describe (instance_id : value) (w : history)
  : describe_outcome * history :=
  (describe_answer w instance_id, w ++ [Looked instance_id (describe_answer w instance_id)]).

Definition recorded (c : call) (w : history) : result unit * history :=
  (call_answer w c, w ++ [Called c (call_answer w c)]).

Definition recorded_apply : step_fn history :=
  ApplyRightsizingStep_execute history
    (fun i => recorded (Stop i)) (fun i => recorded (WaitStopped i))
    (fun i t => recorded (Modify i t)) (fun i => recorded (Start i))
    (fun i => recorded (WaitRunning i)) clock float_of_str.

Definition recorded_verify : step_fn history :=
  VerifyOptimizationStep_execute history recorded_describe clock.

Definition recorded_run (hex8 action : string) (context : dict) (w : history)
  : option (string * run history) :=
  run_workflow history recorded_describe
    (fun i => recorded (Stop i)) (fun i => recorded (WaitStopped i))
    (fun i t => recorded (Modify i t)) (fun i => recorded (Start i))
    (fun i => recorded (WaitRunning i)) clock float_of_str hex8 action context w.

End Recording.

(** *** Vocabulary of the recorded runs *)

(** Is the event a call that changes an instance, or a lookup? *)
Definition is_call (e : event) : bool :=
  match e with Called _ _ => true | Looked _ _ => false end.

Definition lookups_only (events : list event) : Prop :=
  Forall (fun e => is_call e = false) events.

(** A record whose instance a lookup among the events found running. *)
Definition seen_running (events : list event) (rec : value) : Prop :=
  well_formed rec
  /\ exists ty : string, In (Looked (instance_of rec) (Found "running" ty)) events.

(** The records the apply step goes through. *)
Definition to_apply (context : dict) : list value :=
  match get_default context "validated_recommendations" (VList []) with
  | VList recs => recs
  | _ => []
  end.

(** The instances and types of a list of records. *)
Definition targets (recs : list value) : list (value * value) :=
  map (fun rec => (instance_of rec, recommended_of rec)) recs.

Definition succeeded (c : call) : event := Called c (Ok tt).

(** The events of the five calls for one instance, with the outcome of the
    row: each call is made only after the calls before it succeeded. *)
Inductive attempt (i t : value) : result unit -> list event -> Prop :=
| stop_failed (e : string) :
    attempt i t (Raise e) [Called (Stop i) (Raise e)]
| wait_stopped_failed (e : string) :
    attempt i t (Raise e) [succeeded (Stop i); Called (WaitStopped i) (Raise e)]
| modify_failed (e : string) :
    attempt i t (Raise e)
      [succeeded (Stop i); succeeded (WaitStopped i); Called (Modify i t) (Raise e)]
| start_failed (e : string) :
    attempt i t (Raise e)
      [succeeded (Stop i); succeeded (WaitStopped i); succeeded (Modify i t);
       Called (Start i) (Raise e)]
| all_called (outcome : result unit) :
    attempt i t outcome
      [succeeded (Stop i); succeeded (WaitStopped i); succeeded (Modify i t);
       succeeded (Start i); Called (WaitRunning i) outcome].

(** The events of a loop over records: the attempts for the records in their
    order, for all of them or, when the loop is left early, for the first of
    them. *)
Inductive attempts : list (value * value) -> list event -> Prop :=
| attempts_end (left_out : list (value * value)) : attempts left_out []
| attempts_next (i t : value) (outcome : result unit) (events : list event)
    (rest : list (value * value)) (more : list event) :
    attempt i t outcome events -> attempts rest more ->
    attempts ((i, t) :: rest) (events ++ more).

(** *** An account and contexts used as instances of the properties *)

(** An account where every instance runs as an m5.large and every call
    succeeds. *)
Definition demo_run (context : dict) : option (string * run history) :=
  (recorded_run (fun _ _ => Found "running" "m5.large") (fun _ _ => Ok tt)
     (fun _ => "2025-01-01T00:00:00") (fun _ => Ok 50%float) "0a1b2c3d"
     "optimize_existing_instances" context [])%string.

Definition demo_validated : value :=
  VDict [ ("instance_id", VStr "i-1");
          ("current_instance_type", VStr "m5.large");
          ("recommended_instance_type", VStr "t3.medium");
          ("estimated_savings", VStr "$50.00/month");
          ("reason", VStr "Company Cost Policy");
          ("original_recommendation", VDict []) ]%string.

Definition demo_changes : list value :=
  [ VDict [ ("instance_id", VStr "i-1"); ("to", VStr "t3.medium");
            ("status", VStr "failed"); ("error", VStr "UnauthorizedOperation") ] ]%string.

End Executor.

(** ** The agent's tool [execute_rightsizing_workflow] ([app.py] of the runtime) *)

Module Agent.
Import Py Api.
Local Open Scope string_scope.

(** The body the tool posts to [/v1/automation]: [resource_types] is the list
    made of the set of the resource types of the recommendations, in the
    order the set gives them. *)
Definition automation_request (recommendations resource_types : list value) : value :=
  VDict [ ("action", VStr "optimize_resources");
          ("context",
           VDict [ ("requestedBy", VStr "agentcore_runtime");
                   ("recommendations", VList recommendations);
                   ("resource_types", VList resource_types);
                   ("workflow_type", VStr "execute_agent_recommendations") ]) ].

(** The request as the endpoint reads it: the body, and the one header the
    tool sets being [Content-Type], no [Authorization]. *)
Definition posted (recommendations resource_types : list value) : request :=
  {| json_body := Ok (automation_request recommendations resource_types);
     authorization := None |}.

End Agent.

(** * Properties *)

(** ** Policy engine *)

Module PolicyProofs.
Import Py Policy.

Lemma translate_cons (c : ascii) (p : string) :
  translate (String c p) =
  if Ascii.eqb c "." then String "\" (String "." (translate p))
  else if Ascii.eqb c "*" then String "." (String "*" (translate p))
  else String c (translate p).
Proof.
  unfold translate. simpl.
  destruct (Ascii.eqb_spec c ".") as [->|Hdot]; [reflexivity|].
  simpl. destruct (Ascii.eqb c "*"); reflexivity.
Qed.

Lemma translate_head (p : string) :
  match translate p with
  | String c _ => Ascii.eqb c "*" = false
  | EmptyString => True
  end.
Proof.
  destruct p as [|c p]; [exact I|].
  rewrite translate_cons.
  destruct (Ascii.eqb_spec c "."); [reflexivity|].
  destruct (Ascii.eqb_spec c "*") as [|Hstar]; [reflexivity|].
  apply Ascii.eqb_neq; assumption.
Qed.

Lemma with_star_plain (a : re_atom) (p : string) (k : string -> list re_item) :
  with_star a (translate p) k = ROne a :: k (translate p).
Proof.
  unfold with_star. pose proof (translate_head p) as H.
  destruct (translate p); [reflexivity|]. rewrite H. reflexivity.
Qed.

Lemma re_compile_translate (p : string) :
  forall fuel : nat,
    no_backslash p = true ->
    (String.length (translate p) <= fuel)%nat ->
    re_compile_fuel fuel (translate p) = glob_items p.
Proof.
  induction p as [|c p IH]; intros fuel Hb Hlen.
  - destruct fuel; reflexivity.
  - simpl in Hb. apply andb_true_iff in Hb as [Hc Hb].
    apply negb_true_iff in Hc.
    rewrite translate_cons in *.
    destruct (Ascii.eqb_spec c ".") as [->|Hdot].
    + destruct fuel as [|fuel]; [simpl in Hlen; lia|].
      simpl in Hlen. simpl. rewrite with_star_plain.
      rewrite IH by (assumption || lia). reflexivity.
    + destruct (Ascii.eqb_spec c "*") as [->|Hstar].
      * destruct fuel as [|fuel]; [simpl in Hlen; lia|].
        simpl in Hlen. simpl.
        rewrite IH by (assumption || lia). reflexivity.
      * destruct fuel as [|fuel]; [simpl in Hlen; lia|].
        simpl in Hlen. simpl. rewrite Hc.
        apply Ascii.eqb_neq in Hdot. rewrite Hdot.
        apply Ascii.eqb_neq in Hstar. rewrite Hstar.
        rewrite with_star_plain.
        rewrite IH by (assumption || lia). reflexivity.
Qed.

Lemma items_match_star (a : re_atom) (r : list re_item) (s : string) :
  items_match (RStar a :: r) s =
  items_match r s ||
  match s with
  | String c s' => atom_matches a c && items_match (RStar a :: r) s'
  | EmptyString => false
  end.
Proof. destruct s; reflexivity. Qed.

Lemma glob_match_star (p s : string) :
  glob_match (String "*" p) s =
  glob_match p s ||
  match s with
  | String _ s' => glob_match (String "*" p) s'
  | EmptyString => false
  end.
Proof. destruct s; reflexivity. Qed.

Lemma glob_match_char (c : ascii) (p s : string) :
  Ascii.eqb c "*" = false ->
  glob_match (String c p) s =
  match s with
  | String d s' => Ascii.eqb c d && glob_match p s'
  | EmptyString => false
  end.
Proof. intros H. simpl. rewrite H. reflexivity. Qed.

(** On a str without a newline the compiled expression and the glob agree. *)
Lemma items_match_glob (p : string) :
  forall s : string,
    no_newline s = true -> items_match (glob_items p) s = glob_match p s.
Proof.
  induction p as [|c p IH]; intros s Hs.
  - destruct s as [|d [|e s]]; simpl in *; try reflexivity.
    apply andb_true_iff in Hs as [Hd _]. apply negb_true_iff in Hd. exact Hd.
  - simpl glob_items. destruct (Ascii.eqb_spec c "*") as [->|Hstar].
    + induction s as [|d s IHs].
      * rewrite items_match_star, glob_match_star, IH by reflexivity. reflexivity.
      * simpl in Hs. apply andb_true_iff in Hs as [Hd Hs'].
        rewrite items_match_star, glob_match_star, IH by (simpl; rewrite Hd; exact Hs').
        rewrite IHs by exact Hs'. simpl. rewrite Hd. reflexivity.
    + apply Ascii.eqb_neq in Hstar. rewrite glob_match_char by exact Hstar.
      destruct s as [|d s]; [reflexivity|].
      simpl in Hs. apply andb_true_iff in Hs as [_ Hs'].
      simpl. rewrite IH by exact Hs'. reflexivity.
Qed.

Lemma re_match_translate (p v : string) :
  no_backslash p = true -> no_newline v = true ->
  re_match_anchored (translate p) v = glob_match p v.
Proof.
  intros Hp Hv. unfold re_match_anchored, re_compile.
  rewrite re_compile_translate by (assumption || lia).
  apply items_match_glob; assumption.
Qed.

Lemma allowed_by_false (l : list string) (v : string) :
  allowed_by l v = false <->
  exists p, In p l /\ re_match_anchored (translate p) v = true.
Proof.
  induction l as [|p l IH]; simpl.
  - split; [discriminate | intros (p & [] & _)].
  - destruct (re_match_anchored (translate p) v) eqn:Hm.
    + split; [intros _; exists p; auto | reflexivity].
    + rewrite IH. split.
      * intros (q & Hq & Hmq). exists q; auto.
      * intros (q & [->|Hq] & Hmq); [congruence | exists q; auto].
Qed.

Lemma dict_get_cons (k : string) (v : value) (d : dict) (s : string) :
  dict_get ((k, v) :: d) s = if String.eqb k s then Some v else dict_get d s.
Proof. reflexivity. Qed.

(** Only the EC2 policy keeps a list under [disallowed_instance_types]. *)
Lemma disallowed_instance_types_cases (service : string) :
  disallowed_instance_types service = [] \/ service = "ec2"%string.
Proof.
  unfold disallowed_instance_types, get_policy, get_default, COMPANY_COST_POLICIES.
  repeat (rewrite dict_get_cons;
          match goal with
          | |- context [String.eqb ?k service] =>
              destruct (String.eqb_spec k service) as [<-|];
              [first [left; reflexivity | right; reflexivity]|]
          end).
  left. reflexivity.
Qed.

Lemma disallowed_instance_types_plain (service : string) :
  forallb no_backslash (disallowed_instance_types service) = true.
Proof.
  destruct (disallowed_instance_types_cases service) as [->| ->]; reflexivity.
Qed.

Lemma get_policy_absent (service : string) :
  dict_get COMPANY_COST_POLICIES service = None -> get_policy service = VDict [].
Proof. intros H. unfold get_policy, get_default. rewrite H. reflexivity. Qed.

Lemma get_policy_truthy (service : string) :
  truthy (get_policy service) = false -> disallowed_instance_types service = [].
Proof.
  intros H. unfold disallowed_instance_types.
  destruct (get_policy service) as [| | | | | |[|kv d]]; try reflexivity.
  discriminate.
Qed.

(** C3, as the code has it.  For every instance type without a newline and
    every resource kind, [is_instance_type_allowed] is false exactly when the
    type fully matches (anchored, case-sensitive, [.] literal, [*] any
    sequence) one of the globs that the kind's policy lists under
    [disallowed_instance_types]; a kind without a policy entry allows every
    type. *)
Theorem is_instance_type_allowed_glob (v service : string) :
  no_newline v = true ->
  (is_instance_type_allowed v service = false <->
   exists p, In p (disallowed_instance_types service) /\ glob_match p v = true)
  /\ (dict_get COMPANY_COST_POLICIES service = None ->
      forall v', is_instance_type_allowed v' service = true).
Proof.
  intros Hv. split.
  - assert (Hagree : forall p, In p (disallowed_instance_types service) ->
                       re_match_anchored (translate p) v = glob_match p v).
    { intros p Hp. apply re_match_translate; [|exact Hv].
      pose proof (disallowed_instance_types_plain service) as Hall.
      rewrite forallb_forall in Hall. apply Hall, Hp. }
    unfold is_instance_type_allowed.
    destruct (truthy (get_policy service)) eqn:Ht; simpl.
    + rewrite allowed_by_false. split.
      * intros (p & Hp & Hm). exists p. rewrite <- Hagree; auto.
      * intros (p & Hp & Hm). exists p. rewrite Hagree; auto.
    + rewrite (get_policy_truthy _ Ht). split; [discriminate|].
      intros (p & [] & _).
  - intros Habs v'. unfold is_instance_type_allowed.
    rewrite (get_policy_absent _ Habs). reflexivity.
Qed.

Lemma is_instance_type_allowed_glob_witness :
  is_instance_type_allowed "r5.large" "ec2" = false
  /\ is_instance_type_allowed "t3.medium" "no-such-kind" = true.
Proof.
  destruct (is_instance_type_allowed_glob "r5.large" "ec2" eq_refl) as [[_ H] _].
  destruct (is_instance_type_allowed_glob "r5.large" "no-such-kind" eq_refl) as [_ H'].
  split.
  - apply H. exists "r5.*"%string. split; [left; reflexivity | reflexivity].
  - apply H'. reflexivity.
Defined.

(** C3 as stated fails for a kind whose disallowed globs live under another
    key: the RDS policy disallows [db.r5.*], and [db.r5.large] is allowed. *)
Lemma is_instance_type_allowed_rds_counterexample :
  ~ (is_instance_type_allowed "db.r5.large" "rds" = false <->
     exists p, In p (spec_disallowed_patterns "rds")
               /\ glob_match p "db.r5.large" = true).
Proof.
  intros [_ H].
  assert (Hf : is_instance_type_allowed "db.r5.large" "rds" = false).
  { apply H. exists "db.r5.*"%string. split; [left; reflexivity | reflexivity]. }
  discriminate Hf.
Qed.

(** The anchors of [re.match] are not a full match on a str with a newline:
    [$] matches before a newline that ends the str, and [.] skips none. *)
Example newline_escapes_full_match :
  is_instance_type_allowed (String.append "t3.large" (String newline "")) "ec2" = false
  /\ glob_match "t3.large" (String.append "t3.large" (String newline "")) = false
  /\ is_instance_type_allowed (String.append "r5." (String newline "x")) "ec2" = true
  /\ glob_match "r5.*" (String.append "r5." (String newline "x")) = true.
Proof. repeat split; reflexivity. Qed.

(** The default policy rejects [r5.large] and recommends [t3.medium]. *)
Example r5_large_default_policy :
  is_instance_type_allowed "r5.large" "ec2" = false
  /\ get_recommended_type "r5.large" "ec2" = "t3.medium"%string.
Proof. split; reflexivity. Qed.

End PolicyProofs.

(** ** Cost analytics *)

Module AnalyticsProofs.
Import Analytics.

(** C7.  [_percentage_delta] is [None] when both amounts are zero, [100.0]
    when only the previous one is, and otherwise
    [(current - previous) / previous * 100]; from 100 to 150 it is [50.0]. *)
Theorem percentage_delta_cases :
  (forall previous current : float,
      PrimFloat.eqb previous 0 = true -> PrimFloat.eqb current 0 = true ->
      _percentage_delta previous current = None)
  /\ (forall previous current : float,
      PrimFloat.eqb previous 0 = true -> PrimFloat.eqb current 0 = false ->
      _percentage_delta previous current = Some 100%float)
  /\ (forall previous current : float,
      PrimFloat.eqb previous 0 = false ->
      _percentage_delta previous current =
      Some ((current - previous) / previous * 100)%float)
  /\ _percentage_delta 0 0 = None
  /\ _percentage_delta 0 5 = Some 100%float
  /\ _percentage_delta 100 150 = Some 50%float.
Proof.
  unfold _percentage_delta. repeat split.
  - intros previous current Hp Hc. rewrite Hp, Hc. reflexivity.
  - intros previous current Hp Hc. rewrite Hp, Hc. reflexivity.
  - intros previous current Hp. rewrite Hp. reflexivity.
Qed.

Lemma percentage_delta_cases_witness :
  _percentage_delta 0 7 = Some 100%float
  /\ _percentage_delta 200 150 = Some (-25)%float.
Proof.
  destruct percentage_delta_cases as (_ & Hzero & Hother & _).
  split.
  - apply Hzero; reflexivity.
  - rewrite Hother by reflexivity. reflexivity.
Defined.

End AnalyticsProofs.

(** ** Recommendation collector *)

Module CollectorProofs.
Import Py Policy Collector.

(** *** The loops as list functions *)

Lemma policy_loop_app (l : list ec2_instance) (acc : list value) :
  policy_loop l acc =
  acc ++ map policy_violation_rec
           (filter (fun i => negb (is_instance_type_allowed (InstanceType i) "ec2")) l).
Proof.
  revert acc. induction l as [|i l IH]; intros acc; simpl.
  - rewrite app_nil_r. reflexivity.
  - unfold filter; simpl. fold (@filter ec2_instance).
    destruct (is_instance_type_allowed (InstanceType i) "ec2"); simpl.
    + apply IH.
    + rewrite IH, <- app_assoc. reflexivity.
Qed.

Lemma optimizer_loop_app (violations : list value) (recs : list optimizer_rec)
    (acc : list value) :
  optimizer_loop violations recs acc =
  acc ++ flat_map (optimizer_step violations) recs.
Proof.
  revert acc. induction recs as [|rec recs IH]; intros acc; simpl.
  - rewrite app_nil_r. reflexivity.
  - unfold optimizer_step at 1.
    destruct (already_flagged violations (optimizer_instance_id rec)).
    + apply IH.
    + destruct (recommendationOptions rec) as [|best_option options].
      * apply IH.
      * rewrite IH, <- app_assoc. reflexivity.
Qed.

Lemma lambda_loop_app (env : aws) (mx : value) (l : list lambda_function)
    (acc : list value) :
  lambda_loop env mx l acc = acc ++ flat_map (lambda_function_recs env mx) l.
Proof.
  revert acc. induction l as [|f l IH]; intros acc; simpl.
  - rewrite app_nil_r. reflexivity.
  - rewrite IH, <- app_assoc. reflexivity.
Qed.

Lemma s3_loop_app (env : aws) (l : list string) (acc : list value) :
  s3_loop env l acc = acc ++ flat_map (s3_bucket_recs env) l.
Proof.
  revert acc. induction l as [|b l IH]; intros acc; simpl.
  - rewrite app_nil_r. reflexivity.
  - rewrite IH, <- app_assoc. reflexivity.
Qed.

(** The Lambda policy of the registry caps reserved concurrency at 100. *)
Lemma check_lambda_functions_ok (env : aws) (functions : list lambda_function) :
  list_functions env = Ok functions ->
  check_lambda_functions env =
  (flat_map (lambda_function_recs env (VInt 100)) functions, length functions).
Proof.
  intros H. unfold check_lambda_functions. rewrite H.
  change (get_policy "lambda") with
    (VDict [ ("timeout", VDict
               [ ("max_seconds", VInt 300); ("recommended_seconds", VInt 60);
                 ("rationale",
                  VStr "Most functions should complete within 60s to avoid runaway costs") ]);
             ("reserved_concurrency", VDict
               [ ("max", VInt 100);
                 ("rationale", VStr "Prevent runaway costs from unlimited scaling") ]) ]%string).
  cbn [truthy negb]. rewrite lambda_loop_app. reflexivity.
Qed.

Lemma check_s3_buckets_ok (env : aws) (buckets : list string) :
  list_buckets env = Ok buckets ->
  check_s3_buckets env = (flat_map (s3_bucket_recs env) buckets, length buckets).
Proof.
  intros H. unfold check_s3_buckets. rewrite H.
  replace (negb (truthy (get_policy "s3"))
           || negb (truthy (get (entries (get_policy "s3")) "lifecycle_policy_required")))
    with false by reflexivity.
  rewrite s3_loop_app. reflexivity.
Qed.

(** *** Lambda functions *)

Lemma lambda_savings_agree_range :
  forallb lambda_savings_agree lambda_memory_range = true.
Proof. vm_compute. reflexivity. Qed.

Lemma lambda_savings_exact (m : Z) :
  5120 < m -> m <= 10240 ->
  format_money (lambda_memory_savings m) =
  money_of_cents (Z.max 500 (exact_lambda_cents m)).
Proof.
  intros Hlo Hhi.
  pose proof lambda_savings_agree_range as Hall.
  rewrite forallb_forall in Hall.
  apply String.eqb_eq. apply (Hall m).
  unfold lambda_memory_range. apply in_map_iff.
  exists (Z.to_nat (m - 5121)). split; [lia|]. apply in_seq. lia.
Qed.

Lemma lambda_savings_floor (m : Z) :
  PrimFloat.ltb (lambda_memory_savings m) 5 = false.
Proof.
  unfold lambda_memory_savings.
  match goal with
  | |- context [if PrimFloat.ltb ?x 5 then _ else _] =>
      destruct (PrimFloat.ltb x 5) eqn:E; [reflexivity | exact E]
  end.
Qed.

(** C5.  Of the functions that [list_functions] returns, one with more than
    5120 MB of memory gets a recommendation of 1024 MB whose savings are the
    estimate floored at $5.00 (for every size up to the service's maximum of
    10240 MB, the text is the exact decimal
    [(current_GB - 1) * 1,000,000 * 0.0000166667] rounded to cents), and one
    whose reserved concurrency exceeds the policy maximum of 100 gets a
    recommendation of that maximum with savings of $10.00; 8192 MB gives
    1024 MB and $116.67. *)
Theorem check_lambda_functions_recommends
    (env : aws) (functions : list lambda_function) (func : lambda_function) :
  list_functions env = Ok functions ->
  In func functions ->
  let recs := fst (check_lambda_functions env) in
  let function_name := FunctionName func in
  let m := MemorySize func in
  (5120 < m ->
   In (lambda_memory_rec function_name m) recs
   /\ get (entries (lambda_memory_rec function_name m)) "recommended_memory_mb"
      = VInt 1024
   /\ get (entries (lambda_memory_rec function_name m)) "estimated_monthly_savings"
      = VStr (format_money (lambda_memory_savings m))
   /\ PrimFloat.ltb (lambda_memory_savings m) 5 = false
   /\ (m <= 10240 ->
       format_money (lambda_memory_savings m)
       = money_of_cents (Z.max 500 (exact_lambda_cents m))))
  /\ (forall reserved : Z,
      get_function_concurrency env function_name = Ok (Some reserved) ->
      100 < reserved ->
      In (lambda_concurrency_rec function_name reserved 100) recs
      /\ get (entries (lambda_concurrency_rec function_name reserved 100))
           "recommended_concurrency" = VInt 100
      /\ get (entries (lambda_concurrency_rec function_name reserved 100))
           "estimated_monthly_savings" = VStr "$10.00")
  /\ get (entries (lambda_memory_rec "f" 8192)) "recommended_memory_mb" = VInt 1024
  /\ format_money (lambda_memory_savings 8192) = "$116.67"%string.
Proof.
  intros Hlist Hin recs function_name m.
  assert (Hrecs : recs = flat_map (lambda_function_recs env (VInt 100)) functions).
  { unfold recs. rewrite (check_lambda_functions_ok env functions Hlist). reflexivity. }
  repeat split.
  - rewrite Hrecs. apply in_flat_map. exists func. split; [exact Hin|].
    unfold lambda_function_recs. fold function_name m.
    apply Z.ltb_lt in H. rewrite H. apply in_or_app. left. left. reflexivity.
  - apply lambda_savings_floor.
  - intros Hmax. apply lambda_savings_exact; assumption.
  - rewrite Hrecs. apply in_flat_map. exists func. split; [exact Hin|].
    unfold lambda_function_recs. fold function_name. rewrite H.
    apply in_or_app. right.
    assert (Hnz : negb (reserved =? 0) = true)
      by (apply negb_true_iff, Z.eqb_neq; lia).
    apply Z.ltb_lt in H0. rewrite Hnz, H0. left. reflexivity.
Qed.

Lemma check_lambda_functions_recommends_witness :
  fst (check_lambda_functions lambda_demo) =
  [ lambda_memory_rec "resize-images" 8192;
    lambda_concurrency_rec "resize-images" 250 100 ]
  /\ In (lambda_memory_rec "resize-images" 8192) (fst (check_lambda_functions lambda_demo))
  /\ In (lambda_concurrency_rec "resize-images" 250 100)
       (fst (check_lambda_functions lambda_demo)).
Proof.
  pose proof (check_lambda_functions_recommends lambda_demo
                [ {| FunctionName := "resize-images"; MemorySize := 8192 |} ]
                {| FunctionName := "resize-images"; MemorySize := 8192 |}
                eq_refl (or_introl eq_refl)) as (Hmem & Hconc & _).
  split; [reflexivity|]. split.
  - apply Hmem. reflexivity.
  - apply (Hconc 250); reflexivity.
Defined.

(** *** S3 buckets *)

Lemma prim2sf_five : Prim2SF 5 = S754_finite false 5629499534213120 (-50).
Proof. vm_compute. reflexivity. Qed.

Lemma prim2sf_hundred : Prim2SF 100 = S754_finite false 7036874417766400 (-46).
Proof. vm_compute. reflexivity. Qed.

(** No float is below 5 and above 100. *)
Lemma below_five_not_above_hundred (x : float) :
  PrimFloat.ltb x 5 = true -> PrimFloat.ltb 100 x = false.
Proof.
  rewrite !ltb_spec, prim2sf_five, prim2sf_hundred. unfold SFltb.
  destruct (Prim2SF x) as [s|s| |s m e]; cbn [SFcompare]; try reflexivity.
  - destruct s; try reflexivity. discriminate.
  - destruct s; try reflexivity.
    destruct (Z.compare_spec e (-50)) as [->| |].
    + intros _. reflexivity.
    + intros _. destruct (Z.compare_spec (-46) e); try reflexivity; lia.
    + discriminate.
Qed.

(** The two tests of the code, the upper one first, are the clamp. *)
Lemma s3_savings_clamped (size_bytes : float) (rest : list float) :
  s3_estimated_savings (Ok (size_bytes :: rest))
  = clamp 5 100 (round2 (size_bytes / 1073741824 * 0.007)%float).
Proof.
  unfold s3_estimated_savings, clamp.
  match goal with
  | |- context [PrimFloat.ltb ?x 5] =>
      destruct (PrimFloat.ltb x 5) eqn:Hlo;
      [rewrite (below_five_not_above_hundred x Hlo); reflexivity | reflexivity]
  end.
Qed.

Lemma s3_savings_bounds (metrics : result (list float)) :
  PrimFloat.ltb (s3_estimated_savings metrics) 5 = false
  /\ PrimFloat.ltb 100 (s3_estimated_savings metrics) = false.
Proof.
  unfold s3_estimated_savings.
  destruct metrics as [[|size_bytes rest]|e]; try (split; reflexivity).
  match goal with
  | |- context [if PrimFloat.ltb 100 ?x then _ else _] =>
      destruct (PrimFloat.ltb 100 x) eqn:Hhi; [split; reflexivity|];
      destruct (PrimFloat.ltb x 5) eqn:Hlo; [split; reflexivity|];
      split; assumption
  end.
Qed.

(** C6.  A bucket that [list_buckets] returns and that has no lifecycle
    configuration gets a recommendation.  With a size datapoint its savings
    are the size in GB times 0.007, rounded to cents and clamped to the
    interval from 5.00 to 100.00; they are never below 5.00 nor above 100.00;
    without a datapoint (none returned, or the metrics call raises) the text
    is exactly "$5.00". *)
Theorem check_s3_buckets_recommends
    (env : aws) (buckets : list string) (bucket_name : string) :
  list_buckets env = Ok buckets ->
  In bucket_name buckets ->
  get_bucket_lifecycle_configuration env bucket_name
  = LifecycleClientError "NoSuchLifecycleConfiguration" ->
  let savings := s3_estimated_savings (get_metric_statistics env bucket_name) in
  In (s3_lifecycle_rec bucket_name savings) (fst (check_s3_buckets env))
  /\ get (entries (s3_lifecycle_rec bucket_name savings)) "estimated_monthly_savings"
     = VStr (format_money savings)
  /\ PrimFloat.ltb savings 5 = false
  /\ PrimFloat.ltb 100 savings = false
  /\ (forall (size_bytes : float) (rest : list float),
      get_metric_statistics env bucket_name = Ok (size_bytes :: rest) ->
      savings = clamp 5 100 (round2 (size_bytes / 1073741824 * 0.007)%float))
  /\ (get_metric_statistics env bucket_name = Ok []
      \/ (exists e, get_metric_statistics env bucket_name = Raise e) ->
      format_money savings = "$5.00"%string).
Proof.
  intros Hlist Hin Hlife savings.
  split; [|split; [reflexivity|]].
  - rewrite (check_s3_buckets_ok env buckets Hlist). simpl fst.
    apply in_flat_map. exists bucket_name. split; [exact Hin|].
    unfold s3_bucket_recs. rewrite Hlife. simpl. left. reflexivity.
  - destruct (s3_savings_bounds (get_metric_statistics env bucket_name)) as [Hlo Hhi].
    split; [exact Hlo|]. split; [exact Hhi|]. split.
    + intros size_bytes rest Hm. unfold savings. rewrite Hm.
      apply s3_savings_clamped.
    + intros [Hm|[e Hm]]; unfold savings; rewrite Hm; reflexivity.
Qed.

Lemma check_s3_buckets_recommends_witness :
  In (s3_lifecycle_rec "logs" 14%float) (fst (check_s3_buckets lambda_demo))
  /\ fst (check_s3_buckets lambda_demo) = [ s3_lifecycle_rec "logs" 14%float ].
Proof.
  split; [|reflexivity].
  exact (proj1 (check_s3_buckets_recommends lambda_demo [ "logs"; "assets" ]%string
                  "logs" eq_refl (or_introl eq_refl) eq_refl)).
Defined.

(** *** The merged batch *)

Lemma cap_results_zero {A : Type} (l : list A) : cap_results 0 l = l.
Proof. reflexivity. Qed.

Lemma cap_results_positive {A : Type} (limit : Z) (l : list A) :
  0 < limit -> cap_results limit l = take (Z.to_nat limit) l.
Proof.
  intros Hpos. unfold cap_results, slice_to.
  replace (limit =? 0) with false by (symmetry; apply Z.eqb_neq; lia).
  replace (0 <=? limit) with true by (symmetry; apply Z.leb_le; lia).
  simpl. destruct (limit <? Z.of_nat (length l)) eqn:Hlt; [reflexivity|].
  apply Z.ltb_ge in Hlt. symmetry. apply firstn_all2. lia.
Qed.

Lemma in_take {A : Type} (n : nat) (l : list A) (x : A) :
  In x (take n l) -> In x l.
Proof.
  revert n. induction l as [|y l IH]; intros [|n] H; simpl in *; try contradiction.
  destruct H as [->|H]; [left; reflexivity | right; eauto].
Qed.

Lemma cap_results_incl {A : Type} (limit : Z) (l : list A) (x : A) :
  In x (cap_results limit l) -> In x l.
Proof.
  unfold cap_results, slice_to.
  destruct (negb (limit =? 0) && (limit <? Z.of_nat (length l))); [|auto].
  destruct (0 <=? limit); apply in_take.
Qed.

Lemma policy_loop_shape (l : list ec2_instance) :
  Forall ec2_policy_shape (policy_loop l []).
Proof.
  rewrite policy_loop_app. simpl. apply List.Forall_forall. intros x Hx.
  apply in_map_iff in Hx as (i & <- & _). exists i. reflexivity.
Qed.

Lemma optimizer_shape (env : aws) (violations : list value) :
  Forall (ec2_advisory_shape violations) (ec2_optimizer_recommendations env violations).
Proof.
  unfold ec2_optimizer_recommendations.
  destruct (get_ec2_instance_recommendations env) as [recs|e]; [|constructor].
  rewrite optimizer_loop_app. simpl. apply List.Forall_forall. intros x Hx.
  apply in_flat_map in Hx as (rec & _ & Hx). unfold optimizer_step in Hx.
  destruct (already_flagged violations (optimizer_instance_id rec)) eqn:Hflag;
    [destruct Hx|].
  destruct (recommendationOptions rec) as [|best_option options]; [destruct Hx|].
  destruct Hx as [<-|[]]. exists rec, best_option. split; [reflexivity | exact Hflag].
Qed.

Lemma lambda_function_recs_shape (env : aws) (mx : value) (f : lambda_function) :
  Forall lambda_shape (lambda_function_recs env mx f).
Proof.
  unfold lambda_function_recs. apply List.Forall_app. split.
  - destruct (5120 <? MemorySize f); constructor; [|constructor].
    left. eauto.
  - destruct (get_function_concurrency env (FunctionName f)) as [[c|]|e];
      try constructor.
    destruct mx; try constructor.
    destruct (negb (c =? 0) && (z <? c)); constructor; [|constructor].
    right. eauto.
Qed.

Lemma lambda_recs_shape (env : aws) (resource_types : string) :
  Forall lambda_shape (lambda_recs env resource_types).
Proof.
  unfold lambda_recs. destruct (str_contains "Lambda" resource_types); [|constructor].
  destruct (list_functions env) as [functions|e] eqn:Hl.
  - rewrite (check_lambda_functions_ok env functions Hl). simpl.
    apply List.Forall_forall. intros x Hx. apply in_flat_map in Hx as (f & _ & Hx).
    pose proof (lambda_function_recs_shape env (VInt 100) f) as Hall.
    rewrite List.Forall_forall in Hall. auto.
  - unfold check_lambda_functions. rewrite Hl. constructor.
Qed.

Lemma s3_recs_shape (env : aws) (resource_types : string) :
  Forall s3_shape (s3_recs env resource_types).
Proof.
  unfold s3_recs. destruct (str_contains "S3" resource_types); [|constructor].
  destruct (list_buckets env) as [buckets|e] eqn:Hl.
  - rewrite (check_s3_buckets_ok env buckets Hl). simpl.
    apply List.Forall_forall. intros x Hx. apply in_flat_map in Hx as (b & _ & Hx).
    unfold s3_bucket_recs in Hx.
    destruct (get_bucket_lifecycle_configuration env b) as [|code|msg];
      try destruct Hx.
    + destruct (String.eqb code "NoSuchLifecycleConfiguration"); [|destruct Hx].
      destruct Hx as [<-|[]]. unfold s3_shape. eauto.
  - unfold check_s3_buckets. rewrite Hl. constructor.
Qed.

(** The batch before the cap: the policy violations of EC2, the optimizer's
    suggestions, then the records of Lambda and of S3. *)
Lemma batch_decomposition (env : aws) (resource_types : string) (limit : Z)
    (r : report) :
  get_rightsizing_recommendations env resource_types limit = Report r ->
  exists P A L S : list value,
    recommendations r = cap_results limit (P ++ A ++ L ++ S)
    /\ Forall ec2_policy_shape P
    /\ Forall (ec2_advisory_shape P) A
    /\ Forall lambda_shape L
    /\ Forall s3_shape S.
Proof.
  unfold get_rightsizing_recommendations. intros H.
  destruct (if str_contains "EC2" resource_types then describe_instances env else Ok [])
    as [running_instances|e]; [|discriminate H].
  injection H as <-. cbn [recommendations].
  exists (policy_loop running_instances []),
         (if str_contains "EC2" resource_types
          then ec2_optimizer_recommendations env (policy_loop running_instances [])
          else []),
         (lambda_recs env resource_types), (s3_recs env resource_types).
  split; [|split; [|split; [|split]]].
  - simpl. rewrite <- !app_assoc. reflexivity.
  - apply policy_loop_shape.
  - destruct (str_contains "EC2" resource_types); [apply optimizer_shape | constructor].
  - apply lambda_recs_shape.
  - apply s3_recs_shape.
Qed.

Lemma get_recommended_type_ec2 (t : string) :
  get_recommended_type t "ec2" = "t3.medium"%string.
Proof. reflexivity. Qed.

Lemma already_flagged_false (violations : list value) (id : string) (p : value) :
  already_flagged violations id = false -> In p violations -> instance_id p <> VStr id.
Proof.
  unfold already_flagged. intros Hflag Hin Heq.
  assert (Htrue : existsb (fun pv => eq_str (get (entries pv) "instance_id") id) violations = true).
  { apply existsb_exists. exists p. split; [exact Hin|].
    unfold instance_id in Heq. rewrite Heq. simpl. apply String.eqb_refl. }
  congruence.
Qed.






End CollectorProofs.

(** ** Workflow steps and runner *)

Module WorkflowProofs.
Import Py Workflow.

Lemma dict_get_set_eq (d : dict) (k : string) (v : value) :
  dict_get (dict_set d k v) k = Some v.
Proof.
  induction d as [|[k' v'] d IH]; simpl.
  - rewrite String.eqb_refl. reflexivity.
  - destruct (String.eqb k' k) eqn:E; simpl.
    + rewrite String.eqb_refl. reflexivity.
    + rewrite E. exact IH.
Qed.

Lemma dict_get_set_ne (d : dict) (k k' : string) (v : value) :
  k <> k' -> dict_get (dict_set d k v) k' = dict_get d k'.
Proof.
  intros Hne. apply String.eqb_neq in Hne.
  induction d as [|[k0 v0] d IH]; simpl.
  - rewrite Hne. reflexivity.
  - destruct (String.eqb k0 k) eqn:E; simpl.
    + apply String.eqb_eq in E. subst k0. rewrite Hne. reflexivity.
    + destruct (String.eqb k0 k'); [reflexivity | exact IH].
Qed.

Section RunnerProofs.

Variable world : Type.
Variable exec : string -> step_fn world.

Lemma run_steps_ends (blueprint : list step_def) :
  forall (results context : dict) (trace : list (string * dict)) (w : world),
  exists new : list (string * dict),
    executed (run_steps world exec blueprint results context trace w) = trace ++ new
    /\ map fst new `prefix_of` map name blueprint
    /\ (ends_failed (run_steps world exec blueprint results context trace w) new
        \/ ends_completed (run_steps world exec blueprint results context trace w)
             blueprint new).
Proof.
  induction blueprint as [|step_def rest IH]; intros results context trace w.
  - exists []. simpl. rewrite app_nil_r. split; [reflexivity|]. split; [reflexivity|].
    right. unfold ends_completed, status_of, message_of. simpl.
    split; [constructor|]. split; [reflexivity|]. split.
    + rewrite dict_get_set_ne by discriminate. apply dict_get_set_eq.
    + apply dict_get_set_eq.
  - simpl. destruct (exec (name step_def) context w) as [[step_result context1] w1].
    destruct (eq_str (get step_result "status") "failed") eqn:Hfailed.
    + exists [(name step_def, step_result)]. simpl.
      split; [reflexivity|]. split; [exists (map name rest); reflexivity|].
      left. exists [], (name step_def), step_result.
      unfold status_of, message_of. simpl.
      split; [reflexivity|]. split; [constructor|]. split; [exact Hfailed|]. split.
      * rewrite dict_get_set_ne by discriminate. apply dict_get_set_eq.
      * apply dict_get_set_eq.
    + destruct (IH (dict_set results (name step_def) (VDict step_result))
                  (dict_update context1 step_result)
                  (trace ++ [(name step_def, step_result)]) w1)
        as (new & Hexec & Hprefix & Hend).
      exists ((name step_def, step_result) :: new).
      split; [rewrite Hexec, <- app_assoc; reflexivity|].
      split; [simpl; apply prefix_cons; exact Hprefix|].
      destruct Hend as [(pre & n & res & -> & Hpre & Hres & Hst & Hmsg)
                       |(Hall & Hnames & Hst & Hmsg)].
      * left. exists ((name step_def, step_result) :: pre), n, res.
        split; [reflexivity|]. split; [constructor; [exact Hfailed | exact Hpre]|].
        auto.
      * right. split; [constructor; [exact Hfailed | exact Hall]|].
        split; [simpl; rewrite Hnames; reflexivity|]. auto.
Qed.

Lemma last_of_two_splits {A : Type} (pre pre' post : list A) (x y : A) :
  pre ++ x :: post = pre' ++ [y] -> (post = [] /\ x = y) \/ In x pre'.
Proof.
  intros H. destruct (exists_last (l := x :: post)) as (l' & z & Hl); [discriminate|].
  destruct post as [|p post].
  - left. split; [reflexivity|]. apply app_inj_tail in H. tauto.
  - right. rewrite Hl, app_assoc in H. apply app_inj_tail in H as [<- _].
    destruct l' as [|a l']; [destruct post; discriminate Hl|].
    simpl in Hl. injection Hl as <- _. apply in_or_app. right. left. reflexivity.
Qed.

(** C2.  The runner executes the steps of a blueprint in their order.  A step
    whose result carries the status "failed" is the last one executed; the
    run's status is then "failed" and its message names that step.  When no
    executed step fails, every step of the blueprint was executed and the
    status is "completed". *)
Theorem run_steps_fail_fast (blueprint : list step_def) (context : dict) (w : world) :
  let r := run_steps world exec blueprint [] context [] w in
  map fst (executed r) `prefix_of` map name blueprint
  /\ (forall (pre post : list (string * dict)) (n : string) (res : dict),
      executed r = pre ++ (n, res) :: post ->
      failed res = true ->
      post = []
      /\ status_of r = Some (VStr "failed")
      /\ message_of r = Some (VStr (String.append "Workflow failed at step: " n)))
  /\ ((forall (n : string) (res : dict), In (n, res) (executed r) -> failed res = false) ->
      map fst (executed r) = map name blueprint
      /\ status_of r = Some (VStr "completed")).
Proof.
  intros r. destruct (run_steps_ends blueprint [] context [] w)
    as (new & Hexec & Hprefix & Hend).
  fold r in Hexec, Hend. simpl in Hexec. rewrite Hexec.
  split; [exact Hprefix|]. split.
  - intros pre post n res Hsplit Hres.
    destruct Hend as [(pre' & n' & res' & -> & Hpre & Hres' & Hst & Hmsg)
                     |(Hall & _)].
    + destruct (last_of_two_splits _ _ _ _ _ (eq_sym Hsplit)) as [[-> Heq]|Hin].
      * injection Heq as <- <-. auto.
      * rewrite List.Forall_forall in Hpre. specialize (Hpre _ Hin). simpl in Hpre.
        congruence.
    + rewrite List.Forall_forall in Hall.
      assert (Hin : In (n, res) new) by (rewrite Hsplit; apply in_or_app; right; left; reflexivity).
      specialize (Hall _ Hin). simpl in Hall. congruence.
  - intros Hnone.
    destruct Hend as [(pre' & n' & res' & -> & Hpre & Hres' & Hst & Hmsg)
                     |(Hall & Hnames & Hst & _)].
    + assert (Hin : In (n', res') (pre' ++ [(n', res')]))
        by (apply in_or_app; right; left; reflexivity).
      specialize (Hnone _ _ Hin). congruence.
    + auto.
Qed.

End RunnerProofs.

Lemma run_steps_fail_fast_witness :
  map fst (executed (run_steps unit demo_exec demo_blueprint [] [] [] tt)) = ["a"; "b"]%string
  /\ status_of (run_steps unit demo_exec demo_blueprint [] [] [] tt)
     = Some (VStr "failed")
  /\ message_of (run_steps unit demo_exec demo_blueprint [] [] [] tt)
     = Some (VStr "Workflow failed at step: b").
Proof.
  split; [reflexivity|].
  destruct (run_steps_fail_fast unit demo_exec demo_blueprint [] tt) as (_ & Hfail & _).
  destruct (Hfail [("a", [("status", VStr "success")])]%string [] "b"%string
              [("status", VStr "failed"); ("error", VStr "boom")]%string
              eq_refl eq_refl) as (_ & Hst & Hmsg).
  split; [exact Hst | exact Hmsg].
Defined.

Section StepProofs.

Variable world : Type.
Variable describe_instances : value -> world -> describe_outcome * world.
Variable ApplyRightsizingStep_execute : step_fn world.
Variable VerifyOptimizationStep_execute : step_fn world.

Local Abbreviation steps :=
  (WORKFLOW_STEPS world describe_instances
     ApplyRightsizingStep_execute VerifyOptimizationStep_execute).

Local Abbreviation exec :=
  (execute_workflow_step world describe_instances
     ApplyRightsizingStep_execute VerifyOptimizationStep_execute).

Lemma registry_get_cons (k : string) (f : step_fn world)
    (reg : list (string * step_fn world)) (step_name : string) :
  registry_get world ((k, f) :: reg) step_name =
  if String.eqb k step_name then Some f else registry_get world reg step_name.
Proof. reflexivity. Qed.

Lemma registry_get_unknown (step_name : string) :
  ~ In step_name (map fst steps) -> registry_get world steps step_name = None.
Proof.
  intros Hnot. unfold WORKFLOW_STEPS in *. cbn [map fst In] in Hnot.
  repeat (rewrite registry_get_cons;
          match goal with
          | |- context [String.eqb ?k step_name] =>
              destruct (String.eqb_spec k step_name) as [Heq|_]; [exfalso; tauto|]
          end).
  reflexivity.
Qed.

(** C8.  A step name that the registry does not hold yields the result
    [{status: "failed", error, message}] and no exception, with the context
    and the world untouched.  An action that the library does not hold runs
    the generic rightsizing blueprint, whose first step the registry does not
    hold: the run returns with the status "failed" and a message that names
    that step. *)
Theorem unknown_step_and_action_fail_structured :
  (forall (step_name : string) (context : dict) (w : world),
      ~ In step_name (map fst steps) ->
      exists res : dict,
        exec step_name context w = (res, context, w)
        /\ dict_get res "status" = Some (VStr "failed")
        /\ dict_get res "error"
           = Some (VStr (String.append "Unknown workflow step: " step_name))
        /\ dict_get res "message"
           = Some (VStr (String.append "Workflow step '"
                           (String.append step_name "' not found"))))
  /\ (forall (hex8 action : string) (context : dict) (w : world),
      library_get WORKFLOW_LIBRARY (action_key action) = None ->
      exists r : run world,
        _run_via_strands world exec hex8 action context w
        = Some (String.append "strands-" hex8, r)
        /\ status_of r = Some (VStr "failed")
        /\ message_of r
           = Some (VStr "Workflow failed at step: collect_cost_evidence")
        /\ map fst (executed r) = ["collect_cost_evidence"%string]
        /\ final_world r = w).
Proof.
  split.
  - intros step_name context w Hnot. unfold execute_workflow_step.
    rewrite (registry_get_unknown step_name Hnot).
    eexists. split; [reflexivity|]. repeat split.
  - intros hex8 action context w Hnone.
    unfold _run_via_strands, _workflow_blueprint. rewrite Hnone.
    eexists. split; [reflexivity|]. repeat split.
Qed.

End StepProofs.

Lemma unknown_step_and_action_fail_structured_witness :
  (exists res : dict,
      execute_workflow_step unit (fun _ w => (NoReservations, w))
        (fun c w => ([], c, w)) (fun c w => ([], c, w)) "collect_cost_evidence"
        [] tt = (res, [], tt)
      /\ dict_get res "status" = Some (VStr "failed"))
  /\ (exists r : run unit,
      _run_via_strands unit
        (execute_workflow_step unit (fun _ w => (NoReservations, w))
           (fun c w => ([], c, w)) (fun c w => ([], c, w)))
        "0a1b2c3d" "Delete-Everything" [] tt = Some ("strands-0a1b2c3d"%string, r)
      /\ status_of r = Some (VStr "failed")).
Proof.
  destruct (unknown_step_and_action_fail_structured unit
              (fun _ w => (NoReservations, w))
              (fun c w => ([], c, w)) (fun c w => ([], c, w))) as [Hstep Haction].
  split.
  - destruct (Hstep "collect_cost_evidence"%string [] tt) as (res & He & Hs & _).
    + simpl. intros [H|[H|[H|[]]]]; discriminate H.
    + exists res. split; [exact He | exact Hs].
  - destruct (Haction "0a1b2c3d"%string "Delete-Everything"%string [] tt eq_refl)
      as (r & Hr & Hs & _).
    exists r. split; [exact Hr | exact Hs].
Defined.

(** *** The validation step *)

Section ValidateProofs.

Variable world : Type.
Variable describe_instances : value -> world -> describe_outcome * world.

Local Abbreviation validate_record := (Workflow.validate_record world describe_instances).
Local Abbreviation validate_loop := (Workflow.validate_loop world describe_instances).
Local Abbreviation execute :=
  (ValidateRecommendationsStep_execute world describe_instances).
Local Abbreviation lookups_handled := (Workflow.lookups_handled world describe_instances).
Local Abbreviation left_or_validated :=
  (Workflow.left_or_validated world describe_instances).
Local Abbreviation validated_from := (Workflow.validated_from world describe_instances).

Lemma validated_original (rec v rec' : value) (w0 w1 : world) :
  validate_record rec w0 = Validated v rec' w1 -> original v = rec'.
Proof.
  unfold Workflow.validate_record.
  destruct rec as [| | | | | |r]; try discriminate.
  destruct (negb (all_present r)); [discriminate|].
  destruct (describe_instances (rec_instance_id r) w0) as [[state actual| |code msg|msg] w'];
    try discriminate.
  destruct (negb (String.eqb state "running")); [discriminate|].
  intros H. injection H as <- <- _. reflexivity.
Qed.

Lemma validate_record_total (rec : value) (w0 : world) :
  lookups_handled -> is_record rec = true ->
  (exists w1, validate_record rec w0 = Skipped w1)
  \/ (exists v rec' w1, validate_record rec w0 = Validated v rec' w1).
Proof.
  intros Hh Hrec. unfold Workflow.validate_record.
  destruct rec as [| | | | | |r]; try discriminate Hrec.
  destruct (negb (all_present r)); [left; eauto|].
  pose proof (Hh (rec_instance_id r) w0) as Hno.
  destruct (describe_instances (rec_instance_id r) w0) as [[state actual| |code msg|msg] w'];
    simpl in Hno.
  - destruct (negb (String.eqb state "running")); [left; eauto | right; eauto].
  - left; eauto.
  - left; eauto.
  - exfalso. exact (Hno msg eq_refl).
Qed.

Lemma validate_loop_total (todo : list value) :
  lookups_handled ->
  Forall (fun rec => is_record rec = true) todo ->
  forall (validated visited : list value) (w : world),
  exists (new_validated new_visited : list value) (w' : world),
    validate_loop todo validated visited w
    = (Ok (validated ++ new_validated), visited ++ new_visited, w')
    /\ length new_visited = length todo
    /\ (length new_validated <= length todo)%nat
    /\ Forall2 left_or_validated todo new_visited
    /\ sublist (map original new_validated) new_visited
    /\ Forall (validated_from todo) new_validated.
Proof.
  intros Hh Hall. induction Hall as [|rec rest Hrec Hrest IH]; intros validated visited w.
  - exists [], [], w. simpl. rewrite !app_nil_r.
    repeat split; constructor.
  - simpl.
    destruct (validate_record_total rec w Hh Hrec) as [(w1 & Hs)|(v & rec' & w1 & Hv)].
    + rewrite Hs.
      destruct (IH validated (visited ++ [rec]) w1)
        as (nv & nvis & w' & Hloop & Hlen & Hle & Hrel & Hsub & Hfrom).
      exists nv, (rec :: nvis), w'. rewrite Hloop, <- app_assoc. simpl.
      split; [reflexivity|]. split; [lia|]. split; [lia|].
      split; [constructor; [left; reflexivity | exact Hrel]|].
      split; [apply sublist_cons; exact Hsub|].
      eapply List.Forall_impl; [|exact Hfrom].
      intros x (r0 & r0' & w0 & w0' & Hin & Hx). exists r0, r0', w0, w0'.
      split; [right; exact Hin | exact Hx].
    + rewrite Hv.
      destruct (IH (validated ++ [v]) (visited ++ [rec']) w1)
        as (nv & nvis & w' & Hloop & Hlen & Hle & Hrel & Hsub & Hfrom).
      exists (v :: nv), (rec' :: nvis), w'. rewrite Hloop, <- !app_assoc. simpl.
      split; [reflexivity|]. split; [lia|]. split; [lia|].
      split; [constructor; [right; eauto | exact Hrel]|].
      split.
      * rewrite (validated_original _ _ _ _ _ Hv). apply sublist_skip. exact Hsub.
      * constructor.
        -- exists rec, rec', w, w1. split; [left; reflexivity | exact Hv].
        -- eapply List.Forall_impl; [|exact Hfrom].
           intros x (r0 & r0' & w0 & w0' & Hin & Hx). exists r0, r0', w0, w0'.
           split; [right; exact Hin | exact Hx].
Qed.

(** What happens to one record. *)
Lemma validate_record_missing (r : dict) (w0 : world) :
  all_present r = false -> validate_record (VDict r) w0 = Skipped w0.
Proof.
  intros H. unfold Workflow.validate_record. rewrite H. reflexivity.
Qed.

Lemma validate_record_gone (r : dict) (w0 w1 : world) (out : describe_outcome) :
  all_present r = true ->
  describe_instances (rec_instance_id r) w0 = (out, w1) ->
  match out with
  | NoReservations | DescribeClientError _ _ => True
  | Found state _ => state <> "running"%string
  | DescribeOtherError _ => False
  end ->
  validate_record (VDict r) w0 = Skipped w1.
Proof.
  intros H Hd Hout. unfold Workflow.validate_record.
  rewrite H, Hd. simpl.
  destruct out as [state actual| |code msg|msg]; try reflexivity; [|contradiction].
  apply String.eqb_neq in Hout. rewrite Hout. reflexivity.
Qed.

Lemma overwrite_type_reads (r : dict) (actual : string) :
  get (overwrite_type r actual) "current_instance_type" = VStr actual
  /\ get (overwrite_type r actual) "currentType" = VStr actual.
Proof.
  unfold overwrite_type, get, get_default. split.
  - rewrite dict_get_set_ne by discriminate. rewrite dict_get_set_eq. reflexivity.
  - rewrite dict_get_set_eq. reflexivity.
Qed.

Lemma validate_record_running (r : dict) (w0 w1 : world) (actual : string) :
  all_present r = true ->
  describe_instances (rec_instance_id r) w0 = (Found "running" actual, w1) ->
  exists r' : dict,
    validate_record (VDict r) w0
    = Validated (validated_rec r' (rec_instance_id r) (rec_recommended_type r) actual)
        (VDict r') w1
    /\ get (entries (validated_rec r' (rec_instance_id r) (rec_recommended_type r) actual))
         "current_instance_type" = VStr actual
    /\ (eq_str (rec_current_type r) actual = true -> r' = r)
    /\ (eq_str (rec_current_type r) actual = false ->
        r' = overwrite_type r actual
        /\ get r' "current_instance_type" = VStr actual
        /\ get r' "currentType" = VStr actual).
Proof.
  intros H Hd. unfold Workflow.validate_record.
  rewrite H, Hd. simpl.
  destruct (eq_str (rec_current_type r) actual) eqn:Hsame; simpl.
  - exists r. split; [reflexivity|]. split; [reflexivity|].
    split; [reflexivity | discriminate].
  - exists (overwrite_type r actual). split; [reflexivity|]. split; [reflexivity|].
    split; [discriminate|]. intros _. split; [reflexivity|].
    apply overwrite_type_reads.
Qed.


End ValidateProofs.

Lemma demo_lookups_handled : lookups_handled unit demo_describe.
Proof.
  intros id w msg. unfold demo_describe. simpl.
  destruct (eq_str id "i-1"); [discriminate|].
  destruct (eq_str id "i-2"); discriminate.
Qed.


(** The validated entry of the demo carries the type the service reports, and
    so does the record of the context. *)
Example demo_validation :
  let '(res, context', _) :=
    ValidateRecommendationsStep_execute unit demo_describe
      [("recommendations"%string, VList demo_recommendations)] tt in
  dict_get res "valid_recommendations" = Some (VInt 1)
  /\ (exists v, dict_get res "validated_recommendations" = Some (VList [v])
                /\ get (entries v) "current_instance_type" = VStr "t3.large"
                /\ get (entries (original v)) "current_instance_type" = VStr "t3.large")
  /\ (exists r1 rest, dict_get context' "recommendations" = Some (VList (r1 :: rest))
                      /\ get (entries r1) "current_instance_type" = VStr "t3.large").
Proof.
  simpl. split; [reflexivity|]. split.
  - eexists. split; [reflexivity|]. split; reflexivity.
  - eexists. eexists. split; reflexivity.
Qed.

End WorkflowProofs.

(** ** The automation endpoint *)

Module ApiProofs.
Import Py Api.
Local Open Scope string_scope.

Lemma append_assoc (a b c : string) : (a ++ b) ++ c = a ++ b ++ c.
Proof. induction a as [|x a IH]; simpl; [reflexivity | rewrite IH; reflexivity]. Qed.

Lemma append_nil_r (a : string) : a ++ "" = a.
Proof. induction a as [|x a IH]; simpl; [reflexivity | rewrite IH; reflexivity]. Qed.

Lemma substring_refl (a : string) : substring_of a a.
Proof. exists "", "". simpl. rewrite append_nil_r. reflexivity. Qed.

Lemma substring_trans (a b c : string) :
  substring_of a b -> substring_of b c -> substring_of a c.
Proof.
  intros (p1 & q1 & ->) (p2 & q2 & ->).
  exists (p2 ++ p1), (q1 ++ q2). rewrite !append_assoc. reflexivity.
Qed.

Lemma substring_append_l (a b c : string) : substring_of a b -> substring_of a (b ++ c).
Proof.
  intros (p & q & ->). exists p, (q ++ c). rewrite !append_assoc. reflexivity.
Qed.

Lemma substring_append_r (a b c : string) : substring_of a c -> substring_of a (b ++ c).
Proof.
  intros (p & q & ->). exists (b ++ p), q. rewrite !append_assoc. reflexivity.
Qed.

(** A part of an f-string occurs in the text. *)
Lemma substring_cat (a : string) (parts : list string) :
  In a parts -> substring_of a (cat parts).
Proof.
  induction parts as [|x parts IH]; intros Hin; [destruct Hin|].
  simpl. destruct Hin as [->|Hin].
  - apply substring_append_l, substring_refl.
  - apply substring_append_r, IH, Hin.
Qed.

Section EndpointProofs.

Variable h : host.

Lemma plan_section_parts (title unit : string) (line : dict -> string)
    (group : list dict) :
  group <> [] ->
  substring_of (heading title (length group)) (plan_section title unit line group)
  /\ (forall r, In r (take 3 group) ->
      substring_of (line r) (plan_section title unit line group))
  /\ ((3 < length group)%nat ->
      substring_of (remainder unit (length group)) (plan_section title unit line group)).
Proof.
  intros Hne. destruct group as [|r0 group]; [congruence|].
  unfold plan_section. split; [|split].
  - apply substring_cat. left. reflexivity.
  - intros r Hr. eapply substring_trans.
    + apply substring_cat. apply in_map. exact Hr.
    + apply substring_cat. right. left. reflexivity.
  - intros Hlen. apply Nat.ltb_lt in Hlen. rewrite Hlen.
    apply substring_cat. right. right. left. reflexivity.
Qed.

Lemma section_in_plan (recs : list dict) (total : float) (k : nat) (s : string) :
  nth_error
    [ plan_section "EC2 Instances" "instance(s)" (ec2_line h) (resource_group "EC2" recs);
      plan_section "S3 Buckets" "bucket(s)" (s3_line h) (resource_group "S3" recs);
      plan_section "Lambda Functions" "function(s)" (lambda_line h)
        (resource_group "Lambda" recs) ] k = Some s ->
  substring_of s (execution_plan h recs total).
Proof.
  intros Hk. unfold execution_plan. apply substring_cat.
  destruct k as [|[|[|k]]]; cbn [nth_error] in Hk.
  - injection Hk as <-. simpl. tauto.
  - injection Hk as <-. simpl. tauto.
  - injection Hk as <-. simpl. tauto.
  - destruct k; discriminate Hk.
Qed.

Lemma execution_plan_summarises (recs : list dict) (total : float) :
  plan_summarises h recs (execution_plan h recs total).
Proof.
  intros title unit line rtype Hin group Hne.
  assert (Hsec : substring_of (plan_section title unit line group)
                   (execution_plan h recs total)).
  { unfold plan_sections in Hin. simpl in Hin.
    destruct Hin as [Heq|[Heq|[Heq|[]]]]; injection Heq as <- <- <- <-.
    - apply (section_in_plan recs total 0). reflexivity.
    - apply (section_in_plan recs total 1). reflexivity.
    - apply (section_in_plan recs total 2). reflexivity. }
  destruct (plan_section_parts title unit line group Hne) as (Hh & Hl & Hr).
  split; [|split].
  - eapply substring_trans; [exact Hh | exact Hsec].
  - intros r Hr'. eapply substring_trans; [exact (Hl r Hr') | exact Hsec].
  - intros Hlen. eapply substring_trans; [exact (Hr Hlen) | exact Hsec].
Qed.

Lemma automation_reaches_gate (req : request) (recs : list value) :
  carries req recs ->
  automation h req =
  if target_configured h then dispatch h req (VList recs) (length recs)
  else _error_response "Workflow agent not configured" 503 None.
Proof.
  intros (b & c & Hb & Hc & Hr). unfold automation, get_default.
  rewrite Hb, Hc, Hr. reflexivity.
Qed.


End EndpointProofs.

Lemma demo_request_carries (authorization : option string) :
  carries (demo_request authorization) demo_batch.
Proof. eexists _, _. split; [reflexivity|]. split; reflexivity. Qed.



(** A record whose savings text does not parse makes the handler answer 500. *)
Example automation_unparsable_savings :
  status_code
    (automation (demo_host (Ok "arn:aws:bedrock-agentcore:runtime/workflow"))
       {| json_body :=
            Ok (VDict [ ("context", VDict
                          [ ("recommendations",
                             VList [ VDict [ ("resource_type", VStr "EC2");
                                             ("estimated_monthly_savings", VStr "N/A") ] ]) ]) ]);
          authorization := Some "Bearer token-1" |}) = 500.
Proof. reflexivity. Qed.

End ApiProofs.

(** ** Strs and slices *)

Module TextProofs.
Import Py Text.

Section DropSpace.

Variable two : ascii -> ascii -> bool.
Variable three : ascii -> ascii -> ascii -> bool.

Lemma drop_space_kept (l : list ascii) :
  leading_space two three l = false -> drop_space two three l = l.
Proof.
  destruct l as [|c1 [|c2 [|c3 r3]]]; simpl; try reflexivity.
  - destruct (space1 c1); [discriminate | reflexivity].
  - destruct (space1 c1); [discriminate|]. simpl.
    destruct (two c1 c2); [discriminate | reflexivity].
  - destruct (space1 c1); [discriminate|]. simpl.
    destruct (two c1 c2); [discriminate|]. simpl.
    intros ->. reflexivity.
Qed.

Lemma drop_space_cases (l : list ascii) :
  (drop_space two three l = l /\ leading_space two three l = false)
  \/ exists l' : list ascii,
       drop_space two three l = drop_space two three l'
       /\ (length l' < length l)%nat /\ l' `suffix_of` l.
Proof.
  destruct l as [|c1 r1]; [left; split; reflexivity|].
  simpl. destruct (space1 c1) eqn:H1.
  { right. exists r1. split; [reflexivity|]. split; [simpl; lia|].
    exists [c1]. reflexivity. }
  destruct r1 as [|c2 r2]; [left; split; reflexivity|].
  simpl. destruct (two c1 c2) eqn:H2.
  { right. exists r2. split; [reflexivity|]. split; [simpl; lia|].
    exists [c1; c2]. reflexivity. }
  destruct r2 as [|c3 r3]; [left; split; reflexivity|].
  simpl. destruct (three c1 c2 c3) eqn:H3.
  { right. exists r3. split; [reflexivity|]. split; [simpl; lia|].
    exists [c1; c2; c3]. reflexivity. }
  left. split; reflexivity.
Qed.

Lemma drop_space_spec (n : nat) :
  forall l : list ascii, (length l < n)%nat ->
    leading_space two three (drop_space two three l) = false
    /\ drop_space two three l `suffix_of` l.
Proof.
  induction n as [|n IH]; intros l Hlen; [lia|].
  destruct (drop_space_cases l) as [[-> Hl]|(l' & -> & Hshort & Hsuffix)].
  - split; [exact Hl | reflexivity].
  - destruct (IH l') as [Hlead Hsuf]; [lia|].
    split; [exact Hlead|]. etransitivity; eassumption.
Qed.

Lemma drop_space_clean (l : list ascii) :
  leading_space two three (drop_space two three l) = false.
Proof. apply (drop_space_spec (S (length l))). lia. Qed.

Lemma drop_space_suffix (l : list ascii) : drop_space two three l `suffix_of` l.
Proof. apply (drop_space_spec (S (length l))). lia. Qed.

Lemma drop_space_idempotent (l : list ascii) :
  drop_space two three (drop_space two three l) = drop_space two three l.
Proof. apply drop_space_kept, drop_space_clean. Qed.

(** A text that starts with white space still does when it goes on. *)
Lemma leading_space_prefix (p t : list ascii) :
  p `prefix_of` t -> leading_space two three p = true -> leading_space two three t = true.
Proof.
  intros [k ->]. destruct p as [|c1 [|c2 [|c3 r3]]]; simpl; try discriminate.
  - rewrite orb_false_r. intros ->. reflexivity.
  - rewrite orb_false_r. destruct (space1 c1); [reflexivity|]. simpl.
    intros ->. reflexivity.
  - auto.
Qed.

End DropSpace.

Lemma rstrip_bytes_prefix (l : list ascii) : rstrip_bytes l `prefix_of` l.
Proof.
  unfold rstrip_bytes.
  destruct (drop_space_suffix space2_back space3_back (rev l)) as [k Hk].
  exists (rev k). rewrite <- rev_app_distr, <- Hk. symmetry. apply rev_involutive.
Qed.

Lemma rstrip_bytes_idempotent (l : list ascii) :
  rstrip_bytes (rstrip_bytes l) = rstrip_bytes l.
Proof.
  unfold rstrip_bytes. rewrite rev_involutive, drop_space_idempotent. reflexivity.
Qed.

(** What [strip] leaves has no white space at either end: stripping it again
    changes nothing. *)
Lemma strip_idempotent (s : string) : strip (strip s) = strip s.
Proof.
  unfold strip. rewrite list_ascii_of_string_of_list_ascii.
  set (t := lstrip_bytes (list_ascii_of_string s)).
  assert (Hkept : lstrip_bytes (rstrip_bytes t) = rstrip_bytes t).
  { apply drop_space_kept.
    destruct (leading_space space2 space3 (rstrip_bytes t)) eqn:Hlead; [|reflexivity].
    apply (leading_space_prefix _ _ _ _ (rstrip_bytes_prefix t)) in Hlead.
    unfold t, lstrip_bytes in Hlead. rewrite drop_space_clean in Hlead. discriminate. }
  rewrite Hkept, rstrip_bytes_idempotent. reflexivity.
Qed.

Lemma blank_strip (s : string) : blank (strip s) = blank s.
Proof. unfold blank. rewrite strip_idempotent. reflexivity. Qed.

Lemma blank_empty : blank "" = true.
Proof. reflexivity. Qed.

Lemma not_blank_not_empty (s : string) : blank s = false -> String.eqb s "" = false.
Proof.
  intros H. destruct (String.eqb_spec s ""%string) as [->|]; [discriminate H | reflexivity].
Qed.

(** *** Slices *)

Lemma py_slice_last {A : Type} (l : list A) (p : Z) :
  0 < p <= Z.of_nat (length l) ->
  py_slice (Some (- p)) None l = drop (length l - Z.to_nat p) l.
Proof.
  intros Hp. unfold py_slice, slice_bound.
  replace (- p <? 0) with true by (symmetry; apply Z.ltb_lt; lia).
  rewrite Z.max_r by lia.
  replace (Z.to_nat (- p + Z.of_nat (length l))) with (length l - Z.to_nat p)%nat by lia.
  apply take_ge. rewrite length_drop. lia.
Qed.

Lemma py_slice_window {A : Type} (l : list A) (p : Z) :
  0 < p -> p * 2 <= Z.of_nat (length l) ->
  py_slice (Some (- (p * 2))) (Some (- p)) l
  = take (Z.to_nat p) (drop (length l - 2 * Z.to_nat p) l).
Proof.
  intros Hp Hlen. unfold py_slice, slice_bound.
  replace (- (p * 2) <? 0) with true by (symmetry; apply Z.ltb_lt; lia).
  replace (- p <? 0) with true by (symmetry; apply Z.ltb_lt; lia).
  rewrite !Z.max_r by lia.
  replace (Z.to_nat (- (p * 2) + Z.of_nat (length l)))
    with (length l - 2 * Z.to_nat p)%nat by lia.
  f_equal. lia.
Qed.

Lemma py_slice_head {A : Type} (l : list A) (k : Z) :
  0 <= k <= Z.of_nat (length l) ->
  py_slice None (Some k) l = take (Z.to_nat k) l.
Proof.
  intros Hk. unfold py_slice, slice_bound.
  replace (k <? 0) with false by (symmetry; apply Z.ltb_ge; lia).
  rewrite Z.min_l by lia. rewrite Z.sub_0_r. reflexivity.
Qed.

(** *** Checking a range of ints *)

Lemma holds_from_sound (P : Z -> bool) (count : positive) :
  forall first : Z,
    holds_from count first P = true ->
    forall d : Z, first <= d < first + Z.pos count -> P d = true.
Proof.
  induction count as [half IH|half IH|]; intros first H d Hd; simpl in H.
  - apply andb_prop in H as [H H2]. apply andb_prop in H as [H0 H1].
    destruct (Z.eq_dec d first) as [->|Hne]; [exact H0|].
    destruct (Z_lt_dec d (first + 1 + Z.pos half)).
    + apply (IH _ H1). lia.
    + apply (IH _ H2). lia.
  - apply andb_prop in H as [H1 H2].
    destruct (Z_lt_dec d (first + Z.pos half)).
    + apply (IH _ H1). lia.
    + apply (IH _ H2). lia.
  - replace d with first by lia. exact H.
Qed.

End TextProofs.

(** ** Helpers of the cost analysis *)

Module CostAnalyticsProofs.
Import Py Text CostAnalytics TextProofs.

Lemma months_agree_range : holds_from 4096 1 months_agree = true.
Proof. vm_compute. reflexivity. Qed.

Lemma months_exact (days : Z) :
  1 <= days <= 4096 -> py_ceil (true_divide days 30) = Ok (months_of days).
Proof.
  intros Hd.
  pose proof (holds_from_sound months_agree 4096 1 months_agree_range days) as H.
  unfold months_agree in H.
  destruct (py_ceil (true_divide days 30)) as [c|e].
  - f_equal. apply Z.eqb_eq. apply H. lia.
  - discriminate H. lia.
Qed.

(** X1.  For a positive number of days, the number of data points of a
    period is never more than the points at hand, and zero only when there
    are none.  With daily granularity it is the smaller of the days and the
    points; with any other granularity and up to 4096 days it is the smaller
    of the months asked for (the days over 30, rounded up) and the points. *)
Theorem determine_period_count_bounds (days : Z) (granularity : string)
    (available_points : Z) :
  1 <= days -> 0 <= available_points ->
  (forall p : Z,
      _determine_period_count days granularity available_points = Ok p ->
      0 <= p <= available_points /\ (p = 0 <-> available_points = 0))
  /\ (granularity = "DAILY"%string ->
      _determine_period_count days granularity available_points
      = Ok (Z.min days available_points))
  /\ (granularity <> "DAILY"%string -> days <= 4096 ->
      _determine_period_count days granularity available_points
      = Ok (Z.min (months_of days) available_points)).
Proof.
  intros Hdays Havail. unfold _determine_period_count.
  destruct (Z.eqb_spec available_points 0) as [->|Hne].
  - split; [|split].
    + intros p [= <-]. split; [lia | tauto].
    + intros _. f_equal. lia.
    + intros _ _. f_equal. unfold months_of.
      assert (0 <= (days + 29) / 30) by (apply Z.div_pos; lia). lia.
  - split; [|split].
    + intros p. destruct (String.eqb granularity "DAILY").
      * intros [= <-]. lia.
      * destruct (py_ceil (true_divide days 30)) as [c|e]; [|discriminate].
        intros [= <-]. lia.
    + intros ->. reflexivity.
    + intros Hg Hrange. apply String.eqb_neq in Hg. rewrite Hg.
      rewrite months_exact by lia. unfold months_of. f_equal.
      assert (1 <= (days + 29) / 30) by (apply Z.div_le_lower_bound; lia). lia.
Qed.

Lemma determine_period_count_bounds_witness :
  _determine_period_count 45 "MONTHLY" 14 = Ok 2
  /\ _determine_period_count 45 "DAILY" 14 = Ok 14.
Proof.
  destruct (determine_period_count_bounds 45 "MONTHLY" 14) as (_ & _ & Hmonthly);
    [lia | lia |].
  destruct (determine_period_count_bounds 45 "DAILY" 14) as (_ & Hdaily & _);
    [lia | lia |].
  split.
  - rewrite Hmonthly; [reflexivity | discriminate | lia].
  - rewrite Hdaily; reflexivity.
Defined.

Lemma period_count_range (days : Z) (granularity : string) (n p : Z) :
  1 <= days -> 0 <= n ->
  _determine_period_count days granularity n = Ok p ->
  (n = 0 /\ p = 0) \/ 1 <= p <= n.
Proof.
  intros Hdays Hn. unfold _determine_period_count.
  destruct (Z.eqb_spec n 0) as [->|Hne]; [intros [= <-]; left; split; reflexivity|].
  destruct (String.eqb granularity "DAILY").
  - intros [= <-]. right. lia.
  - destruct (py_ceil (true_divide days 30)) as [c|e]; [|discriminate].
    intros [= <-]. right. lia.
Qed.

(** X2.  The two windows that [analyze_cost] cuts out of the results lie
    side by side at the end of the list, the earlier one first: the current
    window holds the last [period_count] results and the previous window the
    results just before it, as many as there are up to [period_count]. *)
Theorem period_windows_adjacent {A : Type} (usage_results : list A) (days : Z)
    (granularity : string) (period_count : Z) :
  1 <= days ->
  _determine_period_count days granularity (Z.of_nat (length usage_results))
  = Ok period_count ->
  exists older : list A,
    usage_results
    = older ++ previous_period usage_results period_count
            ++ current_period usage_results period_count
    /\ Z.of_nat (length (current_period usage_results period_count)) = period_count
    /\ Z.of_nat (length (previous_period usage_results period_count))
       = Z.min period_count (Z.of_nat (length usage_results) - period_count).
Proof.
  intros Hdays Hcount.
  destruct (period_count_range _ _ _ _ Hdays (Nat2Z.is_nonneg _) Hcount)
    as [[Hn ->]|Hp].
  - destruct usage_results; [|discriminate Hn]. exists []. repeat split.
  - unfold current_period, previous_period.
    destruct usage_results as [|x results] eqn:Hresults; [simpl in Hp; lia|].
    rewrite <- Hresults in *. clear Hresults x results.
    set (n := length usage_results) in *.
    rewrite py_slice_last by lia.
    destruct (Z.leb_spec (period_count * 2) (Z.of_nat n)) as [Htwice|Hfew].
    + rewrite py_slice_window by lia.
      exists (take (n - 2 * Z.to_nat period_count) usage_results).
      split; [|split].
      * pose proof (take_drop (n - 2 * Z.to_nat period_count) usage_results) as Hsplit.
        pose proof (take_drop (Z.to_nat period_count)
                      (drop (n - 2 * Z.to_nat period_count) usage_results)) as Hwindow.
        rewrite drop_drop in Hwindow.
        replace (n - 2 * Z.to_nat period_count + Z.to_nat period_count)%nat
          with (n - Z.to_nat period_count)%nat in Hwindow by lia.
        rewrite <- Hwindow in Hsplit. symmetry. exact Hsplit.
      * rewrite length_drop. fold n. lia.
      * rewrite length_take, length_drop. fold n. lia.
    + rewrite py_slice_head by lia.
      exists []. split; [|split].
      * simpl. replace (Z.to_nat (Z.of_nat n - period_count))
          with (n - Z.to_nat period_count)%nat by lia.
        symmetry. apply take_drop.
      * rewrite length_drop. fold n. lia.
      * rewrite length_take. fold n. lia.
Qed.

Lemma period_windows_adjacent_witness :
  exists older : list Z,
    [1; 2; 3; 4; 5] = older ++ previous_period [1; 2; 3; 4; 5] 2
                            ++ current_period [1; 2; 3; 4; 5] 2
    /\ Z.of_nat (length (current_period [1; 2; 3; 4; 5] 2)) = 2
    /\ Z.of_nat (length (previous_period [1; 2; 3; 4; 5] 2)) = Z.min 2 (5 - 2).
Proof.
  apply (period_windows_adjacent [1; 2; 3; 4; 5] 2 "DAILY" 2); [lia | reflexivity].
Defined.

(** *** Grouping and filtering *)

Lemma lower_colon (c : ascii) : lower_ascii c = ":"%char -> c = ":"%char.
Proof.
  destruct c as [[] [] [] [] [] [] [] []]; vm_compute; intros H;
    first [reflexivity | discriminate H].
Qed.

(** A label whose lower-case text starts with "tag:" has a colon: the
    subscript of the split does not raise. *)
Lemma tag_key_ok (label : string) :
  startswith "tag:" (str_lower label) = true -> exists key, tag_key label = Ok key.
Proof.
  unfold tag_key.
  destruct label as [|c1 [|c2 [|c3 [|c4 rest]]]];
    cbn [str_lower startswith]; rewrite ?andb_false_r; try discriminate.
  intros H.
  apply andb_prop in H as [_ H]. apply andb_prop in H as [_ H].
  apply andb_prop in H as [_ H]. apply andb_prop in H as [H _].
  apply Ascii.eqb_eq in H. symmetry in H. apply lower_colon in H. subst c4.
  cbn [after_first].
  destruct (Ascii.eqb c1 ":"); [eauto|].
  destruct (Ascii.eqb c2 ":"); [eauto|].
  destruct (Ascii.eqb c3 ":"); [eauto|].
  rewrite Ascii.eqb_refl. eauto.
Qed.

Lemma group_definition_ok (label : string) :
  exists entry : value,
    group_definition label = Ok entry
    /\ (group_type entry = VStr "TAG" \/ group_type entry = VStr "DIMENSION").
Proof.
  unfold group_definition.
  destruct (startswith "tag:" (str_lower label)) eqn:Htag.
  - destruct (tag_key_ok label Htag) as [key ->]. eexists. split; [reflexivity|].
    left. reflexivity.
  - eexists. split; [reflexivity|]. right. reflexivity.
Qed.

Lemma group_loop_names (names : list string) :
  Forall (fun name => blank name = false) names ->
  forall parsed : list value, (length parsed < 2)%nat ->
  exists entries : list value,
    group_loop (map strip names) parsed = Ok (parsed ++ entries)
    /\ Forall2 (fun name entry => group_definition (strip name) = Ok entry)
         (take (2 - length parsed) names) entries.
Proof.
  intros Hall. induction Hall as [|name names Hname Hnames IH]; intros parsed Hlen.
  - exists []. simpl. rewrite app_nil_r, take_nil. split; [reflexivity | constructor].
  - cbn [map group_loop].
    assert (Hkey : String.eqb (strip name) "" = false) by exact Hname.
    rewrite Hkey, strip_idempotent, Hkey.
    destruct (group_definition_ok (strip name)) as (entry & Hentry & _).
    rewrite Hentry. rewrite length_app. simpl length.
    destruct parsed as [|p0 [|p1 parsed]]; [| |simpl in Hlen; lia].
    + simpl. destruct (IH [entry]) as (more & Hloop & Hmore); [simpl; lia|].
      exists (entry :: more). split; [exact Hloop|].
      simpl. constructor; [exact Hentry | exact Hmore].
    + simpl. exists [entry]. split; [reflexivity|].
      rewrite take_0. constructor; [exact Hentry | constructor].
Qed.

Lemma named_not_blank (raw : option string) :
  Forall (fun name => blank name = false) (named raw).
Proof.
  destruct raw as [raw|]; [|constructor]. unfold named.
  apply List.Forall_forall. intros name Hin. apply filter_In in Hin as [_ Hin].
  apply negb_true_iff in Hin. exact Hin.
Qed.

(** Names that were stripped once come through the second stripping as they
    are. *)
Lemma stripped_items_again (names : list string) :
  Forall (fun name => blank name = false) names ->
  stripped_items (List.filter (fun item => negb (String.eqb item "")) (map strip names))
  = map strip names.
Proof.
  unfold stripped_items. intros Hall.
  induction Hall as [|name names Hname Hnames IH]; [reflexivity|].
  cbn [map List.filter].
  assert (Hkey : String.eqb (strip name) "" = false) by exact Hname.
  rewrite Hkey. cbn [negb List.filter]. rewrite blank_strip, Hname.
  cbn [negb map]. rewrite strip_idempotent, IH. reflexivity.
Qed.

Lemma group_by_of_named (raw : option string) :
  group_by_of raw =
  match named raw with
  | [] => NoGroupBy
  | names => GroupByItems (map strip names)
  end.
Proof.
  unfold group_by_of, _split_csv, named, stripped_items.
  destruct raw as [raw|]; [|reflexivity].
  destruct (String.eqb_spec raw ""%string) as [->|_]; [reflexivity|].
  destruct (List.filter (fun item => negb (blank item)) (split_on "," raw)); reflexivity.
Qed.

(** X3.  Whatever the [groupBy] parameter of a query holds, the grouping
    passed to Cost Explorer has one or two entries, each a tag or a
    dimension, and building it raises nothing.  For names of ASCII
    characters the entries are those of the first two names that are not
    blank, in their order, and that of the default [SERVICE] when there is
    no such name. *)
Theorem normalise_group_keys_of_query (raw : option string) :
  exists parsed : list value,
    _normalise_group_keys (group_by_of raw) = Ok parsed
    /\ (1 <= length parsed <= 2)%nat
    /\ (Forall (fun name => is_ascii name = true) (grouping_names raw) ->
        Forall2 (fun name entry => group_definition (strip name) = Ok entry)
          (take 2 (grouping_names raw)) parsed)
    /\ Forall (fun entry => group_type entry = VStr "TAG"
                            \/ group_type entry = VStr "DIMENSION") parsed.
Proof.
  assert (Hloop : exists parsed : list value,
             _normalise_group_keys (group_by_of raw) = Ok parsed
             /\ Forall2 (fun name entry => group_definition (strip name) = Ok entry)
                  (take 2 (grouping_names raw)) parsed).
  { rewrite group_by_of_named. unfold grouping_names.
    pose proof (named_not_blank raw) as Hall.
    destruct (named raw) as [|name names] eqn:Hnamed.
    - eexists. split; [reflexivity|]. repeat constructor.
    - unfold _normalise_group_keys. rewrite (stripped_items_again _ Hall).
      destruct (group_loop_names _ Hall []) as (parsed & Hparsed & Hrel); [simpl; lia|].
      exists parsed. cbn [map] in *. split; [exact Hparsed | exact Hrel]. }
  destruct Hloop as (parsed & Hparsed & Hrel). exists parsed.
  split; [exact Hparsed|]. split; [|split; [intros _; exact Hrel|]].
  - apply Forall2_length in Hrel. rewrite <- Hrel, length_take.
    unfold grouping_names. destruct (named raw) as [|n0 [|n1 names]]; simpl; lia.
  - clear Hparsed.
    induction Hrel as [|name entry names parsed Hentry Hrel IH]; constructor; [|exact IH].
    destruct (group_definition_ok (strip name)) as (e & He & Htype).
    rewrite Hentry in He. injection He as <-. exact Htype.
Qed.

(** Two names and a tag among three: the third name is left out. *)
Example normalise_group_keys_demo :
  _normalise_group_keys (group_by_of (Some " service , Tag:Team ,region"%string))
  = Ok [ VDict [ ("Type", VStr "DIMENSION"); ("Key", VStr "SERVICE") ];
         VDict [ ("Type", VStr "TAG"); ("Key", VStr "Team") ] ]%string.
Proof. vm_compute. reflexivity. Qed.

(** A text of blanks given as it is, not through [_split_csv], groups by
    nothing at all. *)
Example normalise_group_keys_blank_text :
  _normalise_group_keys (GroupByText " , "%string) = Ok [].
Proof. vm_compute. reflexivity. Qed.

(** X4.  Building the filter raises nothing.  A filter is applied exactly
    when a dimension and a value are given and neither is blank; it selects
    the value without the white space around it, and whenever one is applied
    the response reports the dimension and the value as they were given. *)
Theorem build_filter_reported (dimension filter_value : option string) :
  exists applied : option value,
    _build_filter dimension filter_value = Ok applied
    /\ (applied = None <->
        ~ exists d v : string,
            dimension = Some d /\ filter_value = Some v
            /\ blank d = false /\ blank v = false)
    /\ (forall f : value, applied = Some f ->
        exists d v : string,
          dimension = Some d /\ filter_value = Some v
          /\ filter_values f = VList [VStr (strip v)]
          /\ _format_filter_metadata dimension filter_value
             = Some (VDict [ ("dimension", VStr d); ("value", VStr v) ]%string)).
Proof.
  unfold _build_filter, _format_filter_metadata.
  destruct dimension as [d|]; [|exists None; split; [reflexivity|]; split;
    [split; [intros _ (d & v & H & _); discriminate H | reflexivity] | discriminate]].
  destruct filter_value as [v|]; [|exists None; split; [reflexivity|]; split;
    [split; [intros _ (d0 & v0 & _ & H & _); discriminate H | reflexivity] | discriminate]].
  destruct (String.eqb_spec d ""%string) as [->|Hd].
  { exists None. split; [reflexivity|]. split; [|discriminate].
    split; [|reflexivity]. intros _ (d0 & v0 & [= <-] & _ & H & _). discriminate H. }
  destruct (String.eqb_spec v ""%string) as [->|Hv].
  { exists None. split; [reflexivity|]. split; [|discriminate].
    split; [|reflexivity]. intros _ (d0 & v0 & _ & [= <-] & _ & H). discriminate H. }
  cbn [orb]. fold (blank d). fold (blank v).
  destruct (blank d) eqn:Hbd.
  { exists None. split; [reflexivity|]. split; [|discriminate].
    split; [|reflexivity]. intros _ (d0 & v0 & [= <-] & _ & H & _). congruence. }
  destruct (blank v) eqn:Hbv.
  { exists None. split; [reflexivity|]. split; [|discriminate].
    split; [|reflexivity]. intros _ (d0 & v0 & _ & [= <-] & _ & H). congruence. }
  cbn [orb].
  destruct (startswith "tag:" (str_lower (strip d))) eqn:Htag.
  - destruct (tag_key_ok _ Htag) as [key ->].
    eexists. split; [reflexivity|]. split.
    + split; [discriminate|]. intros Hnone. exfalso. apply Hnone. eauto 6.
    + intros f [= <-]. exists d, v. repeat split.
  - eexists. split; [reflexivity|]. split.
    + split; [discriminate|]. intros Hnone. exfalso. apply Hnone. eauto 6.
    + intros f [= <-]. exists d, v. repeat split.
Qed.

(** The report of a filter does not show that one was applied: a blank
    dimension is reported although nothing is filtered. *)
Example filter_reported_not_applied :
  _build_filter (Some "  "%string) (Some "Amazon S3"%string) = Ok None
  /\ _format_filter_metadata (Some "  "%string) (Some "Amazon S3"%string)
     = Some (VDict [ ("dimension", VStr "  "); ("value", VStr "Amazon S3") ]%string).
Proof. split; reflexivity. Qed.

End CostAnalyticsProofs.

(** ** The rest of the policy module and of the collector's report *)

Module InventoryProofs.
Import Py Policy Collector Inventory.

(** X5.  The type [get_recommended_type] picks always passes
    [is_instance_type_allowed] for the same resource kind, whatever the
    current type and the kind are, and asking again for the type it picked
    gives the same type. *)
Theorem recommended_type_allowed (current_type service : string) :
  is_instance_type_allowed (get_recommended_type current_type service) service = true
  /\ get_recommended_type (get_recommended_type current_type service) service
     = get_recommended_type current_type service.
Proof.
  split.
  - unfold is_instance_type_allowed.
    destruct (negb (truthy (get_policy service))); [reflexivity|].
    destruct (PolicyProofs.disallowed_instance_types_cases service) as [->| ->];
      reflexivity.
  - unfold get_recommended_type, get_policy, get_default, COMPANY_COST_POLICIES.
    repeat (rewrite PolicyProofs.dict_get_cons;
            match goal with
            | |- context [String.eqb ?k service] =>
                destruct (String.eqb_spec k service) as [<-|]; [reflexivity|]
            end).
    reflexivity.
Qed.

(** *** The tally of the running instances *)

Lemma counts_only_set (d : dict) (k : string) (m : Z) :
  counts_only d -> counts_only (dict_set d k (VInt m)).
Proof.
  unfold counts_only. induction 1 as [|[k' v'] d Hkv Hd IH]; simpl.
  - constructor; [eexists; reflexivity | constructor].
  - destruct (String.eqb k' k).
    + constructor; [eexists; reflexivity | exact Hd].
    + constructor; [exact Hkv | exact IH].
Qed.

Lemma tally_total_set_new (d : dict) (k : string) (m : Z) :
  counts_only d -> dict_get d k = None ->
  tally_total (dict_set d k (VInt m)) = tally_total d + m.
Proof.
  unfold counts_only. induction 1 as [|[k' v'] d [n Hn] Hd IH]; simpl; [lia|].
  simpl in Hn. subst v'. destruct (String.eqb k' k); [discriminate|].
  intros Hnone. simpl. rewrite (IH Hnone). lia.
Qed.

Lemma tally_total_set_old (d : dict) (k : string) (n m : Z) :
  counts_only d -> dict_get d k = Some (VInt n) ->
  tally_total (dict_set d k (VInt m)) = tally_total d - n + m.
Proof.
  unfold counts_only. induction 1 as [|[k' v'] d [n' Hn] Hd IH]; simpl; [discriminate|].
  simpl in Hn. subst v'. destruct (String.eqb k' k).
  - intros [= ->]. simpl. lia.
  - intros Hsome. simpl. rewrite (IH Hsome). lia.
Qed.

Lemma counts_only_get (d : dict) (k : string) (v : value) :
  counts_only d -> dict_get d k = Some v -> exists n : Z, v = VInt n.
Proof.
  unfold counts_only. induction 1 as [|[k' v'] d Hkv Hd IH]; simpl; [discriminate|].
  destruct (String.eqb k' k); [intros [= <-]; exact Hkv | exact IH].
Qed.

(** One more instance of a type: the tally stays a tally, its total and the
    count of that type grow by one, every other count stays. *)
Lemma tally_spec (d : dict) (itype : string) :
  counts_only d ->
  counts_only (tally d itype)
  /\ tally_total (tally d itype) = tally_total d + 1
  /\ forall t : string,
       count_of (tally d itype) t
       = count_of d t + (if String.eqb itype t then 1 else 0).
Proof.
  intros Hd. unfold tally, has_key, get, get_default, count_of.
  destruct (dict_get d itype) as [v|] eqn:Hget.
  - destruct (counts_only_get d itype v Hd Hget) as [n ->]. rewrite Hget.
    split; [apply counts_only_set, Hd|]. split.
    + rewrite (tally_total_set_old d itype n _ Hd Hget). lia.
    + intros t. destruct (String.eqb_spec itype t) as [<-|Hne].
      * rewrite WorkflowProofs.dict_get_set_eq, Hget. reflexivity.
      * rewrite (WorkflowProofs.dict_get_set_ne _ _ _ _ Hne). lia.
  - rewrite WorkflowProofs.dict_get_set_eq.
    assert (Hd0 : counts_only (dict_set d itype (VInt 0))) by (apply counts_only_set, Hd).
    split; [apply counts_only_set, Hd0|]. split.
    + rewrite (tally_total_set_old _ itype 0 _ Hd0 (WorkflowProofs.dict_get_set_eq _ _ _)).
      rewrite (tally_total_set_new d itype 0 Hd Hget). lia.
    + intros t. destruct (String.eqb_spec itype t) as [<-|Hne].
      * rewrite WorkflowProofs.dict_get_set_eq, Hget. reflexivity.
      * rewrite !(WorkflowProofs.dict_get_set_ne _ _ _ _ Hne). lia.
Qed.

Lemma inventory_loop_spec (l : list ec2_instance) :
  forall inv : resource_inventory,
    counts_only (instances_by_type inv) ->
    let out := inventory_loop l inv in
    total_running_instances out = total_running_instances inv
    /\ policy_violating_count out
       = (policy_violating_count inv + length (List.filter violating l))%nat
    /\ (policy_compliant_count out + policy_violating_count out
        = policy_compliant_count inv + policy_violating_count inv + length l)%nat
    /\ tally_total (instances_by_type out)
       = tally_total (instances_by_type inv) + Z.of_nat (length l)
    /\ forall t : string,
         count_of (instances_by_type out) t
         = count_of (instances_by_type inv) t + Z.of_nat (instances_of t l).
Proof.
  induction l as [|i l IH]; intros inv Hinv; cbn zeta.
  - simpl. repeat split; try lia. intros t. unfold instances_of. simpl. lia.
  - cbn [inventory_loop].
    destruct (tally_spec (instances_by_type inv) (InstanceType i) Hinv)
      as (Hcounts & Htotal & Hcount).
    assert (Hof : forall t : string,
               Z.of_nat (instances_of t (i :: l))
               = (if String.eqb (InstanceType i) t then 1 else 0)
                 + Z.of_nat (instances_of t l)).
    { intros t. unfold instances_of. cbn [List.filter].
      destruct (String.eqb (InstanceType i) t); simpl length; lia. }
    cbn [List.filter]. unfold violating at 1.
    destruct (is_instance_type_allowed (InstanceType i) "ec2") eqn:Hallowed;
      cbn [negb];
      match goal with |- context [inventory_loop l ?inv'] =>
        destruct (IH inv' Hcounts) as (H1 & H2 & H3 & H4 & H5) end;
      cbn [total_running_instances policy_violating_count policy_compliant_count
           instances_by_type] in *;
      (split; [exact H1|]); (split; [rewrite H2; simpl length; lia|]);
      (split; [rewrite H3; simpl length; lia|]);
      (split; [rewrite H4, Htotal; simpl length; lia|]);
      intros t; rewrite H5, Hcount, Hof; lia.
Qed.

(** The two ways of writing the selection of a list agree. *)
Lemma filter_bool {A : Type} (f : A -> bool) (l : list A) :
  filter (fun x => f x) l = List.filter f l.
Proof.
  induction l as [|x l IH]; [reflexivity|].
  rewrite filter_cons, IH. simpl. destruct (f x); reflexivity.
Qed.

(** The instances a call of the tool looks at. *)
Lemma report_instances (env : aws) (resource_types : string) (limit : Z) (r : report) :
  get_rightsizing_recommendations env resource_types limit = Report r ->
  exists running_instances : list ec2_instance,
    (if str_contains "EC2" resource_types then describe_instances env else Ok [])
    = Ok running_instances
    /\ inventory_of env resource_types = Some (tally_instances running_instances)
    /\ policy_violations r = length (List.filter violating running_instances).
Proof.
  unfold get_rightsizing_recommendations, inventory_of. intros H.
  destruct (str_contains "EC2" resource_types).
  - destruct (describe_instances env) as [running_instances|e]; [|discriminate H].
    exists running_instances. split; [reflexivity|]. split; [reflexivity|].
    injection H as <-. cbn [policy_violations].
    rewrite CollectorProofs.policy_loop_app. simpl app. rewrite length_map.
    rewrite (filter_bool violating). reflexivity.
  - exists []. split; [reflexivity|]. split; [reflexivity|].
    injection H as <-. reflexivity.
Qed.

(** X6.  In every report of the tool the inventory agrees with the list of
    the running instances and with the count of the policy violations: the
    instances that pass the policy and those that violate it add up to the
    running instances, the violating ones are as many as the report counts
    policy violations, whatever the limit cuts off the list, and the tally by
    type holds for each type the number of running instances of that type,
    the counts adding up to the running instances. *)
Theorem inventory_counts (env : aws) (resource_types : string) (limit : Z) (r : report) :
  get_rightsizing_recommendations env resource_types limit = Report r ->
  exists (inv : resource_inventory) (running_instances : list ec2_instance),
    inventory_of env resource_types = Some inv
    /\ (if str_contains "EC2" resource_types then describe_instances env else Ok [])
       = Ok running_instances
    /\ total_running_instances inv = length running_instances
    /\ policy_violating_count inv = policy_violations r
    /\ (policy_compliant_count inv + policy_violating_count inv
        = total_running_instances inv)%nat
    /\ tally_total (instances_by_type inv) = Z.of_nat (total_running_instances inv)
    /\ forall itype : string,
         count_of (instances_by_type inv) itype
         = Z.of_nat (instances_of itype running_instances).
Proof.
  intros H.
  destruct (report_instances env resource_types limit r H)
    as (running_instances & Hrunning & Hinv & Hviolations).
  exists (tally_instances running_instances), running_instances.
  split; [exact Hinv|]. split; [exact Hrunning|].
  unfold tally_instances.
  match goal with |- context [inventory_loop _ ?inv0] =>
    destruct (inventory_loop_spec running_instances inv0) as (H1 & H2 & H3 & H4 & H5);
      [constructor|] end.
  cbn [total_running_instances policy_violating_count policy_compliant_count
       instances_by_type] in *.
  split; [exact H1|]. split; [rewrite H2, Hviolations; reflexivity|].
  split; [rewrite H1; lia|]. split; [rewrite H4, H1; simpl; lia|].
  intros itype. rewrite H5. reflexivity.
Qed.

Lemma inventory_counts_witness :
  exists inv : resource_inventory,
    inventory_of ec2_demo "EC2,Lambda,S3" = Some inv
    /\ policy_violating_count inv = 1%nat
    /\ policy_compliant_count inv = 0%nat
    /\ count_of (instances_by_type inv) "r5.large" = 1.
Proof.
  destruct (get_rightsizing_recommendations ec2_demo "EC2,Lambda,S3" 50) as [r|e] eqn:Hr;
    [|discriminate Hr].
  destruct (inventory_counts ec2_demo "EC2,Lambda,S3" 50 r Hr)
    as (inv & running & Hinv & Hrunning & Htotal & Hviolating & Hsum & _ & Hcount).
  exists inv. split; [exact Hinv|].
  injection Hrunning as <-. injection Hr as <-.
  cbn in Hviolating, Htotal. split; [exact Hviolating|].
  split; [rewrite Htotal, Hviolating in Hsum; simpl in Hsum; lia|].
  rewrite Hcount. reflexivity.
Defined.

(** *** The status of a report *)

Lemma cap_results_nil {A : Type} (limit : Z) (l : list A) :
  0 <= limit -> cap_results limit l = [] -> l = [].
Proof.
  intros Hlimit. destruct (Z.eq_dec limit 0) as [->|Hne]; [auto|].
  rewrite CollectorProofs.cap_results_positive by lia.
  destruct l as [|x l]; [reflexivity|].
  destruct (Z.to_nat limit) as [|n] eqn:Hn; [lia | discriminate].
Qed.

Lemma compliance_status_of (limit : Z) (L : list value) (r : report) :
  0 <= limit ->
  recommendations r = cap_results limit L ->
  (L = [] -> policy_violations r = O) ->
  (Forall (fun service : string * nat => snd service = O) (services_analyzed r)
   <-> L = []) ->
  (compliance_status r = "compliant"%string
   <-> Forall (fun service => snd service = O) (services_analyzed r))
  /\ (compliance_status r = "violations_detected"%string
      <-> (0 < policy_violations r)%nat)
  /\ (compliance_status r = "compliant_with_optimizations"%string
      <-> policy_violations r = O
          /\ ~ Forall (fun service => snd service = O) (services_analyzed r)).
Proof.
  intros Hlimit Hrecs Hviolations Hsummary. unfold compliance_status. rewrite Hrecs.
  destruct (cap_results limit L) as [|x capped] eqn:Hcap.
  - apply (cap_results_nil _ _ Hlimit) in Hcap. rewrite (Hviolations Hcap).
    split; [|split].
    + split; [intros _; apply Hsummary, Hcap | reflexivity].
    + split; [discriminate | lia].
    + split; [discriminate|]. intros [_ Hnot]. exfalso. apply Hnot, Hsummary, Hcap.
  - assert (HL : L <> []).
    { intros HL. rewrite HL in Hcap. destruct limit; discriminate Hcap. }
    destruct (policy_violations r) as [|n]; simpl.
    + split; [|split].
      * split; [discriminate|]. intros Hall. exfalso. apply HL, Hsummary, Hall.
      * split; [discriminate | lia].
      * split; [|reflexivity]. intros _. split; [reflexivity|].
        intros Hall. apply HL, Hsummary, Hall.
    + split; [|split].
      * split; [discriminate|]. intros Hall. exfalso. apply HL, Hsummary, Hall.
      * split; [lia | reflexivity].
      * split; [discriminate|]. intros [Hzero _]. discriminate Hzero.
Qed.

(** X7.  For a limit that is not negative, a report has the status
    "compliant" exactly when no service gave a record, and the status
    "violations_detected" exactly when a running instance violates the
    policy; otherwise its status is "compliant_with_optimizations". *)
Theorem compliance_status_cases (env : aws) (resource_types : string) (limit : Z)
    (r : report) :
  0 <= limit ->
  get_rightsizing_recommendations env resource_types limit = Report r ->
  (compliance_status r = "compliant"%string
   <-> Forall (fun service => snd service = O) (services_analyzed r))
  /\ (compliance_status r = "violations_detected"%string
      <-> (0 < policy_violations r)%nat)
  /\ (compliance_status r = "compliant_with_optimizations"%string
      <-> policy_violations r = O
          /\ ~ Forall (fun service => snd service = O) (services_analyzed r)).
Proof.
  intros Hlimit H. unfold get_rightsizing_recommendations in H.
  destruct (if str_contains "EC2" resource_types then describe_instances env else Ok [])
    as [running_instances|e]; [|discriminate H].
  injection H as <-.
  set (P := policy_loop running_instances []).
  set (A := if str_contains "EC2" resource_types
            then ec2_optimizer_recommendations env P else []).
  apply (compliance_status_of limit
           (((P ++ [] ++ A) ++ lambda_recs env resource_types)
              ++ s3_recs env resource_types)); [exact Hlimit | reflexivity | |].
  - cbn [policy_violations]. intros HL.
    apply app_eq_nil in HL as [HL _]. apply app_eq_nil in HL as [HL _].
    apply app_eq_nil in HL as [HL _]. rewrite HL. reflexivity.
  - cbn [services_analyzed]. unfold lambda_recs, s3_recs.
    destruct (str_contains "Lambda" resource_types), (str_contains "S3" resource_types);
      rewrite ?List.Forall_app, ?List.Forall_cons_iff, ?List.Forall_nil_iff; simpl snd;
      rewrite ?length_zero_iff_nil, ?app_nil_r;
      repeat match goal with
             | |- context [?a ++ ?b = []] =>
                 lazymatch b with
                 | [] => fail
                 | _ => rewrite (app_nil a b)
                 end
             end; tauto.
Qed.

Lemma compliance_status_cases_witness :
  exists r : report,
    get_rightsizing_recommendations ec2_demo "EC2,Lambda,S3" 50 = Report r
    /\ compliance_status r = "violations_detected"%string.
Proof.
  destruct (get_rightsizing_recommendations ec2_demo "EC2,Lambda,S3" 50) as [r|e] eqn:Hr;
    [|discriminate Hr].
  exists r. split; [reflexivity|].
  destruct (compliance_status_cases ec2_demo "EC2,Lambda,S3" 50 r) as (_ & Hviolations & _);
    [lia | exact Hr |].
  apply Hviolations. injection Hr as <-. vm_compute. lia.
Defined.

(** A negative limit cuts from the end of the list and can cut all of it:
    the status is then "compliant" although an instance violates the
    policy. *)
Example compliance_status_negative_limit :
  exists r : report,
    get_rightsizing_recommendations ec2_demo "EC2" (-5) = Report r
    /\ compliance_status r = "compliant"%string
    /\ policy_violations r = 1%nat.
Proof. eexists. split; [reflexivity|]. split; reflexivity. Qed.

(** *** Buckets and functions *)

Lemma s3_bucket_recs_names (env : aws) (bucket : string) :
  map bucket_name (s3_bucket_recs env bucket)
  = if lacks_lifecycle env bucket then [VStr bucket] else [].
Proof.
  unfold s3_bucket_recs, lacks_lifecycle.
  destruct (get_bucket_lifecycle_configuration env bucket) as [|code|msg];
    try reflexivity.
  destruct (String.eqb code "NoSuchLifecycleConfiguration"); reflexivity.
Qed.

(** X8.  When the listing of the buckets raises, the check returns no record
    and a total of zero.  Otherwise the total is the number of buckets and
    the records are, in the order of the listing, one for each bucket whose
    lifecycle lookup answers [NoSuchLifecycleConfiguration] and none for any
    other bucket: never more records than buckets. *)
Theorem check_s3_buckets_one_per_bucket (env : aws) :
  match list_buckets env with
  | Ok buckets =>
      snd (check_s3_buckets env) = length buckets
      /\ map bucket_name (fst (check_s3_buckets env))
         = map VStr (List.filter (lacks_lifecycle env) buckets)
      /\ (length (fst (check_s3_buckets env)) <= length buckets)%nat
  | Raise _ => check_s3_buckets env = ([], O)
  end.
Proof.
  destruct (list_buckets env) as [buckets|e] eqn:Hlist.
  - rewrite (CollectorProofs.check_s3_buckets_ok env buckets Hlist). cbn [fst snd].
    split; [reflexivity|].
    assert (Hnames : map bucket_name (flat_map (s3_bucket_recs env) buckets)
                     = map VStr (List.filter (lacks_lifecycle env) buckets)).
    { clear Hlist. induction buckets as [|b buckets IH]; [reflexivity|].
      cbn [flat_map List.filter]. rewrite map_app, s3_bucket_recs_names, IH.
      destruct (lacks_lifecycle env b); reflexivity. }
    split; [exact Hnames|].
    rewrite <- (length_map bucket_name), Hnames, length_map.
    apply List.filter_length_le.
  - unfold check_s3_buckets. rewrite Hlist. reflexivity.
Qed.

Lemma lambda_function_recs_names (env : aws) (func : lambda_function) :
  map function_name (lambda_function_recs env (VInt 100) func)
  = repeat (VStr (FunctionName func)) (records_due env func).
Proof.
  unfold lambda_function_recs, records_due, over_provisioned, over_concurrency.
  destruct (5120 <? MemorySize func);
    destruct (get_function_concurrency env (FunctionName func)) as [[c|]|e];
    try reflexivity;
    destruct (negb (c =? 0) && (100 <? c)); reflexivity.
Qed.

(** X9.  When the listing of the functions raises, the check returns no
    record and a total of zero.  Otherwise the total is the number of
    functions and the records name the functions in the order of the
    listing: one record for a memory above 5120 MB, then one for a reserved
    concurrency above 100, and none for a function with neither, nor for a
    concurrency lookup that raises or is unset.  There are never more than
    two records for each function. *)
Theorem check_lambda_functions_per_function (env : aws) :
  match list_functions env with
  | Ok functions =>
      snd (check_lambda_functions env) = length functions
      /\ map function_name (fst (check_lambda_functions env))
         = flat_map (fun func => repeat (VStr (FunctionName func)) (records_due env func))
             functions
      /\ (length (fst (check_lambda_functions env)) <= 2 * length functions)%nat
  | Raise _ => check_lambda_functions env = ([], O)
  end.
Proof.
  destruct (list_functions env) as [functions|e] eqn:Hlist.
  - rewrite (CollectorProofs.check_lambda_functions_ok env functions Hlist). cbn [fst snd].
    split; [reflexivity|].
    assert (Hnames : map function_name
                       (flat_map (lambda_function_recs env (VInt 100)) functions)
                     = flat_map (fun func =>
                                   repeat (VStr (FunctionName func)) (records_due env func))
                         functions).
    { clear Hlist. induction functions as [|f functions IH]; [reflexivity|].
      cbn [flat_map]. rewrite map_app, lambda_function_recs_names, IH. reflexivity. }
    split; [exact Hnames|].
    rewrite <- (length_map function_name), Hnames. clear.
    induction functions as [|f functions IH]; [simpl; lia|].
    cbn [flat_map]. rewrite length_app, repeat_length. simpl length.
    unfold records_due at 1.
    destruct (over_provisioned f), (over_concurrency env f); lia.
  - unfold check_lambda_functions. rewrite Hlist. reflexivity.
Qed.

End InventoryProofs.

(** ** The steps that change and verify instances *)

Module ExecutorProofs.
Import Py Text Workflow Executor.

Lemma subscript_get (rec : value) (k : string) (v : value) :
  subscript rec k = Ok v -> get (entries rec) k = v.
Proof.
  unfold subscript, get, get_default. destruct rec as [| | | | | |d]; try discriminate.
  simpl. destruct (dict_get d k); [intros [= ->]; reflexivity | discriminate].
Qed.

Lemma dict_get_snoc (l : dict) (k' : string) (v' : value) (k : string) :
  dict_get (l ++ [(k', v')]) k =
  match dict_get l k with
  | Some v => Some v
  | None => if String.eqb k' k then Some v' else None
  end.
Proof.
  induction l as [|[k0 v0] l IH]; simpl; [reflexivity|].
  destruct (String.eqb k0 k); [reflexivity | exact IH].
Qed.

(** What [d.update(other)] leaves under a key: the last entry of [other]
    with that key, or else what [d] had. *)
Lemma dict_get_update (other d : dict) (k : string) :
  dict_get (dict_update d other) k =
  match dict_get (rev other) k with
  | Some v => Some v
  | None => dict_get d k
  end.
Proof.
  unfold dict_update. revert d.
  induction other as [|[k' v'] other IH]; intros d; [reflexivity|].
  cbn [fold_left fst snd rev]. rewrite IH, dict_get_snoc.
  destruct (dict_get (rev other) k); [reflexivity|].
  destruct (String.eqb_spec k' k) as [->|Hne].
  - apply WorkflowProofs.dict_get_set_eq.
  - apply WorkflowProofs.dict_get_set_ne. exact Hne.
Qed.

Lemma with_status_split (changes : list value) :
  Forall (fun c => change_status c = VStr "success" \/ change_status c = VStr "failed")
    changes ->
  (length (with_status "success" changes) + length (with_status "failed" changes)
   = length changes)%nat.
Proof.
  unfold with_status, change_status. induction 1 as [|c changes Hc Hall IH]; [reflexivity|].
  cbn [List.filter]. destruct Hc as [-> | ->]; simpl; lia.
Qed.

Lemma with_status_exists (status : string) (changes : list value) :
  with_status status changes <> []
  <-> Exists (fun c => change_status c = VStr status) changes.
Proof.
  unfold with_status, change_status. induction changes as [|c changes IH].
  - simpl. split; [congruence | intros H; inversion H].
  - cbn [List.filter]. rewrite Exists_cons.
    destruct (get (entries c) "status") as [| | | |s| |] eqn:Hs; simpl;
      try (rewrite IH; split; [tauto | intros [H|H]; [discriminate H | exact H]]).
    destruct (String.eqb_spec s status) as [->|Hne].
    + split; [left; reflexivity | discriminate].
    + rewrite IH. split; [tauto|]. intros [[= H]|H]; [contradiction | exact H].
Qed.

(** The blueprint of the one workflow whose steps are all registered. *)
Lemma blueprint_optimize :
  _workflow_blueprint "optimize_existing_instances" =
  [ step "validate_recommendations" "rita.validators.recommendations";
    step "apply_rightsizing" "rita.executors.rightsize_instance";
    step "verify_optimization" "rita.verifiers.optimization_verification" ]%string.
Proof. reflexivity. Qed.

Section ApplyStep.

Variable world : Type.
Variable stop_instances : value -> world -> result unit * world.
Variable wait_instance_stopped : value -> world -> result unit * world.
Variable modify_instance_attribute : value -> value -> world -> result unit * world.
Variable start_instances : value -> world -> result unit * world.
Variable wait_instance_running : value -> world -> result unit * world.
Variable now_isoformat : world -> string.
Variable float_of_str : string -> result float.

Local Abbreviation apply_record :=
  (Executor.apply_record world stop_instances wait_instance_stopped
     modify_instance_attribute start_instances wait_instance_running
     now_isoformat float_of_str).
Local Abbreviation apply_loop :=
  (Executor.apply_loop world stop_instances wait_instance_stopped
     modify_instance_attribute start_instances wait_instance_running
     now_isoformat float_of_str).
Local Abbreviation apply_step :=
  (ApplyRightsizingStep_execute world stop_instances wait_instance_stopped
     modify_instance_attribute start_instances wait_instance_running
     now_isoformat float_of_str).

Lemma apply_record_ok (rec : value) (total : float) (w : world) :
  well_formed rec ->
  exists (change : value) (total' : float) (w' : world),
    apply_record rec total w = (Ok (change, total'), w') /\ change_of rec change.
Proof.
  intros (i & c & t & s & reason & Hi & Hc & Ht & Hs & Hr).
  unfold Executor.apply_record. rewrite Hi, Hc, Ht, Hs, Hr.
  unfold change_of, instance_of, recommended_of, change_status.
  rewrite (subscript_get _ _ _ Hi), (subscript_get _ _ _ Ht).
  destruct (rightsize _ _ _ _ _ _ i t w) as [[[]|e] w'];
    eexists _, _, _; (split; [reflexivity|]); repeat split; auto.
Qed.

Lemma apply_loop_ok (recs : list value) :
  Forall well_formed recs ->
  forall (changes : list value) (total : float) (w : world),
  exists (new : list value) (total' : float) (w' : world),
    apply_loop recs changes total w = (Ok (changes ++ new, total'), w')
    /\ Forall2 change_of recs new.
Proof.
  induction 1 as [|rec recs Hrec Hrecs IH]; intros changes total w.
  - exists [], total, w. simpl. rewrite app_nil_r. split; [reflexivity | constructor].
  - cbn [Executor.apply_loop].
    destruct (apply_record_ok rec total w Hrec) as (change & total1 & w1 & -> & Hchange).
    destruct (IH (changes ++ [change]) total1 w1) as (new & total' & w' & -> & Hnew).
    exists (change :: new), total', w'. rewrite <- app_assoc.
    split; [reflexivity | constructor; assumption].
Qed.

(** X10.  The apply step, given validated records that have their five
    fields: with none it reports success and makes no call; otherwise it
    returns one change for each record, in their order, each about the
    instance of its record and with the status "success" or "failed", the
    two counts of the summary adding up to the number of records.  The step
    itself reports "success" when at least one change succeeded and "failed"
    when none did; it leaves the context as it was. *)
Theorem apply_step_changes (context : dict) (recs : list value) (w : world) :
  dict_get context "validated_recommendations" = Some (VList recs) ->
  Forall well_formed recs ->
  match recs with
  | [] => apply_step context w = (nothing_to_apply, context, w)
  | _ :: _ =>
      exists (changes : list value) (total : float) (w' : world),
        apply_step context w = (apply_result changes total, context, w')
        /\ Forall2 change_of recs changes
        /\ (length (with_status "success" changes)
            + length (with_status "failed" changes) = length recs)%nat
        /\ (dict_get (apply_result changes total) "status" = Some (VStr "success")
            <-> Exists (fun c => change_status c = VStr "success") changes)
        /\ (dict_get (apply_result changes total) "status" = Some (VStr "failed")
            <-> Forall (fun c => change_status c = VStr "failed") changes)
  end.
Proof.
  intros Hctx Hrecs. unfold ApplyRightsizingStep_execute, get_default. rewrite Hctx.
  destruct recs as [|rec recs]; [reflexivity|].
  cbn [truthy negb iterate].
  destruct (apply_loop_ok (rec :: recs) Hrecs [] 0%float w)
    as (changes & total & w' & -> & Hchanges).
  exists changes, total, w'. simpl app.
  assert (Hstatus : Forall (fun c => change_status c = VStr "success"
                                     \/ change_status c = VStr "failed") changes).
  { clear -Hchanges. induction Hchanges as [|r c rs cs Hc _ IH]; constructor;
      [apply Hc | exact IH]. }
  split; [reflexivity|]. split; [exact Hchanges|].
  split; [rewrite with_status_split by exact Hstatus;
          symmetry; apply (Forall2_length _ _ _ Hchanges)|].
  unfold apply_result. cbn [dict_get String.eqb Ascii.eqb Bool.eqb].
  pose proof (with_status_exists "success" changes) as Hex.
  destruct (with_status "success" changes) as [|c0 cs] eqn:Hsucc.
  - split.
    + split; [discriminate|]. intros H. apply Hex in H. congruence.
    + split; [|reflexivity]. intros _.
      apply List.Forall_forall. intros c Hin.
      rewrite List.Forall_forall in Hstatus. destruct (Hstatus c Hin) as [Hs|Hf]; [|exact Hf].
      exfalso. assert (Hne : Exists (fun c => change_status c = VStr "success") changes)
        by (apply List.Exists_exists; eauto).
      apply Hex in Hne. congruence.
  - split.
    + split; [|reflexivity]. intros _. apply Hex. discriminate.
    + split; [discriminate|]. intros Hall. exfalso.
      assert (Hin : In c0 (with_status "success" changes)) by (rewrite Hsucc; left; reflexivity).
      unfold with_status in Hin. apply filter_In in Hin as [Hin Hc0].
      rewrite List.Forall_forall in Hall. specialize (Hall c0 Hin).
      unfold change_status in Hall. rewrite Hall in Hc0. discriminate Hc0.
Qed.

End ApplyStep.

(** *** The verify step *)

Section VerifyStep.

Variable world : Type.
Variable describe_instances : value -> world -> describe_outcome * world.
Variable now_isoformat : world -> string.

Local Abbreviation verify_change :=
  (Executor.verify_change world describe_instances now_isoformat).
Local Abbreviation verify_loop :=
  (Executor.verify_loop world describe_instances now_isoformat).
Local Abbreviation verify_step :=
  (VerifyOptimizationStep_execute world describe_instances now_isoformat).

Lemma eq_str_failed (status : value) :
  eq_str status "failed" = true <-> status = VStr "failed".
Proof.
  destruct status as [| | | |s| |]; simpl; try (split; discriminate).
  rewrite String.eqb_eq. split; [intros ->; reflexivity | intros [= ->]; reflexivity].
Qed.

Lemma verify_change_ok (change : value) (w : world) :
  applied change ->
  exists (v : value) (w' : world),
    verify_change change w = (Ok v, w')
    /\ verification_of world describe_instances change v w w'.
Proof.
  intros (i & status & Hi & Hs). unfold Executor.verify_change. rewrite Hi, Hs.
  unfold verification_of, instance_of, change_status.
  rewrite (subscript_get _ _ _ Hi), (subscript_get _ _ _ Hs).
  destruct (eq_str status "failed") eqn:Hfailed.
  - apply eq_str_failed in Hfailed. subst status.
    eexists _, w. split; [reflexivity|]. split; [reflexivity|].
    split; [intros _; split; reflexivity|]. intros Hne. congruence.
  - assert (Hne : status <> VStr "failed").
    { intros ->. simpl in Hfailed. discriminate. }
    unfold verify_applied.
    destruct (describe_instances i w) as [[state ty| |code msg|msg] w1] eqn:Hd.
    + destruct (subscript change "to") as [expected|e] eqn:Hto.
      * destruct (String.eqb state "running" && eq_str expected ty) eqn:Hok.
        -- apply andb_prop in Hok as [Hstate Hty]. apply String.eqb_eq in Hstate.
           subst state. destruct expected as [| | | |s| |]; try discriminate Hty.
           simpl in Hty. apply String.eqb_eq in Hty. subst s.
           eexists _, w1. split; [reflexivity|]. split; [reflexivity|].
           split; [intros Hf; contradiction|]. intros _. split; [reflexivity|].
           split; [left; reflexivity|]. split; [|reflexivity].
           intros _. exists ty. split; reflexivity.
        -- eexists _, w1. split; [reflexivity|]. split; [reflexivity|].
           split; [intros Hf; contradiction|]. intros _. split; [reflexivity|].
           split; [right; left; reflexivity|]. split; [discriminate|].
           intros (ty' & Hfound & Hexp). simpl in Hfound.
           injection Hfound as -> ->. injection Hexp as ->.
           simpl in Hok. rewrite String.eqb_refl in Hok. discriminate Hok.
      * eexists _, w1. split; [reflexivity|]. split; [reflexivity|].
        split; [intros Hf; contradiction|]. intros _. split; [reflexivity|].
        split; [right; right; reflexivity|]. split; [discriminate|].
        intros (ty' & _ & Hexp). discriminate Hexp.
    + eexists _, w1. split; [reflexivity|]. split; [reflexivity|].
      split; [intros Hf; contradiction|]. intros _. split; [reflexivity|].
      split; [right; right; reflexivity|]. split; [discriminate|].
      intros (ty' & Hfound & _). discriminate Hfound.
    + eexists _, w1. split; [reflexivity|]. split; [reflexivity|].
      split; [intros Hf; contradiction|]. intros _. split; [reflexivity|].
      split; [right; right; reflexivity|]. split; [discriminate|].
      intros (ty' & Hfound & _). discriminate Hfound.
    + eexists _, w1. split; [reflexivity|]. split; [reflexivity|].
      split; [intros Hf; contradiction|]. intros _. split; [reflexivity|].
      split; [right; right; reflexivity|]. split; [discriminate|].
      intros (ty' & Hfound & _). discriminate Hfound.
Qed.

Lemma verify_loop_ok (changes : list value) :
  Forall applied changes ->
  forall (results : list value) (w : world),
  exists (new : list value) (w' : world),
    verify_loop changes results w = (Ok (results ++ new), w')
    /\ verified world describe_instances changes new w w'.
Proof.
  induction 1 as [|change changes Hchange Hchanges IH]; intros results w.
  - exists [], w. simpl. rewrite app_nil_r. split; [reflexivity | constructor].
  - cbn [Executor.verify_loop].
    destruct (verify_change_ok change w Hchange) as (v & w1 & -> & Hv).
    destruct (IH (results ++ [v]) w1) as (new & w' & -> & Hnew).
    exists (v :: new), w'. rewrite <- app_assoc.
    split; [reflexivity | econstructor; eassumption].
Qed.

Lemma verified_as_exists (status : string) (results : list value) :
  verified_as status results <> []
  <-> Exists (fun v => verification_status v = VStr status) results.
Proof.
  unfold verified_as, verification_status. induction results as [|v results IH].
  - simpl. split; [congruence | intros H; inversion H].
  - cbn [List.filter]. rewrite Exists_cons.
    destruct (get (entries v) "verification_status") as [| | | |s| |] eqn:Hs; simpl;
      try (rewrite IH; split; [tauto | intros [H|H]; [discriminate H | exact H]]).
    destruct (String.eqb_spec s status) as [->|Hne].
    + split; [left; reflexivity | discriminate].
    + rewrite IH. split; [tauto|]. intros [[= H]|H]; [contradiction | exact H].
Qed.

Lemma verified_all_failed (changes results : list value) (w w' : world) :
  verified world describe_instances changes results w w' ->
  Forall (fun c => change_status c = VStr "failed") changes ->
  w' = w /\ Forall (fun v => verification_status v = VStr "skipped") results.
Proof.
  induction 1 as [w|change v changes vs w w1 w2 Hv Hrest IH]; intros Hall.
  - split; [reflexivity | constructor].
  - inversion Hall as [|c cs Hc Hcs]; subst.
    destruct Hv as (_ & Hskipped & _). destruct (Hskipped Hc) as [Hstatus ->].
    destruct (IH Hcs) as [-> Hvs]. split; [reflexivity | constructor; assumption].
Qed.

(** X11.  The verify step, given changes that name their instance and their
    status: with none it reports success and looks nothing up; otherwise it
    returns one verification for each change, in their order.  A change that
    failed is skipped without a lookup; any other change is looked up, and
    its verification is a "success" exactly when the instance is found
    running with the type the change leads to.  The step reports "success"
    exactly when a verification succeeded: over changes that all failed it
    looks nothing up and reports "failed". *)
Theorem verify_step_results (context : dict) (changes : list value) (w : world) :
  dict_get context "applied_changes" = Some (VList changes) ->
  Forall applied changes ->
  match changes with
  | [] => verify_step context w = (nothing_to_verify, context, w)
  | _ :: _ =>
      exists (results : list value) (w' : world),
        verify_step context w = (verify_result results, context, w')
        /\ verified world describe_instances changes results w w'
        /\ (dict_get (verify_result results) "status" = Some (VStr "success")
            <-> Exists (fun v => verification_status v = VStr "success") results)
        /\ (Forall (fun c => change_status c = VStr "failed") changes ->
            w' = w
            /\ dict_get (verify_result results) "status" = Some (VStr "failed"))
  end.
Proof.
  intros Hctx Hchanges. unfold VerifyOptimizationStep_execute, get_default. rewrite Hctx.
  destruct changes as [|change changes]; [reflexivity|].
  cbn [truthy negb iterate].
  destruct (verify_loop_ok (change :: changes) Hchanges [] w)
    as (results & w' & -> & Hresults).
  exists results, w'. simpl app.
  split; [reflexivity|]. split; [exact Hresults|].
  unfold verify_result. cbn [dict_get String.eqb Ascii.eqb Bool.eqb].
  pose proof (verified_as_exists "success" results) as Hex.
  split.
  - destruct (verified_as "success" results) as [|v0 vs].
    + split; [discriminate|]. intros H. apply Hex in H. congruence.
    + split; [|reflexivity]. intros _. apply Hex. discriminate.
  - intros Hall. destruct (verified_all_failed _ _ _ _ Hresults Hall) as [-> Hskipped].
    split; [reflexivity|].
    destruct (verified_as "success" results) as [|v0 vs] eqn:Hsucc; [reflexivity|].
    exfalso.
    assert (Hne : Exists (fun v => verification_status v = VStr "success") results)
      by (apply Hex; discriminate).
    apply List.Exists_exists in Hne as (v & Hin & Hv).
    rewrite List.Forall_forall in Hskipped. rewrite (Hskipped v Hin) in Hv. discriminate Hv.
Qed.

End VerifyStep.

(** *** The workflow when validation leaves nothing *)

Section WholeRun.

Variable world : Type.
Variable describe_instances : value -> world -> describe_outcome * world.
Variable stop_instances : value -> world -> result unit * world.
Variable wait_instance_stopped : value -> world -> result unit * world.
Variable modify_instance_attribute : value -> value -> world -> result unit * world.
Variable start_instances : value -> world -> result unit * world.
Variable wait_instance_running : value -> world -> result unit * world.
Variable now_isoformat : world -> string.
Variable float_of_str : string -> result float.

Local Abbreviation apply_step :=
  (ApplyRightsizingStep_execute world stop_instances wait_instance_stopped
     modify_instance_attribute start_instances wait_instance_running
     now_isoformat float_of_str).
Local Abbreviation verify_step :=
  (VerifyOptimizationStep_execute world describe_instances now_isoformat).
Local Abbreviation validate_step :=
  (ValidateRecommendationsStep_execute world describe_instances).
Local Abbreviation run_workflow :=
  (Executor.run_workflow world describe_instances stop_instances wait_instance_stopped
     modify_instance_attribute start_instances wait_instance_running
     now_isoformat float_of_str).

(** A result of the validation step that holds validated records did not
    fail, and holds them under one key only. *)
Lemma validate_result_shape (context : dict) (w : world) (res ctx1 : dict) (w1 : world)
    (validated : list value) :
  validate_step context w = (res, ctx1, w1) ->
  dict_get res "validated_recommendations" = Some (VList validated) ->
  failed res = false
  /\ dict_get (rev res) "validated_recommendations" = Some (VList validated).
Proof.
  unfold ValidateRecommendationsStep_execute, validate_recommendations.
  destruct (negb (truthy (get_default context "recommendations" (VList [])))).
  { intros [= <- _ _] [= <-]. split; reflexivity. }
  destruct (get_default context "recommendations" (VList [])) as [| | | | |recs|];
    try (intros [= <- _ _] Hget; discriminate Hget).
  destruct (validate_loop world describe_instances recs [] [] w) as [[[vs|msg] recs'] w'].
  - intros [= <- _ _] [= <-]. split; reflexivity.
  - intros [= <- _ _] Hget. discriminate Hget.
Qed.

(** X12.  When the validation step succeeds and leaves no validated record
    (no recommendation was given, or every one was dropped), the workflow
    [optimize_existing_instances] runs its three steps and completes: the
    apply step reports that there is nothing to apply, the verify step that
    there is nothing to verify, and neither makes a call, the account being
    left as validation left it. *)
Theorem workflow_with_nothing_valid (hex8 : string) (context : dict) (w : world)
    (res ctx1 : dict) (w1 : world) :
  validate_step context w = (res, ctx1, w1) ->
  dict_get res "validated_recommendations" = Some (VList []) ->
  exists r : run world,
    run_workflow hex8 "optimize_existing_instances" context w
    = Some (String.append "strands-" hex8, r)
    /\ status_of r = Some (VStr "completed")
    /\ map fst (executed r)
       = [ "validate_recommendations"; "apply_rightsizing"; "verify_optimization" ]%string
    /\ dict_get (workflow_results r) "apply_rightsizing" = Some (VDict nothing_to_apply)
    /\ dict_get (workflow_results r) "verify_optimization"
       = Some (VDict nothing_to_verify)
    /\ final_world r = w1.
Proof.
  intros Hvalidate Hnone.
  destruct (validate_result_shape _ _ _ _ _ _ Hvalidate Hnone) as [Hfailed Hrev].
  unfold Executor.run_workflow, _run_via_strands. rewrite blueprint_optimize.
  cbn [run_steps name step].
  change (execute_step _ _ _ _ _ _ _ _ _ "validate_recommendations")
    with validate_step.
  rewrite Hvalidate. cbn beta iota. fold (failed res). rewrite Hfailed.
  cbn [run_steps name step].
  change (execute_step _ _ _ _ _ _ _ _ _ "apply_rightsizing") with apply_step.
  unfold ApplyRightsizingStep_execute at 1. unfold get_default at 1.
  rewrite dict_get_update, Hrev. cbn [truthy negb].
  cbn beta iota.
  change (eq_str (get nothing_to_apply "status") "failed") with false. cbn iota.
  cbn [run_steps name step].
  change (execute_step _ _ _ _ _ _ _ _ _ "verify_optimization") with verify_step.
  unfold VerifyOptimizationStep_execute at 1. unfold get_default at 1.
  rewrite dict_get_update.
  change (dict_get (rev nothing_to_apply) "applied_changes") with (Some (VList [])).
  cbn [truthy negb]. cbn beta iota.
  change (eq_str (get nothing_to_verify "status") "failed") with false. cbn iota.
  cbn [run_steps].
  eexists. split; [reflexivity|].
  unfold status_of. cbn [workflow_results executed final_world].
  split; [|split; [reflexivity|split; [|split; [|reflexivity]]]].
  - rewrite WorkflowProofs.dict_get_set_ne by discriminate.
    apply WorkflowProofs.dict_get_set_eq.
  - rewrite !WorkflowProofs.dict_get_set_ne by discriminate.
    apply WorkflowProofs.dict_get_set_eq.
  - rewrite !WorkflowProofs.dict_get_set_ne by discriminate.
    apply WorkflowProofs.dict_get_set_eq.
Qed.

(** The blueprint of an action other than [optimize_existing_instances]
    starts with a step of collection. *)
Lemma blueprint_of_other (action : string) :
  action_key action <> "optimize_existing_instances"%string ->
  exists (first : step_def) (rest : list step_def),
    _workflow_blueprint action = first :: rest
    /\ In (name first)
         [ "collect_cost_evidence"; "collect_targets"; "identify_idle_resources" ]%string.
Proof.
  intros Hother. unfold _workflow_blueprint, WORKFLOW_LIBRARY. cbn [library_get].
  destruct (String.eqb "optimize_existing_instances" (action_key action)) eqn:Hkey.
  { apply String.eqb_eq in Hkey. symmetry in Hkey. contradiction. }
  repeat match goal with
         | |- context [String.eqb ?k (action_key action)] =>
             destruct (String.eqb k (action_key action))
         end;
    (eexists _, _; split; [reflexivity|]; cbn [name step In]; auto).
Qed.

(** X13.  Of all the actions only [optimize_existing_instances], written
    with "-" or "_" and in upper or lower case, gets past its first step.
    Every other action, in the library or not, has a blueprint whose first
    step the registry does not hold: the run executes that step alone, ends
    with the status "failed" and a message naming the step, and leaves the
    account as it was. *)
Theorem other_actions_stop_at_first_step (hex8 action : string) (context : dict)
    (w : world) :
  action_key action <> "optimize_existing_instances"%string ->
  exists (r : run world) (first : step_def) (rest : list step_def),
    run_workflow hex8 action context w = Some (String.append "strands-" hex8, r)
    /\ _workflow_blueprint action = first :: rest
    /\ ~ In (name first)
         [ "validate_recommendations"; "apply_rightsizing"; "verify_optimization" ]%string
    /\ map fst (executed r) = [name first]
    /\ status_of r = Some (VStr "failed")
    /\ message_of r
       = Some (VStr (String.append "Workflow failed at step: " (name first)))
    /\ final_world r = w.
Proof.
  intros Hother.
  destruct (blueprint_of_other action Hother) as (first & rest & Hblueprint & Hfirst).
  unfold Executor.run_workflow, _run_via_strands. rewrite Hblueprint.
  eexists _, first, rest.
  split; [reflexivity|]. split; [reflexivity|].
  split.
  { intros Hin. cbn [In] in Hfirst, Hin.
    repeat (destruct Hfirst as [Hfirst|Hfirst];
            [rewrite <- Hfirst in Hin;
             repeat (destruct Hin as [Hin|Hin]; try discriminate Hin); exact Hin|]).
    exact Hfirst. }
  cbn [run_steps]. cbn [In] in Hfirst.
  repeat (destruct Hfirst as [Hfirst|Hfirst];
          [rewrite <- Hfirst; repeat split|]).
  contradiction.
Qed.

End WholeRun.

(** *** Runs on an account that keeps a record of its calls *)

Lemma split_at {A : Type} (l1 l2 pre post : list A) (x : A) :
  l1 ++ l2 = pre ++ x :: post ->
  (exists mid : list A, l1 = pre ++ x :: mid /\ post = mid ++ l2)
  \/ (exists pre2 : list A, pre = l1 ++ pre2 /\ l2 = pre2 ++ x :: post).
Proof.
  revert pre. induction l1 as [|a l1 IH]; intros pre H.
  - right. exists pre. split; [reflexivity | exact H].
  - destruct pre as [|b pre]; simpl in H; injection H as <- H.
    + left. exists l1. split; [reflexivity | symmetry; exact H].
    + destruct (IH pre H) as [(mid & -> & ->)|(pre2 & -> & ->)].
      * left. exists mid. split; reflexivity.
      * right. exists pre2. split; reflexivity.
Qed.

Lemma lookups_only_app (l1 l2 : list event) :
  lookups_only l1 -> lookups_only l2 -> lookups_only (l1 ++ l2).
Proof. unfold lookups_only. intros H1 H2. apply List.Forall_app. split; assumption. Qed.

Lemma lookups_only_no_call (l : list event) (c : call) (outcome : result unit) :
  lookups_only l -> ~ In (Called c outcome) l.
Proof.
  unfold lookups_only. rewrite List.Forall_forall. intros Hl Hin.
  specialize (Hl _ Hin). discriminate Hl.
Qed.

(** The calls of an attempt are about its instance. *)
Lemma attempt_target (i t : value) (outcome : result unit) (events : list event)
    (c : call) (o : result unit) :
  attempt i t outcome events -> In (Called c o) events -> target c = i.
Proof.
  intros Hattempt Hin. inversion Hattempt; subst; simpl in Hin;
    repeat match goal with
           | H : _ \/ _ |- _ => destruct H as [H|H]
           | H : False |- _ => destruct H
           | H : _ = Called c o |- _ => injection H as <- _
           | H : succeeded _ = Called c o |- _ => unfold succeeded in H
           end; reflexivity.
Qed.

Lemma attempts_target (tg : list (value * value)) (events : list event)
    (c : call) (o : result unit) :
  attempts tg events -> In (Called c o) events ->
  exists t : value, In (target c, t) tg.
Proof.
  induction 1 as [left_out|i t outcome events rest more Hattempt Hmore IH]; intros Hin.
  - destruct Hin.
  - apply in_app_or in Hin as [Hin|Hin].
    + exists t. left. rewrite (attempt_target _ _ _ _ _ _ Hattempt Hin). reflexivity.
    + destruct (IH Hin) as [t' Ht']. exists t'. right. exact Ht'.
Qed.

(** Where an event lies in the events of one attempt. *)
Ltac find_event H pre :=
  unfold succeeded in H;
  repeat (destruct pre as [|? pre]; simpl in H;
          [try discriminate H | injection H as ? H; subst]);
  try (destruct pre; discriminate H).

(** A type is set only right after the instance was stopped, and an instance
    is started only right after its type was set. *)
Lemma attempts_in_order (tg : list (value * value)) (events : list event) :
  attempts tg events ->
  (forall (pre post : list event) (i t : value) (outcome : result unit),
      events = pre ++ Called (Modify i t) outcome :: post ->
      exists before : list event,
        pre = before ++ [succeeded (Stop i); succeeded (WaitStopped i)])
  /\ (forall (pre post : list event) (i : value) (outcome : result unit),
      events = pre ++ Called (Start i) outcome :: post ->
      exists (before : list event) (t : value),
        pre = before ++ [succeeded (Stop i); succeeded (WaitStopped i);
                         succeeded (Modify i t)]).
Proof.
  induction 1 as [left_out|i0 t0 outcome0 events rest more Hattempt Hmore [IHm IHs]].
  - split; intros pre post; intros; destruct pre; discriminate.
  - split.
    + intros pre post i t outcome Heq.
      destruct (split_at _ _ _ _ _ Heq) as [(mid & Hin & _)|(pre2 & -> & Heq2)].
      * subst events. inversion Hattempt; clear Hattempt;
          match goal with
          | He : _ = pre ++ _ |- _ =>
              find_event He pre; injection He as <- <-; intros; subst;
              exists []; reflexivity
          end.
      * destruct (IHm _ _ _ _ _ Heq2) as [before ->].
        exists (events ++ before). rewrite app_assoc. reflexivity.
    + intros pre post i outcome Heq.
      destruct (split_at _ _ _ _ _ Heq) as [(mid & Hin & _)|(pre2 & -> & Heq2)].
      * subst events. inversion Hattempt; clear Hattempt;
          match goal with
          | He : _ = pre ++ _ |- _ =>
              find_event He pre; injection He as <-; intros; subst;
              exists [], t0; reflexivity
          end.
      * destruct (IHs _ _ _ _ Heq2) as (before & t & ->).
        exists (events ++ before), t. rewrite app_assoc. reflexivity.
Qed.

Section Recorded.

Variable describe_answer : history -> value -> describe_outcome.
Variable call_answer : history -> call -> result unit.
Variable clock : history -> string.
Variable float_of_str : string -> result float.

Local Abbreviation rightsize :=
  (Executor.rightsize history
     (fun i => recorded call_answer (Stop i)) (fun i => recorded call_answer (WaitStopped i))
     (fun i t => recorded call_answer (Modify i t)) (fun i => recorded call_answer (Start i))
     (fun i => recorded call_answer (WaitRunning i))).
Local Abbreviation apply_record :=
  (Executor.apply_record history
     (fun i => recorded call_answer (Stop i)) (fun i => recorded call_answer (WaitStopped i))
     (fun i t => recorded call_answer (Modify i t)) (fun i => recorded call_answer (Start i))
     (fun i => recorded call_answer (WaitRunning i)) clock float_of_str).
Local Abbreviation apply_loop :=
  (Executor.apply_loop history
     (fun i => recorded call_answer (Stop i)) (fun i => recorded call_answer (WaitStopped i))
     (fun i t => recorded call_answer (Modify i t)) (fun i => recorded call_answer (Start i))
     (fun i => recorded call_answer (WaitRunning i)) clock float_of_str).
Local Abbreviation apply_step := (recorded_apply call_answer clock float_of_str).
Local Abbreviation verify_step := (recorded_verify describe_answer clock).
Local Abbreviation validate_step :=
  (ValidateRecommendationsStep_execute history (recorded_describe describe_answer)).

Lemma rightsize_attempt (i t : value) (w : history) :
  exists (outcome : result unit) (events : list event),
    rightsize i t w = (outcome, w ++ events) /\ attempt i t outcome events.
Proof.
  unfold Executor.rightsize, and_then, recorded.
  repeat match goal with
         | |- context [call_answer ?h ?c] =>
             let e := fresh "e" in
             destruct (call_answer h c) as [[]|e]; cbn beta iota
         end;
    rewrite <- ?app_assoc; eexists _, _; (split; [reflexivity|]); constructor.
Qed.

Lemma apply_record_log (rec : value) (total : float) (w : history) :
  exists events : list event,
    snd (apply_record rec total w) = w ++ events
    /\ match fst (apply_record rec total w) with
       | Ok _ =>
           exists outcome : result unit,
             attempt (instance_of rec) (recommended_of rec) outcome events
       | Raise _ => events = []
       end.
Proof.
  unfold Executor.apply_record.
  destruct (subscript rec "instance_id") as [i|e] eqn:Hi.
  2: { exists []. rewrite app_nil_r.
       destruct (subscript rec "current_instance_type"),
         (subscript rec "recommended_instance_type"),
         (subscript rec "estimated_savings"), (subscript rec "reason");
         split; reflexivity. }
  destruct (subscript rec "current_instance_type") as [c|e] eqn:Hc.
  2: { exists []. rewrite app_nil_r.
       destruct (subscript rec "recommended_instance_type"),
         (subscript rec "estimated_savings"), (subscript rec "reason");
         split; reflexivity. }
  destruct (subscript rec "recommended_instance_type") as [t|e] eqn:Ht.
  2: { exists []. rewrite app_nil_r.
       destruct (subscript rec "estimated_savings"), (subscript rec "reason");
         split; reflexivity. }
  destruct (subscript rec "estimated_savings") as [s|e] eqn:Hs.
  2: { exists []. rewrite app_nil_r.
       destruct (subscript rec "reason"); split; reflexivity. }
  destruct (subscript rec "reason") as [reason|e] eqn:Hr.
  2: { exists []. rewrite app_nil_r. split; reflexivity. }
  unfold instance_of, recommended_of.
  rewrite (subscript_get _ _ _ Hi), (subscript_get _ _ _ Ht).
  destruct (rightsize_attempt i t w) as (outcome & events & -> & Hattempt).
  exists events. destruct outcome as [[]|e]; (split; [reflexivity|]); eexists; exact Hattempt.
Qed.

Lemma apply_loop_log (recs : list value) :
  forall (changes : list value) (total : float) (w : history),
  exists events : list event,
    snd (apply_loop recs changes total w) = w ++ events
    /\ attempts (targets recs) events.
Proof.
  induction recs as [|rec recs IH]; intros changes total w.
  - exists []. simpl. rewrite app_nil_r. split; [reflexivity | constructor].
  - cbn [Executor.apply_loop].
    destruct (apply_record_log rec total w) as (events & Hw & Hout).
    destruct (apply_record rec total w) as [[[change total1]|e] w1]; simpl in Hw, Hout; subst w1.
    + destruct Hout as [outcome Hattempt].
      destruct (IH (changes ++ [change]) total1 (w ++ events)) as (more & Hmore & Hattempts).
      exists (events ++ more). rewrite Hmore, <- app_assoc. split; [reflexivity|].
      cbn [targets map]. econstructor; eassumption.
    + subst events. exists []. split; [reflexivity | constructor].
Qed.

Lemma apply_step_log (context : dict) (w : history) :
  exists (res : dict) (events : list event),
    apply_step context w = (res, context, w ++ events)
    /\ attempts (targets (to_apply context)) events.
Proof.
  unfold recorded_apply, ApplyRightsizingStep_execute, to_apply.
  destruct (get_default context "validated_recommendations" (VList []))
    as [|b|z|x|s|recs|d] eqn:Hget; cbn [truthy iterate].
  - eexists _, []. rewrite app_nil_r. split; [reflexivity | constructor].
  - destruct b; eexists _, []; rewrite app_nil_r; (split; [reflexivity | constructor]).
  - destruct (z =? 0); eexists _, []; rewrite app_nil_r; (split; [reflexivity | constructor]).
  - destruct (PrimFloat.eqb x 0); eexists _, []; rewrite app_nil_r;
      (split; [reflexivity | constructor]).
  - destruct s as [|c s]; eexists _, []; rewrite app_nil_r;
      (split; [reflexivity | constructor]).
  - destruct recs as [|rec recs].
    { eexists _, []. rewrite app_nil_r. split; [reflexivity | constructor]. }
    cbn [negb].
    destruct (apply_loop_log (rec :: recs) [] 0%float w) as (events & Hw & Hattempts).
    destruct (apply_loop (rec :: recs) [] 0%float w) as [[[changes total]|e] w'];
      simpl in Hw; subst w'; eexists _, events; (split; [reflexivity | exact Hattempts]).
  - destruct d as [|[k v] d]; eexists _, []; rewrite app_nil_r;
      (split; [reflexivity | constructor]).
Qed.

Lemma verify_change_log (change : value) (w : history) :
  exists events : list event,
    snd (Executor.verify_change history (recorded_describe describe_answer) clock change w)
    = w ++ events
    /\ lookups_only events.
Proof.
  unfold Executor.verify_change.
  destruct (subscript change "instance_id") as [i|e].
  2: { exists []. rewrite app_nil_r.
       destruct (subscript change "status"); split; first [reflexivity | constructor]. }
  destruct (subscript change "status") as [status|e].
  2: { exists []. rewrite app_nil_r. split; [reflexivity | constructor]. }
  destruct (eq_str status "failed").
  { exists []. rewrite app_nil_r. split; [reflexivity | constructor]. }
  unfold verify_applied, recorded_describe.
  exists [Looked i (describe_answer w i)].
  split; [|repeat constructor].
  destruct (describe_answer w i) as [state ty| |code msg|msg]; try reflexivity.
  destruct (subscript change "to") as [expected|e]; [|reflexivity].
  destruct (String.eqb state "running" && eq_str expected ty); reflexivity.
Qed.

Lemma verify_loop_log (changes : list value) :
  forall (results : list value) (w : history),
  exists events : list event,
    snd (Executor.verify_loop history (recorded_describe describe_answer) clock
           changes results w) = w ++ events
    /\ lookups_only events.
Proof.
  induction changes as [|change changes IH]; intros results w.
  - exists []. simpl. rewrite app_nil_r. split; [reflexivity | constructor].
  - cbn [Executor.verify_loop].
    destruct (verify_change_log change w) as (events & Hw & Hevents).
    destruct (Executor.verify_change _ _ _ change w) as [[v|e] w1]; simpl in Hw; subst w1.
    + destruct (IH (results ++ [v]) (w ++ events)) as (more & Hmore & Hlook).
      exists (events ++ more). rewrite Hmore, <- app_assoc.
      split; [reflexivity | apply lookups_only_app; assumption].
    + exists events. split; [reflexivity | exact Hevents].
Qed.

Lemma verify_step_log (context : dict) (w : history) :
  exists (res : dict) (events : list event),
    verify_step context w = (res, context, w ++ events) /\ lookups_only events.
Proof.
  unfold recorded_verify, VerifyOptimizationStep_execute.
  destruct (negb (truthy (get_default context "applied_changes" (VList [])))).
  { eexists _, []. rewrite app_nil_r. split; [reflexivity | constructor]. }
  destruct (iterate (get_default context "applied_changes" (VList []))) as [changes|e].
  2: { eexists _, []. rewrite app_nil_r. split; [reflexivity | constructor]. }
  destruct (verify_loop_log changes [] w) as (events & Hw & Hevents).
  destruct (Executor.verify_loop _ _ _ changes [] w) as [[results|e] w'];
    simpl in Hw; subst w'; eexists _, events; (split; [reflexivity | exact Hevents]).
Qed.

(** X14.  On an account that keeps a record of its calls, and whatever the
    account answers, the calls of the apply step are the attempts for the
    validated records in their order, each attempt going through stop, wait,
    modify, start and wait only as far as the calls succeed.  So the type of
    an instance is set only right after the instance was stopped and the
    stop was waited for, and an instance is started again only right after
    its type was set. *)
Theorem apply_step_protocol (context : dict) (w : history) :
  exists (res : dict) (events : list event),
    apply_step context w = (res, context, w ++ events)
    /\ attempts (targets (to_apply context)) events
    /\ (forall (pre post : list event) (i t : value) (outcome : result unit),
        events = pre ++ Called (Modify i t) outcome :: post ->
        exists before : list event,
          pre = before ++ [succeeded (Stop i); succeeded (WaitStopped i)])
    /\ (forall (pre post : list event) (i : value) (outcome : result unit),
        events = pre ++ Called (Start i) outcome :: post ->
        exists (before : list event) (t : value),
          pre = before ++ [succeeded (Stop i); succeeded (WaitStopped i);
                           succeeded (Modify i t)]).
Proof.
  destruct (apply_step_log context w) as (res & events & Hstep & Hattempts).
  exists res, events. split; [exact Hstep|]. split; [exact Hattempts|].
  apply (attempts_in_order _ _ Hattempts).
Qed.

(** *** The validation step on the recording account *)

Lemma validate_record_log (rec : value) (w : history) :
  match validate_record history (recorded_describe describe_answer) rec w with
  | Skipped w' | Aborted _ w' =>
      exists events : list event, w' = w ++ events /\ lookups_only events
  | Validated v _ w' =>
      well_formed v
      /\ exists ty : string, w' = w ++ [Looked (instance_of v) (Found "running" ty)]
  end.
Proof.
  unfold validate_record, recorded_describe.
  destruct rec as [| | | | | |r];
    try (exists []; rewrite app_nil_r; split; [reflexivity | constructor]).
  destruct (negb (all_present r)).
  { exists []. rewrite app_nil_r. split; [reflexivity | constructor]. }
  destruct (describe_answer w (rec_instance_id r)) as [state ty| |code msg|msg] eqn:Hd;
    try (eexists; split; [reflexivity | repeat constructor]).
  destruct (String.eqb_spec state "running"%string) as [->|Hne]; cbn [negb].
  - split.
    + unfold well_formed, validated_rec, subscript. cbn [dict_get String.eqb Ascii.eqb Bool.eqb].
      eexists _, _, _, _, _. repeat split; reflexivity.
    + exists ty. reflexivity.
  - eexists. split; [reflexivity | repeat constructor].
Qed.

Lemma seen_running_more (events more : list event) (rec : value) :
  seen_running more rec -> seen_running (events ++ more) rec.
Proof.
  intros (Hwf & ty & Hin). split; [exact Hwf|]. exists ty.
  apply in_or_app. right. exact Hin.
Qed.

Lemma validate_loop_log (todo : list value) :
  forall (validated visited : list value) (w : history),
  exists events : list event,
    snd (validate_loop history (recorded_describe describe_answer)
           todo validated visited w) = w ++ events
    /\ lookups_only events
    /\ match fst (fst (validate_loop history (recorded_describe describe_answer)
                         todo validated visited w)) with
       | Ok validated' =>
           exists new : list value,
             validated' = validated ++ new /\ Forall (seen_running events) new
       | Raise _ => True
       end.
Proof.
  induction todo as [|rec todo IH]; intros validated visited w.
  - exists []. simpl. rewrite app_nil_r. split; [reflexivity|]. split; [constructor|].
    exists []. rewrite app_nil_r. split; [reflexivity | constructor].
  - cbn [validate_loop]. pose proof (validate_record_log rec w) as Hrec.
    destruct (validate_record history (recorded_describe describe_answer) rec w)
      as [w1|v rec' w1|msg w1].
    + destruct Hrec as (events & -> & Hevents).
      destruct (IH validated (visited ++ [rec]) (w ++ events)) as (more & Hw & Hmore & Hout).
      destruct (validate_loop history (recorded_describe describe_answer) todo validated
                  (visited ++ [rec]) (w ++ events)) as [[out vis] w2].
      simpl in Hw, Hout |- *. subst w2.
      exists (events ++ more). rewrite <- app_assoc. split; [reflexivity|].
      split; [apply lookups_only_app; assumption|].
      destruct out; [|exact I].
      destruct Hout as (new & -> & Hnew). exists new. split; [reflexivity|].
      eapply List.Forall_impl; [|exact Hnew]. intros x. apply seen_running_more.
    + destruct Hrec as (Hwf & ty & ->).
      destruct (IH (validated ++ [v]) (visited ++ [rec'])
                  (w ++ [Looked (instance_of v) (Found "running" ty)]))
        as (more & Hw & Hmore & Hout).
      destruct (validate_loop history (recorded_describe describe_answer) todo
                  (validated ++ [v]) (visited ++ [rec'])
                  (w ++ [Looked (instance_of v) (Found "running" ty)])) as [[out vis] w2].
      simpl in Hw, Hout |- *. subst w2.
      exists ([Looked (instance_of v) (Found "running" ty)] ++ more).
      rewrite <- app_assoc. split; [reflexivity|].
      split; [apply lookups_only_app; [repeat constructor | exact Hmore]|].
      destruct out; [|exact I].
      destruct Hout as (new & -> & Hnew). exists (v :: new).
      rewrite <- app_assoc. split; [reflexivity|]. constructor.
      * split; [exact Hwf|]. exists ty. left. reflexivity.
      * eapply List.Forall_impl; [|exact Hnew]. intros x. apply seen_running_more.
    + destruct Hrec as (events & -> & Hevents). exists events.
      split; [reflexivity|]. split; [exact Hevents | exact I].
Qed.

(** The validation step looks instances up and calls nothing; unless it
    fails, its result holds the validated records, each of an instance that
    a lookup of the step found running. *)
Lemma validate_step_log (context : dict) (w : history) :
  exists (res context' : dict) (events : list event),
    validate_step context w = (res, context', w ++ events)
    /\ lookups_only events
    /\ (failed res = true
        \/ (failed res = false
            /\ exists validated : list value,
                 dict_get (rev res) "validated_recommendations" = Some (VList validated)
                 /\ Forall (seen_running events) validated)).
Proof.
  unfold ValidateRecommendationsStep_execute, validate_recommendations.
  set (recommendations := get_default context "recommendations" (VList [])).
  destruct (negb (truthy recommendations)).
  { eexists _, _, []. rewrite app_nil_r. split; [reflexivity|]. split; [constructor|].
    right. split; [reflexivity|]. exists []. split; [reflexivity | constructor]. }
  destruct recommendations as [| | | | |recs|];
    try (eexists _, _, []; rewrite app_nil_r; split; [reflexivity|];
         split; [constructor | left; reflexivity]).
  destruct (validate_loop_log recs [] [] w) as (events & Hw & Hevents & Hout).
  destruct (validate_loop history (recorded_describe describe_answer) recs [] [] w)
    as [[[validated|msg] recs'] w']; simpl in Hw, Hout; subst w'.
  - destruct Hout as (new & -> & Hnew).
    eexists _, _, events. split; [reflexivity|]. split; [exact Hevents|].
    right. split; [reflexivity|]. exists new. split; [reflexivity | exact Hnew].
  - eexists _, _, events. split; [reflexivity|]. split; [exact Hevents|].
    left. reflexivity.
Qed.

(** *** The whole workflow on the recording account *)

Lemma calls_after_lookup (L1 L2 L3 : list event) (tg : list (value * value)) :
  lookups_only L1 -> attempts tg L2 -> lookups_only L3 ->
  (forall i t : value, In (i, t) tg ->
     exists ty : string, In (Looked i (Found "running" ty)) L1) ->
  forall (pre post : list event) (c : call) (outcome : result unit),
    L1 ++ L2 ++ L3 = pre ++ Called c outcome :: post ->
    exists ty : string, In (Looked (target c) (Found "running" ty)) pre.
Proof.
  intros H1 H2 H3 Htg pre post c outcome Heq.
  destruct (split_at _ _ _ _ _ Heq) as [(mid & -> & _)|(pre2 & -> & Heq2)].
  - exfalso. apply (lookups_only_no_call _ c outcome H1).
    apply in_or_app. right. left. reflexivity.
  - assert (Hin : In (Called c outcome) L2).
    { assert (Hin : In (Called c outcome) (L2 ++ L3))
        by (rewrite Heq2; apply in_or_app; right; left; reflexivity).
      apply in_app_or in Hin as [Hin|Hin]; [exact Hin|].
      exfalso. exact (lookups_only_no_call _ c outcome H3 Hin). }
    destruct (attempts_target _ _ _ _ H2 Hin) as [t Ht].
    destruct (Htg _ _ Ht) as [ty Hty]. exists ty. apply in_or_app. left. exact Hty.
Qed.

Lemma targets_seen (events : list event) (validated : list value) :
  Forall (seen_running events) validated ->
  forall i t : value, In (i, t) (targets validated) ->
    exists ty : string, In (Looked i (Found "running" ty)) events.
Proof.
  intros Hall i t Hin. unfold targets in Hin. apply in_map_iff in Hin as (v & [= <- _] & Hv).
  rewrite List.Forall_forall in Hall. destruct (Hall v Hv) as (_ & ty & Hty). eauto.
Qed.

Lemma to_apply_validated (context res : dict) (validated : list value) :
  dict_get (rev res) "validated_recommendations" = Some (VList validated) ->
  to_apply (dict_update context res) = validated.
Proof.
  intros H. unfold to_apply, get_default. rewrite dict_get_update, H. reflexivity.
Qed.

(** X15.  On an account that keeps a record of its lookups and calls, and
    whatever the account answers, the workflow [optimize_existing_instances]
    returns, and every call it makes to stop, modify or start an instance,
    or to wait for it, comes after a lookup of this run that found that
    instance running: an instance that validation did not see running is
    never touched, whatever the context holds. *)
Theorem workflow_touches_running_instances_only (hex8 : string) (context : dict)
    (w : history) :
  exists (r : run history) (events : list event),
    recorded_run describe_answer call_answer clock float_of_str hex8
      "optimize_existing_instances" context w
    = Some (String.append "strands-" hex8, r)
    /\ final_world r = w ++ events
    /\ forall (pre post : list event) (c : call) (outcome : result unit),
         events = pre ++ Called c outcome :: post ->
         exists ty : string, In (Looked (target c) (Found "running" ty)) pre.
Proof.
  unfold recorded_run, run_workflow, _run_via_strands. rewrite blueprint_optimize.
  cbn [run_steps name step].
  change (execute_step _ _ _ _ _ _ _ _ _ "validate_recommendations")
    with validate_step.
  destruct (validate_step_log context w) as (res1 & ctx1 & L1 & -> & Hl1 & Hcases).
  cbn beta iota. fold (failed res1).
  destruct Hcases as [Hf1|(Hf1 & validated & Hvalidated & Hseen)]; rewrite Hf1.
  { eexists _, L1. split; [reflexivity|]. split; [reflexivity|].
    intros pre post c outcome ->. exfalso.
    apply (lookups_only_no_call _ c outcome Hl1). apply in_or_app. right. left. reflexivity. }
  cbn [run_steps name step].
  change (execute_step _ _ _ _ _ _ _ _ _ "apply_rightsizing") with apply_step.
  destruct (apply_step_log (dict_update ctx1 res1) (w ++ L1)) as (res2 & L2 & -> & Hattempts).
  rewrite (to_apply_validated _ _ _ Hvalidated) in Hattempts.
  cbn beta iota. fold (failed res2).
  destruct (failed res2).
  { eexists _, (L1 ++ L2). split; [reflexivity|].
    split; [cbn [final_world]; rewrite app_assoc; reflexivity|].
    intros pre post c outcome Heq.
    apply (calls_after_lookup L1 L2 [] (targets validated) Hl1 Hattempts
             (List.Forall_nil _) (targets_seen _ _ Hseen) pre post c outcome).
    rewrite app_nil_r. exact Heq. }
  cbn [run_steps name step].
  change (execute_step _ _ _ _ _ _ _ _ _ "verify_optimization") with verify_step.
  destruct (verify_step_log (dict_update (dict_update ctx1 res1) res2) ((w ++ L1) ++ L2))
    as (res3 & L3 & -> & Hl3).
  cbn beta iota. fold (failed res3).
  destruct (failed res3).
  - eexists _, (L1 ++ L2 ++ L3). split; [reflexivity|].
    split; [cbn [final_world]; rewrite !app_assoc; reflexivity|].
    apply (calls_after_lookup L1 L2 L3 (targets validated) Hl1 Hattempts Hl3
             (targets_seen _ _ Hseen)).
  - eexists _, (L1 ++ L2 ++ L3). split; [reflexivity|].
    split; [cbn [final_world run_steps]; rewrite !app_assoc; reflexivity|].
    apply (calls_after_lookup L1 L2 L3 (targets validated) Hl1 Hattempts Hl3
             (targets_seen _ _ Hseen)).
Qed.

End Recorded.

Lemma apply_step_changes_witness :
  exists (changes : list value) (total : float) (w' : history),
    recorded_apply (fun _ _ => Ok tt) (fun _ => "2025-01-01T00:00:00"%string)
      (fun _ => Ok 50%float)
      [("validated_recommendations"%string, VList [demo_validated])] []
    = (apply_result changes total,
       [("validated_recommendations"%string, VList [demo_validated])], w')
    /\ Forall2 change_of [demo_validated] changes.
Proof.
  destruct (apply_step_changes history
              (fun i => recorded (fun _ _ => Ok tt) (Stop i))
              (fun i => recorded (fun _ _ => Ok tt) (WaitStopped i))
              (fun i t => recorded (fun _ _ => Ok tt) (Modify i t))
              (fun i => recorded (fun _ _ => Ok tt) (Start i))
              (fun i => recorded (fun _ _ => Ok tt) (WaitRunning i))
              (fun _ => "2025-01-01T00:00:00"%string) (fun _ => Ok 50%float)
              [("validated_recommendations"%string, VList [demo_validated])]
              [demo_validated] [] eq_refl)
    as (changes & total & w' & Hstep & Hchanges & _).
  - constructor; [|constructor]. eexists _, _, _, _, _. repeat split; reflexivity.
  - exists changes, total, w'. split; [exact Hstep | exact Hchanges].
Defined.

Lemma verify_step_results_witness :
  exists results : list value,
    recorded_verify (fun _ _ => Found "running" "m5.large"%string)
      (fun _ => "2025-01-01T00:00:00"%string)
      [("applied_changes"%string, VList demo_changes)] []
    = (verify_result results, [("applied_changes"%string, VList demo_changes)], [])
    /\ dict_get (verify_result results) "status" = Some (VStr "failed").
Proof.
  destruct (verify_step_results history
              (recorded_describe (fun _ _ => Found "running" "m5.large"%string))
              (fun _ => "2025-01-01T00:00:00"%string)
              [("applied_changes"%string, VList demo_changes)] demo_changes [] eq_refl)
    as (results & w' & Hstep & _ & _ & Hfailed).
  - constructor; [|constructor]. eexists _, _. split; reflexivity.
  - destruct Hfailed as [-> Hstatus]; [repeat constructor|].
    exists results. split; [exact Hstep | exact Hstatus].
Defined.

Lemma workflow_with_nothing_valid_witness :
  exists r : run history,
    demo_run [] = Some ("strands-0a1b2c3d"%string, r)
    /\ status_of r = Some (VStr "completed")
    /\ final_world r = [].
Proof.
  destruct (workflow_with_nothing_valid history
              (recorded_describe (fun _ _ => Found "running" "m5.large"%string))
              (fun i => recorded (fun _ _ => Ok tt) (Stop i))
              (fun i => recorded (fun _ _ => Ok tt) (WaitStopped i))
              (fun i t => recorded (fun _ _ => Ok tt) (Modify i t))
              (fun i => recorded (fun _ _ => Ok tt) (Start i))
              (fun i => recorded (fun _ _ => Ok tt) (WaitRunning i))
              (fun _ => "2025-01-01T00:00:00"%string) (fun _ => Ok 50%float)
              "0a1b2c3d"%string [] [] _ _ _ eq_refl eq_refl)
    as (r & Hrun & Hstatus & _ & _ & _ & Hworld).
  exists r. split; [exact Hrun|]. split; [exact Hstatus | exact Hworld].
Defined.

Lemma other_actions_stop_at_first_step_witness :
  exists r : run history,
    recorded_run (fun _ _ => Found "running" "m5.large"%string) (fun _ _ => Ok tt)
      (fun _ => "2025-01-01T00:00:00"%string) (fun _ => Ok 50%float)
      "0a1b2c3d" "Shutdown-Idle" [] []
    = Some ("strands-0a1b2c3d"%string, r)
    /\ map fst (executed r) = ["identify_idle_resources"%string]
    /\ status_of r = Some (VStr "failed")
    /\ final_world r = [].
Proof.
  destruct (other_actions_stop_at_first_step history
              (recorded_describe (fun _ _ => Found "running" "m5.large"%string))
              (fun i => recorded (fun _ _ => Ok tt) (Stop i))
              (fun i => recorded (fun _ _ => Ok tt) (WaitStopped i))
              (fun i t => recorded (fun _ _ => Ok tt) (Modify i t))
              (fun i => recorded (fun _ _ => Ok tt) (Start i))
              (fun i => recorded (fun _ _ => Ok tt) (WaitRunning i))
              (fun _ => "2025-01-01T00:00:00"%string) (fun _ => Ok 50%float)
              "0a1b2c3d"%string "Shutdown-Idle"%string [] [])
    as (r & first & rest & Hrun & Hblueprint & _ & Hexecuted & Hstatus & _ & Hworld).
  - vm_compute. discriminate.
  - injection Hblueprint as <- _.
    exists r. split; [exact Hrun|]. split; [exact Hexecuted|].
    split; [exact Hstatus | exact Hworld].
Defined.

(** A run of the demo account: the instance is looked up, found running,
    and then stopped, changed and started. *)
Example demo_run_events :
  exists r : run history,
    demo_run [ ("recommendations"%string,
                VList [ VDict [ ("instance_id", VStr "i-1");
                                ("current_instance_type", VStr "m5.large");
                                ("recommended_instance_type", VStr "t3.medium") ] ]%string) ]
    = Some ("strands-0a1b2c3d"%string, r)
    /\ final_world r
       = [ Looked (VStr "i-1") (Found "running" "m5.large");
           succeeded (Stop (VStr "i-1")); succeeded (WaitStopped (VStr "i-1"));
           succeeded (Modify (VStr "i-1") (VStr "t3.medium"));
           succeeded (Start (VStr "i-1")); succeeded (WaitRunning (VStr "i-1"));
           Looked (VStr "i-1") (Found "running" "m5.large") ]%string
    /\ status_of r = Some (VStr "failed").
Proof. eexists. split; [reflexivity|]. split; reflexivity. Qed.

End ExecutorProofs.

(** ** The answers of the automation endpoint *)

Module AutomationProofs.
Import Py Api Agent.
Local Open Scope string_scope.

Section Answers.

Variable h : host.

(** What [dispatch] answers, by the bearer token. *)
Lemma dispatch_cases (req : request) (recommendations : value) (processed : nat) :
  (has_token req = false
   /\ dispatch h req recommendations processed
      = _error_response "Bearer token required for workflow execution" 401 None)
  \/ (has_token req = true
      /\ ((exists e : string,
              dispatch h req recommendations processed
              = _error_response (String.append "Workflow agent failed: " e) 500 None)
          \/ (exists (plan : string) (payload : value),
                 build_plan h recommendations = Ok plan
                 /\ lambda_invoke h payload = Ok tt
                 /\ get (entries payload) "recommendations" = recommendations
                 /\ dispatch h req recommendations processed
                    = accepted (String.append "workflow-" (str_of_Z (time_ms h)))
                        plan processed))).
Proof.
  unfold dispatch, has_token.
  destruct (bearer_of (authorization req)) as [t|]; [|left; split; reflexivity].
  destruct (String.eqb t "") eqn:Ht; [left; split; reflexivity|].
  right. split; [reflexivity|].
  destruct (build_plan h recommendations) as [plan|e]; [|left; exists e; reflexivity].
  match goal with
  | |- context [lambda_invoke h ?p] => destruct (lambda_invoke h p) as [[]|e] eqn:Hinvoke
  end.
  - right. eexists _, _. split; [reflexivity|]. split; [exact Hinvoke|].
    split; reflexivity.
  - left. exists e. reflexivity.
Qed.


(** X17.  The request that the tool [execute_rightsizing_workflow] posts has
    no bearer token: whatever recommendations it carries, the endpoint
    answers it 503 when no target is configured and 401 when one is, and
    never 202. *)
Theorem tool_request_not_accepted (recommendations resource_types : list value) :
  status_code (automation h (posted recommendations resource_types))
  = (if target_configured h then 401 else 503)
  /\ status_code (automation h (posted recommendations resource_types)) <> 202.
Proof.
  assert (Hcarries : carries (posted recommendations resource_types) recommendations).
  { eexists _, _. split; [reflexivity|]. split; reflexivity. }
  rewrite (ApiProofs.automation_reaches_gate h _ _ Hcarries).
  destruct (target_configured h); split; try reflexivity; discriminate.
Qed.

End Answers.

End AutomationProofs.
